(** * The tool-metrics hook pipeline (hooks/tool-metrics.js)

    A shallow embedding of the metrics hook: session resolution, context
    building, per-tool metric extraction, the metrics sink with its local
    fallback, the productivity aggregator, the orchestrator [main] and
    the command line entry point.

    Conventions of the embedding.
    - A JavaScript string is the list of its UTF-16 code units.
    - A JavaScript number is the exact rational it denotes; NaN and the
      infinities are not represented.  The arithmetic of the aggregator
      is carried out exactly; the execution time that [main] reports is
      computed with the rounding of IEEE 754 doubles ([double]).
    - Dynamically typed data (tool input, event records) is a [value];
      an object is the list of its own properties in enumeration order.
      There are no function values: a property is never callable.
    - The implicit conversions of the language ([ToString], [ToNumber])
      throw a [TypeError] on a value that has no primitive value.
    - [async] functions are run to completion one after the other, so a
      function is a state transformer over the outside world that either
      returns or throws: the monad [M].
    - The outside world (file system, environment, clock, the remote
      metrics client of ./metrics-api-client) is a parameter: the class
      [Platform].  What the language, Node.js and fs-extra throw is an
      [Error] object; the remote client may throw any value.  Console
      output is not part of the model. *)

From Stdlib Require Import QArith Qminmax Qabs Qround Qpower Lqa.
From Stdlib Require Import Ascii String DecimalString.
From stdpp Require Import base option list gmap strings.

Set Warnings "-register-all".

(* ===================================================================== *)
(** ** JavaScript strings *)
(* ===================================================================== *)

Definition jsstring := list N.

(** A literal of the source text, code unit by code unit. *)
Definition lit (s : string) : jsstring :=
  (fun a => N_of_ascii a) <$> list_ascii_of_string s.

Coercion lit : string >-> jsstring.

Definition LF : N := 10%N.
Definition SPACE : N := 32%N.

(** [s.split(sep)] for a separator of one code unit. *)
Fixpoint split (sep : N) (s : jsstring) : list jsstring :=
  match s with
  | [] => [[]]
  | c :: s' =>
      if N.eqb c sep then [] :: split sep s'
      else match split sep s' with
           | seg :: segs => (c :: seg) :: segs
           | [] => [[c]]
           end
  end.

(** WhiteSpace and LineTerminator code points of ECMA-262, the ones
    [String.prototype.trim] strips. *)
Definition is_whitespace (c : N) : bool :=
  (N.leb 9 c && N.leb c 13) || N.eqb c 32 || N.eqb c 160
  || N.eqb c 5760 || (N.leb 8192 c && N.leb c 8202)
  || N.eqb c 8232 || N.eqb c 8233 || N.eqb c 8239 || N.eqb c 8287
  || N.eqb c 12288 || N.eqb c 65279.

Fixpoint trimStart (s : jsstring) : jsstring :=
  match s with
  | [] => []
  | c :: s' => if is_whitespace c then trimStart s' else s
  end.

Definition trimEnd (s : jsstring) : jsstring :=
  reverse (trimStart (reverse s)).

Definition trim (s : jsstring) : jsstring := trimEnd (trimStart s).

(** Array index [i] as a property name. *)
Definition index_key (i : nat) : jsstring :=
  lit (NilZero.string_of_uint (Nat.to_uint i)).

(** A string that has the given shape, one test per code unit. *)
Fixpoint matches (shape : list (N -> bool)) (s : jsstring) : bool :=
  match shape, s with
  | [], [] => true
  | test :: shape', c :: s' => test c && matches shape' s'
  | _, _ => false
  end.

Definition digit (c : N) : bool := N.leb 48 c && N.leb c 57.
Definition char (a : ascii) (c : N) : bool := N.eqb c (N_of_ascii a).
Definition sign (c : N) : bool := char "+" c || char "-" c.

(** The ISO 8601 format [formatISO] of date-fns produces by default: the
    complete date and time in the extended format, followed by [Z] or by
    the offset from UTC, as in [2019-09-18T19:00:52+02:00]. *)
Definition ISO_8601 (s : jsstring) : bool :=
  let date_time :=
    [digit; digit; digit; digit; char "-"; digit; digit; char "-"; digit; digit;
     char "T"; digit; digit; char ":"; digit; digit; char ":"; digit; digit] in
  matches (date_time ++ [char "Z"]) s
  || matches (date_time ++ [sign; digit; digit; char ":"; digit; digit]) s.

(* ===================================================================== *)
(** ** JavaScript values *)
(* ===================================================================== *)

(** An [Error] instance. *)
Record JSError := mkError { err_name : jsstring; err_message : jsstring }.

Inductive value :=
| Undefined
| Null
| Bool (b : bool)
| Num (q : Q)
| Str (s : jsstring)
| Arr (items : list value)
| Obj (fields : list (jsstring * value))
| Err (e : JSError).

Definition obj := list (jsstring * value).

Definition truthy (v : value) : bool :=
  match v with
  | Undefined | Null => false
  | Bool b => b
  | Num q => negb (Qeq_bool q 0)
  | Str s => match s with [] => false | _ => true end
  | Arr _ | Obj _ | Err _ => true
  end.

(** [a || b] *)
Definition js_or (a b : value) : value := if truthy a then a else b.

(** [v === 'literal'] *)
Definition is_str (v : value) (s : jsstring) : bool :=
  match v with
  | Str t => bool_decide (t = s)
  | _ => false
  end.

(** Own property lookup. *)
Fixpoint obj_lookup (k : jsstring) (o : obj) : option value :=
  match o with
  | [] => None
  | (k', v) :: o' => if bool_decide (k' = k) then Some v else obj_lookup k o'
  end.

(** [k in o] for a property name that no prototype defines. *)
Definition has_key (k : jsstring) (o : obj) : bool :=
  match obj_lookup k o with Some _ => true | None => false end.

(** [o.k] on an object record. *)
Definition obj_get (k : jsstring) (o : obj) : value :=
  default Undefined (obj_lookup k o).

(** [o.k = v]: overwrite in place, or append a new property. *)
Fixpoint obj_set (k : jsstring) (v : value) (o : obj) : obj :=
  match o with
  | [] => [(k, v)]
  | (k', v') :: o' =>
      if bool_decide (k' = k) then (k', v) :: o' else (k', v') :: obj_set k v o'
  end.

(** [Object.assign(target, source)] *)
Definition Object_assign (target source : obj) : obj :=
  fold_left (fun t kv => obj_set kv.1 kv.2 t) source target.

(** [v.k] for a value that is not null or undefined, and a property name
    that is on no built-in prototype. *)
Definition get_prop (v : value) (k : jsstring) : value :=
  match v with
  | Obj fields => obj_get k fields
  | Err e =>
      if bool_decide (k = lit "message") then Str (err_message e)
      else if bool_decide (k = lit "name") then Str (err_name e)
      else Undefined
  | _ => Undefined
  end.

(** [Object.keys(v)] for a value that is not null or undefined. *)
Definition Object_keys (v : value) : list jsstring :=
  match v with
  | Obj fields => fields.*1
  | Arr items => index_key <$> seq 0 (length items)
  | Str s => index_key <$> seq 0 (length s)
  | _ => []
  end.

Definition TypeError (msg : jsstring) : JSError :=
  mkError (lit "TypeError") msg.

(** The values [ToPrimitive] throws on.  An object whose own [toString]
    property hides the method of [Object.prototype] has no primitive
    value: that property is not callable, and [valueOf], inherited or
    hidden as well, gives back no primitive.  An array is converted by
    joining the conversions of its elements, [null] and [undefined]
    counting as the empty string. *)
Fixpoint unconvertible (v : value) : bool :=
  match v with
  | Obj fields => has_key "toString" fields
  | Arr items => existsb unconvertible items
  | _ => false
  end.

Definition no_primitive_value : JSError :=
  TypeError "Cannot convert object to primitive value".

(** [error.message], which throws on [null] and [undefined]. *)
Definition message_of (error : value) : JSError + value :=
  match error with
  | Undefined =>
      inl (TypeError "Cannot read properties of undefined (reading 'message')")
  | Null =>
      inl (TypeError "Cannot read properties of null (reading 'message')")
  | _ => inr (get_prop error "message")
  end.

(** [Math.round], [Math.abs], [Math.max] on rationals. *)
Definition Math_round (q : Q) : Q := inject_Z (Qfloor (q + (1 # 2))).
Definition Math_abs (q : Q) : Q := Qabs q.
Definition Math_max (a b : Q) : Q := Qmax a b.

(** [0 < q] as the test [q > 0] of the source. *)
Definition Qgtb (a b : Q) : bool := negb (Qle_bool a b).

Definition of_nat (n : nat) : Q := inject_Z (Z.of_nat n).

(* ===================================================================== *)
(** ** IEEE 754 doubles *)
(* ===================================================================== *)

(** The exponent of the binade of a rational that is not zero: the [e]
    with [2^e <= |q| < 2^(e+1)]. *)
Definition binade (q : Q) : Z :=
  let e := (Z.log2 (Z.abs (Qnum q)) - Z.log2 (Zpos (Qden q)))%Z in
  if Qle_bool (2 ^ e)%Q (Qabs q) then e else (e - 1)%Z.

(** Rounding to the nearest integer, a tie going to the even one. *)
Definition round_half_even (q : Q) : Z :=
  let below := Qfloor q in
  match (q - inject_Z below ?= 1 # 2)%Q with
  | Lt => below
  | Gt => (below + 1)%Z
  | Eq => if Z.even below then below else (below + 1)%Z
  end.

(** The spacing of the doubles around [q]: 53 significant bits, and the
    spacing of the subnormal numbers below [2^-1022]. *)
Definition ulp (q : Q) : Q := (2 ^ (Z.max (binade q) (-1022) - 52))%Q.

(** The double nearest to a rational (round to nearest, ties to even),
    which is what every arithmetic operation on numbers returns.  The
    result is exact for magnitudes below [2^1024]; beyond, where the
    operations return an infinity, the model does not follow. *)
Definition double (q : Q) : Q :=
  if Qeq_bool q 0 then 0%Q
  else Qred (inject_Z (round_half_even (q / ulp q)) * ulp q)%Q.

(* ===================================================================== *)
(** ** Computations: state passing with exceptions *)
(* ===================================================================== *)

(** A computation without effects that returns or throws. *)
#[global] Instance sum_ret : MRet (sum JSError) := fun A a => inr a.

#[global] Instance sum_bind : MBind (sum JSError) := fun A B k m =>
  match m with
  | inl e => inl e
  | inr a => k a
  end.

Inductive Res (S A : Type) : Type :=
| Ok (a : A) (s : S)
| Throw (e : JSError) (s : S).
Arguments Ok {S A} a s.
Arguments Throw {S A} e s.

Definition M (S A : Type) : Type := S -> Res S A.

#[global] Instance M_ret {S} : MRet (M S) := fun A a s => Ok a s.

#[global] Instance M_bind {S} : MBind (M S) := fun A B k m s =>
  match m s with
  | Ok a s' => k a s'
  | Throw e s' => Throw e s'
  end.

#[global] Instance M_throw {S} : MThrow JSError (M S) := fun A e s => Throw e s.

(** [try { m } catch (e) { h e }] *)
Definition try_catch {S A} (m : M S A) (h : JSError -> M S A) : M S A :=
  fun s => match m s with
           | Ok a s' => Ok a s'
           | Throw e s' => h e s'
           end.

(** Reading the state, an operation that cannot throw, and a computation
    without effects. *)
Definition gets {S A} (f : S -> A) : M S A := fun s => Ok (f s) s.
Definition total {S A} (f : S -> A * S) : M S A :=
  fun s => Ok (f s).1 (f s).2.
Definition pure {S A} (r : JSError + A) : M S A :=
  fun s => match r with
           | inr a => Ok a s
           | inl e => Throw e s
           end.

(** The state in which a computation ends, returning or throwing. *)
Definition end_state {S A} (r : Res S A) : S :=
  match r with
  | Ok _ s | Throw _ s => s
  end.

(** How a call into ./metrics-api-client ends: it returns, or it throws
    a value, which need not be an [Error]. *)
Inductive Settled (S A : Type) : Type :=
| Resolved (a : A) (s : S)
| Rejected (reason : value) (s : S).
Arguments Resolved {S A} a s.
Arguments Rejected {S A} reason s.

(** Ghost instrumentation: a computation over the world run next to a
    log of type [list T], and the logging step itself. *)
Definition lift {W T A} (m : M W A) : M (W * list T) A :=
  fun st => match m st.1 with
            | Ok a w' => Ok a (w', st.2)
            | Throw e w' => Throw e (w', st.2)
            end.
Definition record_call {W T} (c : T) : M (W * list T) unit :=
  fun st => Ok tt (st.1, st.2 ++ [c]).

(* ===================================================================== *)
(** ** Data model *)
(* ===================================================================== *)

(** An entry of [tools_used] or of [agents_invoked]: a count, or the
    text that [+ 1] makes of an entry that is not a number. *)
Inductive entry :=
| Count (q : Q)
| Text (s : jsstring).

(** The productivity indicators document, as the typed view of
    productivity-indicators.json: its counters are numbers, its two maps
    are objects, or absent, with entries as above. *)
Record Indicators := {
  session_start : value;
  commands_executed : Q;
  tools_used : option (gmap jsstring entry);
  files_modified : Q;
  lines_changed : Q;
  agents_invoked : option (gmap jsstring entry);
  success_rate : Q;
  last_activity : value
}.

(** The raw invocation handed to [main]. *)
Module ToolData.
Record t := {
  toolName : value;
  toolInput : value;
  error : value;
  executionTime : value
}.
End ToolData.

(** The hook context of [createPostToolUseContext]. *)
Module Context.
Record t := {
  tool_name : value;
  tool_input : value;
  error : value;
  timestamp : jsstring;
  environment : value
}.
End Context.

(** What [logMetrics] returns. *)
Module Outcome.
Record t := {
  success : value;
  method : value;
  message : value;
  error : value
}.
End Outcome.

(** What [main] returns: the two object literals of its two exits. *)
Module Report.
Record summary := {
  toolName : value;
  successful : bool;
  metricsLogged : value;
  apiMethod : value;
  apiMessage : value
}.
Record t := {
  success : bool;
  executionTime : Q;
  memoryUsage : option Q;
  metrics : option summary;
  errorMessage : option jsstring
}.
End Report.

(** The files of the metrics directory [<home>/.ai-mesh/metrics]. *)
Inductive MetricsFile :=
| MetricsDir            (* . *)
| ToolMetricsLog        (* tool-metrics.jsonl *)
| RealtimeDir           (* realtime *)
| ActivityLog           (* realtime/activity.log *)
| CurrentSessionIdFile  (* .current-session-id *)
| IndicatorsFile        (* productivity-indicators.json *)
| DashboardActive       (* .dashboard-active *)
| RealtimeLog.          (* realtime.log *)

(** The calls [main] makes to the sink and to the aggregator. *)
Inductive Call :=
| ToSink (data : obj)
| ToAggregator (data : obj).

(* ===================================================================== *)
(** ** The outside world *)
(* ===================================================================== *)

(** Everything the hook obtains from Node.js, fs-extra, date-fns and
    ./metrics-api-client.  [string_of] and [number_of] are the results
    of the implicit conversions on the values that have a primitive
    value, fixed only where they are the identity.  [path.extname]
    returns on a string and throws [ERR_INVALID_ARG_TYPE], a
    [TypeError], on anything else.  [formatISO] returns a date in the
    format it is named after.  [sendToBackendWithFallback] and
    [MetricsApiClient] belong to ./metrics-api-client, which is not
    among the sources: any behaviour is allowed for them. *)
Class Platform (W : Type) := {
  string_of : value -> jsstring;
  string_of_Str : forall s, string_of (Str s) = s;
  number_of : value -> Q;
  number_of_Num : forall q, number_of (Num q) = q;
  JSON_stringify : obj -> jsstring;
  path_extname : jsstring -> jsstring;
  ERR_INVALID_ARG_TYPE : value -> JSError;
  ERR_INVALID_ARG_TYPE_name :
    forall v, err_name (ERR_INVALID_ARG_TYPE v) = lit "TypeError";
  (* process *)
  env_CLAUDE_SESSION_ID : W -> option jsstring;
  env_USER : W -> option jsstring;
  process_environment : W -> value;
  hrtime_bigint : W -> Z * W;
  memoryUsage_heapUsed : W -> Q * W;
  (* date-fns and Date *)
  formatISO_now : W -> jsstring * W;
  formatISO_format : forall w, ISO_8601 (formatISO_now w).1 = true;
  toLocaleTimeString_now : W -> jsstring * W;
  (* fs-extra *)
  fs_pathExists : MetricsFile -> W -> bool * W;
  fs_readFile : MetricsFile -> M W jsstring;
  fs_ensureDir : MetricsFile -> M W unit;
  fs_appendFile : MetricsFile -> jsstring -> M W unit;
  fs_readJSON : MetricsFile -> M W Indicators;
  fs_writeJSON : MetricsFile -> Indicators -> M W unit;
  fs_existsSync : value -> W -> bool;
  fs_statSync_size : value -> M W Q;
  (* ./metrics-api-client *)
  ApiClient : Type;
  new_MetricsApiClient : W -> Settled W ApiClient;
  sendToBackendWithFallback :
    ApiClient -> obj -> (obj -> M W unit) -> W -> Settled W Outcome.t
}.

(** [process.env.X] as a value. *)
Definition env_value (x : option jsstring) : value :=
  match x with
  | Some s => Str s
  | None => Undefined
  end.

(* ===================================================================== *)
(** ** The hook *)
(* ===================================================================== *)

Section Hook.
Context {W : Type} {P : Platform W}.

(** *** Implicit conversions *)

(** [String(v)], a template literal [`${v}`], and [v] used as a property
    name. *)
Definition ToString (v : value) : JSError + jsstring :=
  if unconvertible v then inl no_primitive_value else inr (string_of v).

(** [v] where a number is expected, as in [Math.round(v)]. *)
Definition ToNumber (v : value) : JSError + Q :=
  if unconvertible v then inl no_primitive_value else inr (number_of v).

(** *** Metrics sink *)

(** The template literal of the activity log. *)
Definition activity_line (timestamp toolName status : value) : JSError + jsstring :=
  timestamp ← ToString timestamp;
  toolName ← ToString toolName;
  status ← ToString status;
  mret (timestamp ++ lit "|tool_complete|" ++ toolName ++ lit "|" ++ status ++ [LF]).

(** The closure [localFallback] of [logMetrics]. *)
Definition localFallback (metricsData : obj) : M W unit :=
  fs_ensureDir MetricsDir;;
  fs_appendFile ToolMetricsLog (JSON_stringify metricsData ++ [LF]);;
  fs_ensureDir RealtimeDir;;
  timestamp ←
    (if truthy (obj_get "timestamp" metricsData)
     then mret (obj_get "timestamp" metricsData)
     else now ← total formatISO_now; mret (Str now));
  let toolName := js_or (obj_get "tool_name" metricsData) (Str "unknown") in
  let status := js_or (obj_get "status" metricsData) (Str "unknown") in
  line ← pure (activity_line timestamp toolName status);
  fs_appendFile ActivityLog line.

(** The body of the outer [try] of [logMetrics]: the remote submission. *)
Definition remote_submission (data : obj) (w : W) : Settled W Outcome.t :=
  match new_MetricsApiClient w with
  | Resolved apiClient w1 =>
      sendToBackendWithFallback apiClient data localFallback w1
  | Rejected reason w1 => Rejected reason w1
  end.

Definition logMetrics (data : obj) : M W Outcome.t :=
  fun w =>
    match remote_submission data w with
    | Resolved result w1 => Ok result w1
    | Rejected error w1 =>
        try_catch
          (localFallback data;;
           message ← pure (message_of error);
           mret {| Outcome.success := Bool true;
                   Outcome.method := Str "local_fallback";
                   Outcome.message := Str "API client failed, data stored locally";
                   Outcome.error := message |})
          (fun fallbackError =>
             mret {| Outcome.success := Bool false;
                     Outcome.method := Str "local_fallback";
                     Outcome.message := Str "Both API and local storage failed";
                     Outcome.error := Str (err_message fallbackError) |}) w1
    end.

(** *** Session resolver *)

Definition getCurrentSessionId : M W value :=
  env ← gets env_CLAUDE_SESSION_ID;
  let sessionId := env_value env in
  sessionId ←
    (if negb (truthy sessionId) then
       try_catch
         (present ← total (fs_pathExists CurrentSessionIdFile);
          if present : bool then
            content ← fs_readFile CurrentSessionIdFile;
            mret (Str (trim content))
          else mret sessionId)
         (fun error => mret sessionId)
     else mret sessionId);
  mret (js_or sessionId (Str "default-session")).

(** *** Context builder *)

Definition createPostToolUseContext (toolData : ToolData.t) : M W Context.t :=
  now ← total formatISO_now;
  env ← gets process_environment;
  mret {| Context.tool_name := js_or (ToolData.toolName toolData) (Str "unknown");
          Context.tool_input := js_or (ToolData.toolInput toolData) (Obj []);
          Context.error := js_or (ToolData.error toolData) Null;
          Context.timestamp := now;
          Context.environment := env |}.

(** *** Metric extractor *)

(** What calling [split] on the variable [name] throws when its value
    has no such method. *)
Definition not_a_function (name : string) : JSError :=
  TypeError (lit name ++ lit ".split is not a function").

(** [v ? v.split('\n').length : 0], for the variable [name] *)
Definition line_count (name : string) (v : value) : M W Q :=
  if truthy v then
    match v with
    | Str s => mret (of_nat (length (split LF s)))
    | _ => mthrow (not_a_function name)
    end
  else mret 0%Q.

(** [v.length] *)
Definition js_length (v : value) : value :=
  match v with
  | Str s => Num (of_nat (length s))
  | Arr items => Num (of_nat (length items))
  | Obj fields => obj_get "length" fields
  | _ => Undefined
  end.

(** [command ? command.split(' ')[0] : 'unknown'] *)
Definition command_type_of (command : value) : M W value :=
  if truthy command then
    match command with
    | Str s => mret (default Undefined (Str <$> head (split SPACE s)))
    | _ => mthrow (not_a_function "command")
    end
  else mret (Str "unknown").

(** [writeFilePath ? path.extname(writeFilePath) : 'unknown'] *)
Definition file_type_of (writeFilePath : value) : M W value :=
  if truthy writeFilePath then
    match writeFilePath with
    | Str p => mret (Str (path_extname p))
    | _ => mthrow (ERR_INVALID_ARG_TYPE writeFilePath)
    end
  else mret (Str "unknown").

Definition extractToolSpecificMetrics (context : Context.t) : M W obj :=
  let toolName := Context.tool_name context in
  let toolInput := js_or (Context.tool_input context) (Obj []) in
  if is_str toolName "Read" then
    let filePath := js_or (get_prop toolInput "file_path") (Str "") in
    try_catch
      (present ← gets (fs_existsSync filePath);
       fileSize ← (if present : bool then fs_statSync_size filePath else mret 0%Q);
       mret [(lit "file_path", filePath);
             (lit "file_size_bytes", Num fileSize);
             (lit "lines_requested", js_or (get_prop toolInput "limit") (Str "all"))])
      (fun error =>
         mret [(lit "file_path", filePath);
               (lit "file_size_bytes", Num 0);
               (lit "lines_requested", js_or (get_prop toolInput "limit") (Str "all"))])
  else if is_str toolName "Edit" then
    let editFilePath := js_or (get_prop toolInput "file_path") (Str "") in
    let oldString := js_or (get_prop toolInput "old_string") (Str "") in
    let newString := js_or (get_prop toolInput "new_string") (Str "") in
    linesRemoved ← line_count "oldString" oldString;
    linesAdded ← line_count "newString" newString;
    mret [(lit "file_path", editFilePath);
          (lit "lines_added", Num linesAdded);
          (lit "lines_removed", Num linesRemoved);
          (lit "net_lines", Num (linesAdded - linesRemoved));
          (lit "replace_all", js_or (get_prop toolInput "replace_all") (Bool false))]
  else if is_str toolName "Write" then
    let writeFilePath := js_or (get_prop toolInput "file_path") (Str "") in
    let content := js_or (get_prop toolInput "content") (Str "") in
    linesWritten ← line_count "content" content;
    fileType ← file_type_of writeFilePath;
    mret [(lit "file_path", writeFilePath);
          (lit "content_length", js_length content);
          (lit "lines_written", Num linesWritten);
          (lit "file_type", fileType)]
  else if is_str toolName "Bash" then
    let command := js_or (get_prop toolInput "command") (Str "") in
    commandType ← command_type_of command;
    mret [(lit "command", command);
          (lit "command_type", commandType);
          (lit "background", js_or (get_prop toolInput "run_in_background") (Bool false));
          (lit "timeout", js_or (get_prop toolInput "timeout") Null)]
  else if is_str toolName "Task" then
    let subagentType := js_or (get_prop toolInput "subagent_type") (Str "unknown") in
    let description := js_or (get_prop toolInput "description") (Str "") in
    mret [(lit "subagent_type", subagentType);
          (lit "task_description", description);
          (lit "delegation", Bool true)]
  else
    mret [(lit "generic_tool", Bool true);
          (lit "input_keys", Arr (Str <$> Object_keys toolInput))].

(** *** Productivity aggregator *)

Local Open Scope Q_scope.

(** The document created when productivity-indicators.json is absent. *)
Definition fresh_indicators (now : jsstring) : Indicators :=
  {| session_start := Str now;
     commands_executed := 0;
     tools_used := Some ∅;
     files_modified := 0;
     lines_changed := 0;
     agents_invoked := Some ∅;
     success_rate := 100;
     last_activity := Null |}.

(** The properties of [Object.prototype], which every object of the
    document inherits, as [String] gives them: the source text of a
    native function as V8 prints it and, for [__proto__], the text of
    [Object.prototype] itself. *)
Definition Object_prototype (key : jsstring) : option jsstring :=
  if bool_decide (key = lit "constructor") then
    Some (lit "function Object() { [native code] }")
  else if bool_decide (key = lit "__proto__") then
    Some (lit "[object Object]")
  else if bool_decide
            (key ∈ [lit "__defineGetter__"; lit "__defineSetter__";
                    lit "hasOwnProperty"; lit "__lookupGetter__";
                    lit "__lookupSetter__"; lit "isPrototypeOf";
                    lit "propertyIsEnumerable"; lit "toString"; lit "valueOf";
                    lit "toLocaleString"]) then
    Some (lit "function " ++ key ++ lit "() { [native code] }")
  else None.

(** [counts[key] = (counts[key] || 0) + 1].  An own entry is used when
    there is one.  Otherwise the lookup goes to [Object.prototype]: a
    name it does not define counts from 0; a name it defines yields a
    function, or for [__proto__] the prototype itself, and [+ 1] appends
    ["1"] to its text.  The assignment to [__proto__] then reaches the
    setter of [Object.prototype], which ignores a string. *)
Definition bump (key : jsstring) (counts : gmap jsstring entry) : gmap jsstring entry :=
  match counts !! key with
  | Some (Count previous) =>
      <[key := Count ((if Qeq_bool previous 0 then 0 else previous) + 1)]> counts
  | Some (Text []) => <[key := Count 1]> counts
  | Some (Text previous) => <[key := Text (previous ++ lit "1")]> counts
  | None =>
      match Object_prototype key with
      | None => <[key := Count 1]> counts
      | Some inherited =>
          if bool_decide (key = lit "__proto__") then counts
          else <[key := Text (inherited ++ lit "1")]> counts
      end
  end.

(** "Load existing indicators or initialize". *)
Definition load_indicators : M W Indicators :=
  present ← total (fs_pathExists IndicatorsFile);
  if present : bool then fs_readJSON IndicatorsFile
  else now ← total formatISO_now; mret (fresh_indicators now).

(** The update of the loaded document, between loading and saving it
    (the statements from "Update indicators based on current metrics"
    to the success rate).  A property name is obtained with [ToString].
    The values added to [lines_changed] are read as numbers
    ([ToNumber]); the extractor stores numbers in these two fields. *)
Definition update_indicators (indicators : Indicators) (metrics : obj)
    : JSError + Indicators :=
  let commands_executed' := commands_executed indicators + 1 in
  let last_activity' := obj_get "timestamp" metrics in
  let toolName := obj_get "tool_name" metrics in
  tool ← ToString toolName;
  let tools_used' := bump tool (default ∅ (tools_used indicators)) in
  let files_modified' :=
    if (is_str toolName "Edit" || is_str toolName "Write")
       && has_key "file_path" metrics
    then files_modified indicators + 1
    else files_modified indicators in
  lines_changed' ←
    (if has_key "net_lines" metrics then
       net_lines ← ToNumber (obj_get "net_lines" metrics);
       mret (lines_changed indicators + Math_abs net_lines)
     else if has_key "lines_written" metrics then
       lines_written ← ToNumber (obj_get "lines_written" metrics);
       mret (lines_changed indicators + lines_written)
     else mret (lines_changed indicators));
  agents_invoked' ←
    (if truthy (obj_get "subagent_type" metrics) then
       agent ← ToString (obj_get "subagent_type" metrics);
       mret (Some (bump agent (default ∅ (agents_invoked indicators))))
     else mret (agents_invoked indicators));
  let totalCommands := commands_executed' in
  let success_rate' :=
    if Qgtb totalCommands 0 then
      if negb (truthy (obj_get "success" metrics)) then
        Math_max 0 (success_rate indicators - 1 / totalCommands)
      else success_rate indicators
    else success_rate indicators in
  mret {| session_start := session_start indicators;
          commands_executed := commands_executed';
          tools_used := Some tools_used';
          files_modified := files_modified';
          lines_changed := lines_changed';
          agents_invoked := agents_invoked';
          success_rate := success_rate';
          last_activity := last_activity' |}.

(** The progress line written when the dashboard is active. *)
Definition progress_line (timeStr : jsstring) (toolName : value)
    (indicators : Indicators) : JSError + jsstring :=
  toolName ← ToString toolName;
  mret ([55357; 56522]%N ++ lit " [" ++ timeStr ++ lit "] " ++ toolName
          ++ lit " completed - Productivity: "
          ++ string_of (Num (commands_executed indicators)) ++ lit " commands, "
          ++ string_of (Num (files_modified indicators)) ++ lit " files" ++ [LF]).

(** "Save updated indicators" and "Signal dashboard update if active". *)
Definition save_and_signal (toolName : value) (indicators : Indicators) : M W unit :=
  fs_writeJSON IndicatorsFile indicators;;
  active ← total (fs_pathExists DashboardActive);
  if active : bool then
    timeStr ← total toLocaleTimeString_now;
    logMessage ← pure (progress_line timeStr toolName indicators);
    fs_appendFile RealtimeLog logMessage
  else mret tt.

Definition updateProductivityIndicators (metrics : obj) : M W unit :=
  try_catch
    (indicators ← load_indicators;
     indicators ← pure (update_indicators indicators metrics);
     save_and_signal (obj_get "tool_name" metrics) indicators)
    (fun error => mret tt).

(** *** Pipeline orchestrator *)

(** The object literal [metricsData] of [main], [executionTime] being
    the number read from [toolData.executionTime || 0]. *)
Definition base_record (context : Context.t) (timestamp : jsstring)
    (executionTime : Q) (user : option jsstring) (sessionId : value) : obj :=
  [(lit "event_type", Str "tool_execution");
   (lit "timestamp", Str timestamp);
   (lit "tool_name", Context.tool_name context);
   (lit "success", Bool (negb (truthy (Context.error context))));
   (lit "execution_time_ms", Num (Math_round executionTime));
   (lit "user", js_or (env_value user) (Str "unknown"));
   (lit "session_id", sessionId)].

(** The object literal [agentMetrics] of [main]. *)
Definition agent_record (context : Context.t) (timestamp : jsstring)
    (toolSpecificMetrics metricsData : obj) : obj :=
  [(lit "event_type", Str "agent_invocation");
   (lit "timestamp", Str timestamp);
   (lit "agent_name", obj_get "subagent_type" toolSpecificMetrics);
   (lit "task_description", obj_get "task_description" toolSpecificMetrics);
   (lit "success", Bool (negb (truthy (Context.error context))));
   (lit "execution_time_ms", obj_get "execution_time_ms" metricsData)].

(** "Add error details if present". *)
Definition add_error_details (context : Context.t) (metricsData : obj)
    : JSError + obj :=
  if truthy (Context.error context) then
    let metricsData := obj_set "error" (Bool true) metricsData in
    error_message ← ToString (Context.error context);
    mret (obj_set "error_message" (Str error_message) metricsData)
  else mret metricsData.

(** [Number(endTime - startTime) / 1000000], and
    [Math.round(executionTime * 100) / 100]. *)
Definition elapsed_ms (startTime endTime : Z) : Q :=
  double (double (inject_Z (endTime - startTime)) / 1000000).
Definition round2 (executionTime : Q) : Q :=
  double (Math_round (double (executionTime * 100)) / 100).

(** The body of the [try] of [main]; every call of [logMetrics] and of
    [updateProductivityIndicators] is entered in the ghost log.  The two
    performance warnings only write to the console. *)
Definition main_body (toolData : ToolData.t) (startTime : Z)
    : M (W * list Call) Report.t :=
  context ← lift (createPostToolUseContext toolData);
  timestamp ← lift (total formatISO_now);
  sessionId ← lift getCurrentSessionId;
  executionTime ← pure (ToNumber (js_or (ToolData.executionTime toolData) (Num 0)));
  user ← lift (gets env_USER);
  let metricsData := base_record context timestamp executionTime user sessionId in
  toolSpecificMetrics ← lift (extractToolSpecificMetrics context);
  let metricsData := Object_assign metricsData toolSpecificMetrics in
  (if is_str (Context.tool_name context) "Task" then
     let agentMetrics := agent_record context timestamp toolSpecificMetrics metricsData in
     record_call (ToSink agentMetrics);;
     lift (logMetrics agentMetrics);;
     mret tt
   else mret tt);;
  metricsData ← pure (add_error_details context metricsData);
  record_call (ToSink metricsData);;
  logResult ← lift (logMetrics metricsData);
  record_call (ToAggregator metricsData);;
  lift (updateProductivityIndicators metricsData);;
  endTime ← lift (total hrtime_bigint);
  let executionTime := elapsed_ms startTime endTime in
  memoryUsage ← lift (total memoryUsage_heapUsed);
  mret {| Report.success := true;
          Report.executionTime := round2 executionTime;
          Report.memoryUsage := Some memoryUsage;
          Report.metrics := Some
            {| Report.toolName := Context.tool_name context;
               Report.successful := negb (truthy (Context.error context));
               Report.metricsLogged := Outcome.success logResult;
               Report.apiMethod := Outcome.method logResult;
               Report.apiMessage := Outcome.message logResult |};
          Report.errorMessage := None |}.

Definition main (toolData : ToolData.t) : M (W * list Call) Report.t :=
  startTime ← lift (total hrtime_bigint);
  try_catch (main_body toolData startTime)
    (fun error =>
       endTime ← lift (total hrtime_bigint);
       let executionTime := elapsed_ms startTime endTime in
       mret {| Report.success := false;
               Report.executionTime := round2 executionTime;
               Report.memoryUsage := None;
               Report.metrics := None;
               Report.errorMessage := Some (err_message error) |}).

End Hook.

(* ===================================================================== *)
(** ** Reference notions used in the statements *)
(* ===================================================================== *)


(** The number of lines of a string, counted on its characters: 0 for the
    empty string, else one more than the number of newline characters. *)
Definition lineCount (s : jsstring) : nat :=
  match s with
  | [] => 0
  | _ => S (count_occ N.eq_dec s LF)
  end.

(** The part of a string before its first occurrence of [sep]. *)
Fixpoint before (sep : N) (s : jsstring) : jsstring :=
  match s with
  | [] => []
  | c :: s' => if N.eqb c sep then [] else c :: before sep s'
  end.

(** The first whitespace-delimited token as the specification words it:
    leading whitespace is skipped, the token runs to the next whitespace
    character or to the end. *)
Fixpoint token (s : jsstring) : jsstring :=
  match s with
  | [] => []
  | c :: s' => if is_whitespace c then [] else c :: token s'
  end.
Definition first_token (s : jsstring) : jsstring := token (trimStart s).

(** The shapes of the mapping [extractToolSpecificMetrics] returns, by
    tool name [toolName] and tool input [toolInput]. *)
Inductive extracted (toolName toolInput : value) : obj -> Prop :=
| extracted_Read (fileSize : Q) :
    is_str toolName "Read" = true ->
    extracted toolName toolInput
      [(lit "file_path", js_or (get_prop toolInput "file_path") (Str ""));
       (lit "file_size_bytes", Num fileSize);
       (lit "lines_requested", js_or (get_prop toolInput "limit") (Str "all"))]
| extracted_Edit (oldString newString : jsstring) :
    is_str toolName "Edit" = true ->
    js_or (get_prop toolInput "old_string") (Str "") = Str oldString ->
    js_or (get_prop toolInput "new_string") (Str "") = Str newString ->
    extracted toolName toolInput
      [(lit "file_path", js_or (get_prop toolInput "file_path") (Str ""));
       (lit "lines_added", Num (of_nat (lineCount newString)));
       (lit "lines_removed", Num (of_nat (lineCount oldString)));
       (lit "net_lines",
          Num (of_nat (lineCount newString) - of_nat (lineCount oldString)));
       (lit "replace_all", js_or (get_prop toolInput "replace_all") (Bool false))]
| extracted_Write (content : jsstring) (fileType : value) :
    is_str toolName "Write" = true ->
    js_or (get_prop toolInput "content") (Str "") = Str content ->
    extracted toolName toolInput
      [(lit "file_path", js_or (get_prop toolInput "file_path") (Str ""));
       (lit "content_length", Num (of_nat (length content)));
       (lit "lines_written", Num (of_nat (lineCount content)));
       (lit "file_type", fileType)]
| extracted_Bash (command : jsstring) :
    is_str toolName "Bash" = true ->
    js_or (get_prop toolInput "command") (Str "") = Str command ->
    extracted toolName toolInput
      [(lit "command", Str command);
       (lit "command_type",
          Str (match command with [] => lit "unknown" | _ => before SPACE command end));
       (lit "background", js_or (get_prop toolInput "run_in_background") (Bool false));
       (lit "timeout", js_or (get_prop toolInput "timeout") Null)]
| extracted_Task :
    is_str toolName "Task" = true ->
    extracted toolName toolInput
      [(lit "subagent_type", js_or (get_prop toolInput "subagent_type") (Str "unknown"));
       (lit "task_description", js_or (get_prop toolInput "description") (Str ""));
       (lit "delegation", Bool true)]
| extracted_generic :
    is_str toolName "Read" = false -> is_str toolName "Edit" = false ->
    is_str toolName "Write" = false -> is_str toolName "Bash" = false ->
    is_str toolName "Task" = false ->
    extracted toolName toolInput
      [(lit "generic_tool", Bool true);
       (lit "input_keys", Arr (Str <$> Object_keys toolInput))].

(** The invariant of the indicators document: no counter, and no entry
    that is a count, is negative. *)
Definition counts_nonneg (counts : option (gmap jsstring entry)) : Prop :=
  forall m k q, counts = Some m -> m !! k = Some (Count q) -> (0 <= q)%Q.

Record indicators_ok (d : Indicators) : Prop := {
  ok_commands : (0 <= commands_executed d)%Q;
  ok_files : (0 <= files_modified d)%Q;
  ok_lines : (0 <= lines_changed d)%Q;
  ok_rate : (0 <= success_rate d)%Q;
  ok_tools : counts_nonneg (tools_used d);
  ok_agents : counts_nonneg (agents_invoked d)
}.

(** The records handed to the sink, in order, the records handed to the
    aggregator, and the [event_type] of a record. *)
Definition sunk (calls : list Call) : list obj :=
  omap (fun c => match c with ToSink d => Some d | ToAggregator _ => None end) calls.

Definition aggregated (calls : list Call) : list obj :=
  omap (fun c => match c with ToAggregator d => Some d | ToSink _ => None end) calls.

Definition has_event_type (t : jsstring) (record : obj) : bool :=
  is_str (obj_get "event_type" record) t.


(** A value on which [.split] cannot be called although the guard lets it
    through: truthy and not a string. *)
Definition not_text (v : value) : bool :=
  truthy v && negb (match v with Str _ => true | _ => false end).

(** A string of whitespace only. *)
Definition blank (s : jsstring) : Prop :=
  Forall (fun c => is_whitespace c = true) s.



(** The events on which the update of the document throws: one of the
    values it converts has no primitive value, the tool name, the line
    count it adds, or the name of the agent. *)
Definition update_throws (metrics : obj) : bool :=
  unconvertible (obj_get "tool_name" metrics)
  || (if has_key "net_lines" metrics
      then unconvertible (obj_get "net_lines" metrics)
      else has_key "lines_written" metrics
           && unconvertible (obj_get "lines_written" metrics))
  || truthy (obj_get "subagent_type" metrics)
     && unconvertible (obj_get "subagent_type" metrics).


(* ===================================================================== *)
(** ** A test double for the outside world *)
(* ===================================================================== *)

Module Sim.

(** A scripted world: what the environment holds, what the session-id
    file and the indicators document are, whether the local disk works,
    what the remote service throws if it does not work, and what has
    been appended so far. *)
Record World := {
  session_env : option jsstring;
  user_env : option jsstring;
  session_file : option (option jsstring);
    (* absent / present but unreadable / present with this content *)
  document : option Indicators;
  disk_ok : bool;
  remote_throws : option value;
  ticks : Z;
  appended : list (MetricsFile * jsstring)
}.

Definition tick (w : World) : World :=
  {| session_env := session_env w; user_env := user_env w;
     session_file := session_file w; document := document w;
     disk_ok := disk_ok w; remote_throws := remote_throws w;
     ticks := ticks w + 1; appended := appended w |}.

Definition append (f : MetricsFile) (line : jsstring) (w : World) : World :=
  {| session_env := session_env w; user_env := user_env w;
     session_file := session_file w; document := document w;
     disk_ok := disk_ok w; remote_throws := remote_throws w;
     ticks := ticks w; appended := appended w ++ [(f, line)] |}.

Definition store (d : Indicators) (w : World) : World :=
  {| session_env := session_env w; user_env := user_env w;
     session_file := session_file w; document := Some d;
     disk_ok := disk_ok w; remote_throws := remote_throws w;
     ticks := ticks w; appended := appended w |}.

Definition EACCES : JSError := mkError (lit "Error") (lit "EACCES: permission denied").
Definition ENOENT : JSError := mkError (lit "Error") (lit "ENOENT: no such file or directory").
Definition ECONNREFUSED : JSError := mkError (lit "Error") (lit "connect ECONNREFUSED").

Definition exists_ (f : MetricsFile) (w : World) : bool :=
  match f with
  | CurrentSessionIdFile => bool_decide (is_Some (session_file w))
  | IndicatorsFile => bool_decide (is_Some (document w))
  | _ => false
  end.

Definition to_string (v : value) : jsstring :=
  match v with
  | Str s => s
  | Undefined => lit "undefined"
  | Null => lit "null"
  | Bool true => lit "true"
  | Bool false => lit "false"
  | Num q => lit (NilZero.string_of_int (Z.to_int (Qfloor q)))
  | Err e => err_name e ++ lit ": " ++ err_message e
  | Arr _ | Obj _ => lit "[object Object]"
  end.

Definition to_number (v : value) : Q :=
  match v with
  | Num q => q
  | Bool true => 1
  | _ => 0
  end.

#[global] Instance platform : Platform World := {|
  string_of := to_string;
  string_of_Str := fun s => eq_refl;
  number_of := to_number;
  number_of_Num := fun q => eq_refl;
  JSON_stringify := fun o => lit "{}";
  path_extname := fun p => [];
  ERR_INVALID_ARG_TYPE := fun v => TypeError "The path argument must be of type string";
  ERR_INVALID_ARG_TYPE_name := fun v => eq_refl;
  env_CLAUDE_SESSION_ID := session_env;
  env_USER := user_env;
  process_environment := fun w => Obj [];
  hrtime_bigint := fun w => (ticks w, tick w);
  memoryUsage_heapUsed := fun w => (0%Q, w);
  formatISO_now := fun w => (lit "2025-01-01T00:00:00Z", tick w);
  formatISO_format := fun w => eq_refl;
  toLocaleTimeString_now := fun w => (lit "00:00:00", w);
  fs_pathExists := fun f w => (exists_ f w, w);
  fs_readFile := fun f w =>
    match f, session_file w with
    | CurrentSessionIdFile, Some (Some content) => Ok content w
    | CurrentSessionIdFile, Some None => Throw EACCES w
    | _, _ => Throw ENOENT w
    end;
  fs_ensureDir := fun f w => if disk_ok w then Ok tt w else Throw EACCES w;
  fs_appendFile := fun f line w =>
    if disk_ok w then Ok tt (append f line w) else Throw EACCES w;
  fs_readJSON := fun f w =>
    match f, document w with
    | IndicatorsFile, Some d => Ok d w
    | _, _ => Throw ENOENT w
    end;
  fs_writeJSON := fun f d w =>
    if disk_ok w then Ok tt (store d w) else Throw EACCES w;
  fs_existsSync := fun p w => false;
  fs_statSync_size := fun p w => Throw ENOENT w;
  ApiClient := unit;
  new_MetricsApiClient := fun w => Resolved tt w;
  sendToBackendWithFallback := fun client data fallback w =>
    match remote_throws w with
    | None =>
        Resolved {| Outcome.success := Bool true; Outcome.method := Str "remote";
                    Outcome.message := Undefined; Outcome.error := Undefined |} w
    | Some reason => Rejected reason w
    end
|}.

(** A world with nothing configured: no session, no files, a working
    disk and a working remote service. *)
Definition quiet : World :=
  {| session_env := None; user_env := None; session_file := None;
     document := None; disk_ok := true; remote_throws := None;
     ticks := 0; appended := [] |}.

Definition with_session_file (content : jsstring) (w : World) : World :=
  {| session_env := session_env w; user_env := user_env w;
     session_file := Some (Some content); document := document w;
     disk_ok := disk_ok w; remote_throws := remote_throws w;
     ticks := ticks w; appended := appended w |}.

(** A remote service that throws the given value. *)
Definition with_remote_throwing (reason : value) (w : World) : World :=
  {| session_env := session_env w; user_env := user_env w;
     session_file := session_file w; document := document w;
     disk_ok := disk_ok w; remote_throws := Some reason;
     ticks := ticks w; appended := appended w |}.

(** Whether the disk and the remote service work; a remote service that
    does not work throws [ECONNREFUSED]. *)
Definition with_failures (disk remote : bool) (w : World) : World :=
  {| session_env := session_env w; user_env := user_env w;
     session_file := session_file w; document := document w;
     disk_ok := disk;
     remote_throws := if remote then None else Some (Err ECONNREFUSED);
     ticks := ticks w; appended := appended w |}.

(** An invocation of a tool with the given input and no error. *)
Definition invocation (tool : string) (input : obj) : ToolData.t :=
  {| ToolData.toolName := Str tool; ToolData.toolInput := Obj input;
     ToolData.error := Null; ToolData.executionTime := Num 12 |}.

Definition failed_invocation (tool : string) (input : obj) : ToolData.t :=
  {| ToolData.toolName := Str tool; ToolData.toolInput := Obj input;
     ToolData.error := Err (mkError (lit "Error") (lit "Simulated tool failure"));
     ToolData.executionTime := Num 12 |}.

(** An object without a primitive value, as [JSON.parse] gives it for
    the text [{"toString":0}]. *)
Definition opaque : value := Obj [(lit "toString", Num 0)].

End Sim.

(* ===================================================================== *)
(** ** Runs of the orchestrator *)
(* ===================================================================== *)

Section Runs.
Context {W : Type} {P : Platform W}.

(** For a call of [main] in world [w]: the context it builds, the
    timestamp of its records, and the world in which it resolves the
    session. *)
Definition run_context (toolData : ToolData.t) (w : W) : Context.t :=
  let w0 := (hrtime_bigint w).2 in
  {| Context.tool_name := js_or (ToolData.toolName toolData) (Str "unknown");
     Context.tool_input := js_or (ToolData.toolInput toolData) (Obj []);
     Context.error := js_or (ToolData.error toolData) Null;
     Context.timestamp := (formatISO_now w0).1;
     Context.environment := process_environment (formatISO_now w0).2 |}.

Definition run_timestamp (w : W) : jsstring :=
  (formatISO_now (formatISO_now (hrtime_bigint w).2).2).1.

Definition run_world (w : W) : W :=
  (formatISO_now (formatISO_now (hrtime_bigint w).2).2).2.

Definition built_from (toolData : ToolData.t) (context : Context.t) : Prop :=
  Context.tool_name context = js_or (ToolData.toolName toolData) (Str "unknown") /\
  Context.tool_input context = js_or (ToolData.toolInput toolData) (Obj []) /\
  Context.error context = js_or (ToolData.error toolData) Null.

(** The two reports of [main], for a call in world [w] that reads the
    clock for the last time in world [w_end]. *)
Definition reported_time (w w_end : W) : Q :=
  round2 (elapsed_ms (hrtime_bigint w).1 (hrtime_bigint w_end).1).

Definition failed (w w_end : W) (error : JSError) : Report.t :=
  {| Report.success := false;
     Report.executionTime := reported_time w w_end;
     Report.memoryUsage := None;
     Report.metrics := None;
     Report.errorMessage := Some (err_message error) |}.

Definition completed (w w_end : W) (context : Context.t) (logResult : Outcome.t)
    : Report.t :=
  {| Report.success := true;
     Report.executionTime := reported_time w w_end;
     Report.memoryUsage := Some (memoryUsage_heapUsed (hrtime_bigint w_end).2).1;
     Report.metrics := Some
       {| Report.toolName := Context.tool_name context;
          Report.successful := negb (truthy (Context.error context));
          Report.metricsLogged := Outcome.success logResult;
          Report.apiMethod := Outcome.method logResult;
          Report.apiMessage := Outcome.message logResult |};
     Report.errorMessage := None |}.

(** The merged record of the call, before the error details, and its
    secondary record. *)
Definition merged (toolData : ToolData.t) (w : W) (executionTime : Q)
    (session : jsstring) (user : option jsstring) (m : obj) : obj :=
  Object_assign
    (base_record (run_context toolData w) (run_timestamp w) executionTime user
       (Str session)) m.

Definition agent_of (toolData : ToolData.t) (w : W) (executionTime : Q)
    (session : jsstring) (user : option jsstring) (m : obj) : obj :=
  agent_record (run_context toolData w) (run_timestamp w) m
    (merged toolData w executionTime session user m).

(** The merged record with its error details, [message] being the text
    of the error. *)
Definition with_error_details (context : Context.t) (message : jsstring)
    (metricsData : obj) : obj :=
  if truthy (Context.error context) then
    obj_set "error_message" (Str message) (obj_set "error" (Bool true) metricsData)
  else metricsData.

(** The secondary record goes to the sink for the tool name [Task] only. *)
Definition agent_sunk (context : Context.t) (agent : obj) (w w' : W) : Prop :=
  if is_str (Context.tool_name context) "Task"
  then exists outcome, logMetrics agent w = Ok outcome w'
  else w' = w.

Definition calls_of (context : Context.t) (agent primary : obj) : list Call :=
  (if is_str (Context.tool_name context) "Task" then [ToSink agent] else [])
    ++ [ToSink primary; ToAggregator primary].

(** What a call of [main] in world [w] returns, the world it ends in
    and the calls it makes: the three ways its body throws (converting
    the execution time, extracting the metrics, converting the error),
    and its completion. *)
Inductive main_outcome (toolData : ToolData.t) (w : W)
    : Report.t -> W -> list Call -> Prop :=
| main_time_throws session w3 e :
    getCurrentSessionId (run_world w) = Ok (Str session) w3 ->
    session <> [] ->
    ToNumber (js_or (ToolData.executionTime toolData) (Num 0)) = inl e ->
    main_outcome toolData w (failed w w3 e) (hrtime_bigint w3).2 []
| main_extractor_throws session w3 executionTime e w4 :
    getCurrentSessionId (run_world w) = Ok (Str session) w3 ->
    session <> [] ->
    ToNumber (js_or (ToolData.executionTime toolData) (Num 0)) = inr executionTime ->
    extractToolSpecificMetrics (run_context toolData w) w3 = Throw e w4 ->
    main_outcome toolData w (failed w w4 e) (hrtime_bigint w4).2 []
| main_details_throw session w3 executionTime m w4 w5 e :
    getCurrentSessionId (run_world w) = Ok (Str session) w3 ->
    session <> [] ->
    ToNumber (js_or (ToolData.executionTime toolData) (Num 0)) = inr executionTime ->
    let context := run_context toolData w in
    extractToolSpecificMetrics context w3 = Ok m w4 ->
    let metricsData := merged toolData w executionTime session (env_USER w3) m in
    let agent := agent_of toolData w executionTime session (env_USER w3) m in
    agent_sunk context agent w4 w5 ->
    add_error_details context metricsData = inl e ->
    main_outcome toolData w (failed w w5 e) (hrtime_bigint w5).2
      (if is_str (Context.tool_name context) "Task" then [ToSink agent] else [])
| main_completes session w3 executionTime m w4 w5 primary outcome w6 w7 :
    getCurrentSessionId (run_world w) = Ok (Str session) w3 ->
    session <> [] ->
    ToNumber (js_or (ToolData.executionTime toolData) (Num 0)) = inr executionTime ->
    let context := run_context toolData w in
    extractToolSpecificMetrics context w3 = Ok m w4 ->
    let metricsData := merged toolData w executionTime session (env_USER w3) m in
    let agent := agent_of toolData w executionTime session (env_USER w3) m in
    agent_sunk context agent w4 w5 ->
    add_error_details context metricsData = inr primary ->
    logMetrics primary w5 = Ok outcome w6 ->
    updateProductivityIndicators primary w6 = Ok tt w7 ->
    main_outcome toolData w (completed w w7 context outcome)
      (memoryUsage_heapUsed (hrtime_bigint w7).2).2
      (calls_of context agent primary).

(** The invocations on which the body of [main] throws outside the
    extractor: the execution time, or the error, has no primitive
    value. *)
Definition time_unconvertible (toolData : ToolData.t) : bool :=
  unconvertible (js_or (ToolData.executionTime toolData) (Num 0)).


(** One event after the other on a store that works: an event whose
    update throws is lost. *)
Definition apply_event (d : Indicators) (event : obj) : Indicators :=
  match update_indicators d event with
  | inr d' => d'
  | inl _ => d
  end.

(** The document after the given events, in order, from the fresh one. *)
Definition replay (now : jsstring) (events : list obj) : Indicators :=
  fold_left apply_event events (fresh_indicators now).

End Runs.

(** The context of an invocation of [tool] with input [input]. *)
Definition context_of (tool : string) (input : obj) : Context.t :=
  {| Context.tool_name := Str tool; Context.tool_input := Obj input;
     Context.error := Null; Context.timestamp := lit "2025-01-01T00:00:00Z";
     Context.environment := Obj [] |}.

(* ===================================================================== *)
(** ** Command line entry point *)
(* ===================================================================== *)

Section CommandLine.
Context {W : Type} {P : Platform W}.

(** [JSON.parse], which throws a [SyntaxError] on malformed text, and
    [Math.random]. *)
Variable JSON_parse : jsstring -> JSError + value.
Variable Math_random : W -> Q * W.

(** [args[i]] *)
Definition nth_arg (args : list jsstring) (i : nat) : value :=
  match args !! i with
  | Some s => Str s
  | None => Undefined
  end.

(** [args[3] ? JSON.parse(args[3]) : {}] *)
Definition parse_tool_input (args : list jsstring) : M (W * list Call) value :=
  if truthy (nth_arg args 3) then
    match JSON_parse (default [] (args !! 3%nat)) with
    | inr toolInput => mret toolInput
    | inl syntaxError => mthrow syntaxError
    end
  else mret (Obj []).

(** [args[4] !== 'false'] *)
Definition success_flag (args : list jsstring) : bool :=
  negb (bool_decide (args !! 4%nat = Some (lit "false"))).

Definition simulateToolExecution (args : list jsstring) : M (W * list Call) unit :=
  if (length args <? 3)%nat then mret tt
  else
    let toolName := nth_arg args 2 in
    toolInput ← parse_tool_input args;
    let success := success_flag args in
    random ← lift (total Math_random);
    let toolData :=
      {| ToolData.toolName := toolName;
         ToolData.toolInput := toolInput;
         ToolData.error :=
           if success then Null
           else Err (mkError (lit "Error") (lit "Simulated tool failure"));
         ToolData.executionTime := Num (random * 100 + 10) |} in
    result ← main toolData;
    mret tt.

(** "CLI execution support": the exit status of the process when the
    file is run directly with [process.argv = argv]. *)
Definition run_directly (argv : list jsstring) (st : W * list Call)
    : Z * (W * list Call) :=
  match simulateToolExecution argv st with
  | Ok _ st' => (0%Z, st')
  | Throw error st' => (1%Z, st')
  end.

End CommandLine.

(** Test doubles for [JSON.parse], which reads five texts only, and for
    [Math.random]. *)
Definition quoted (s : jsstring) : jsstring := 34%N :: s ++ [34%N].

Definition parse_double (text : jsstring) : JSError + value :=
  if bool_decide (text = lit "{}") then inr (Obj [])
  else if bool_decide (text = lit "5") then inr (Num 5)
  else if bool_decide (text = lit "null") then inr Null
  else if bool_decide (text = lit "{" ++ quoted (lit "old_string") ++ lit ":5}")
  then inr (Obj [(lit "old_string", Num 5)])
  else if bool_decide
            (text = lit "{" ++ quoted (lit "subagent_type") ++ lit ":{"
                      ++ quoted (lit "toString") ++ lit ":0}}")
  then inr (Obj [(lit "subagent_type", Sim.opaque)])
  else inl (mkError (lit "SyntaxError") (lit "Unexpected token")).

Definition random_double (w : Sim.World) : Q * Sim.World := (1 # 2, w).

(* ===================================================================== *)
(** ** Running computations *)
(* ===================================================================== *)

Arguments lit : simpl never.

Ltac run :=
  unfold mbind, M_bind, sum_bind, mret, M_ret, sum_ret, mthrow, M_throw,
    try_catch, lift, total, gets, pure, record_call in *;
  cbn beta iota in *.

(* ===================================================================== *)
(** ** Strings: [split] *)
(* ===================================================================== *)


Lemma split_length sep s :
  length (split sep s) = S (count_occ N.eq_dec s sep).
Proof.
  induction s as [|c s IH]; simpl; [done|].
  destruct (N.eqb_spec c sep) as [->|Hne].
  - destruct (N.eq_dec sep sep); [|done]. simpl. by rewrite IH.
  - destruct (N.eq_dec c sep); [done|].
    destruct (split sep s) eqn:E; simpl in *; [done|]. exact IH.
Qed.



Lemma split_head sep s : head (split sep s) = Some (before sep s).
Proof.
  induction s as [|c s IH]; simpl; [done|].
  destruct (N.eqb c sep); [done|].
  destruct (split sep s); simpl in *; congruence.
Qed.

Lemma token_before s :
  (forall c, c ∈ before SPACE s -> is_whitespace c = false) ->
  token s = before SPACE s.
Proof.
  induction s as [|c s IH]; cbn [token before]; [done|].
  destruct (N.eqb c SPACE) eqn:E.
  - apply N.eqb_eq in E. by subst.
  - intros Hws. rewrite (Hws c) by set_solver.
    f_equal. apply IH. intros d Hd. apply Hws. set_solver.
Qed.

Lemma first_token_before s :
  head s <> Some SPACE ->
  (forall c, c ∈ before SPACE s -> is_whitespace c = false) ->
  first_token s = before SPACE s.
Proof.
  intros Hhead Hws. unfold first_token.
  destruct s as [|c s]; [done|].
  assert (is_whitespace c = false) as Hc.
  { apply Hws. cbn [before]. destruct (N.eqb c SPACE) eqn:E; [|set_solver].
    apply N.eqb_eq in E. by subst. }
  cbn [trimStart]. rewrite Hc. by apply token_before.
Qed.

(* ===================================================================== *)
(** ** Values and conversions *)
(* ===================================================================== *)

Lemma is_str_true v s : is_str v s = true -> v = Str s.
Proof.
  destruct v; simpl; try done. intros Hs. by apply bool_decide_eq_true in Hs as ->.
Qed.

Lemma js_or_twice (a b : value) : js_or (js_or a b) b = js_or a b.
Proof.
  unfold js_or. destruct (truthy a) eqn:Ha; [by rewrite Ha|].
  by destruct (truthy b).
Qed.

Section Conversions.
Context {W : Type} {P : Platform W}.

Lemma ToString_Str (s : jsstring) : ToString (Str s) = inr s.
Proof. unfold ToString. cbn. by rewrite string_of_Str. Qed.

Lemma ToNumber_Num (q : Q) : ToNumber (Num q) = inr q.
Proof. unfold ToNumber. cbn. by rewrite number_of_Num. Qed.

Lemma ToString_returns (v : value) :
  unconvertible v = false -> ToString v = inr (string_of v).
Proof. unfold ToString. by intros ->. Qed.

Lemma ToString_throws (v : value) :
  unconvertible v = true -> ToString v = inl no_primitive_value.
Proof. unfold ToString. by intros ->. Qed.

Lemma ToNumber_returns (v : value) :
  unconvertible v = false -> ToNumber v = inr (number_of v).
Proof. unfold ToNumber. by intros ->. Qed.

Lemma ToNumber_throws (v : value) :
  unconvertible v = true -> ToNumber v = inl no_primitive_value.
Proof. unfold ToNumber. by intros ->. Qed.

Lemma ToString_inr (v : value) (s : jsstring) :
  ToString v = inr s -> unconvertible v = false /\ s = string_of v.
Proof. unfold ToString. destruct (unconvertible v); [done|]. by intros [= <-]. Qed.

Lemma ToString_inl (v : value) (e : JSError) :
  ToString v = inl e -> unconvertible v = true /\ e = no_primitive_value.
Proof. unfold ToString. destruct (unconvertible v); [|done]. by intros [= <-]. Qed.

Lemma ToNumber_inr (v : value) (q : Q) :
  ToNumber v = inr q -> unconvertible v = false /\ q = number_of v.
Proof. unfold ToNumber. destruct (unconvertible v); [done|]. by intros [= <-]. Qed.

End Conversions.

(* ===================================================================== *)
(** ** Metric extractor *)
(* ===================================================================== *)

(** The line count of the extractor is [lineCount]. *)
Lemma line_count_Str `{Platform W} (name : string) (s : jsstring) (w : W) :
  line_count name (Str s) w = Ok (of_nat (lineCount s)) w.
Proof.
  unfold line_count, lineCount. destruct s as [|c s]; [done|].
  cbn [truthy]. by rewrite split_length.
Qed.

Section Extractor.
Context {W : Type} {P : Platform W}.

Lemma line_count_inv (name : string) (x : value) (w w' : W) (q : Q) :
  line_count name (js_or x (Str "")) w = Ok q w' ->
  w' = w /\ exists s, js_or x (Str "") = Str s /\ q = of_nat (lineCount s).
Proof.
  unfold js_or. destruct (truthy x) eqn:Hx.
  - destruct x; try (unfold line_count; rewrite Hx; done).
    rewrite line_count_Str. intros [= <- <-]. eauto.
  - intros Heq. change (Str (lit "")) with (Str []) in *.
    rewrite line_count_Str in Heq. injection Heq as <- <-. eauto.
Qed.

Lemma command_type_inv (x : value) (w w' : W) (v : value) :
  command_type_of (js_or x (Str "")) w = Ok v w' ->
  w' = w /\ exists s, js_or x (Str "") = Str s /\
    v = Str (match s with [] => lit "unknown" | _ => before SPACE s end).
Proof.
  unfold js_or. destruct (truthy x) eqn:Hx.
  - unfold command_type_of. rewrite Hx. destruct x; try done.
    run. rewrite split_head. cbn. intros [= <- <-]. split; [done|].
    exists s. split; [done|]. by destruct s.
  - change (Str (lit "")) with (Str []). unfold command_type_of. cbn.
    intros [= <- <-]. split; [done|]. by exists [].
Qed.

Lemma extract_extracted (context : Context.t) (w w' : W) (m : obj) :
  extractToolSpecificMetrics context w = Ok m w' ->
  extracted (Context.tool_name context)
    (js_or (Context.tool_input context) (Obj [])) m.
Proof.
  unfold extractToolSpecificMetrics.
  set (toolName := Context.tool_name context).
  set (toolInput := js_or (Context.tool_input context) (Obj [])).
  destruct (is_str toolName "Read") eqn:ERead.
  { run. destruct (fs_existsSync _ w).
    - destruct (fs_statSync_size _ w); intros [= <- <-]; by econstructor.
    - intros [= <- <-]. by econstructor. }
  destruct (is_str toolName "Edit") eqn:EEdit.
  { run. destruct (line_count _ _ w) as [removed w1|] eqn:E1; [|done].
    apply line_count_inv in E1 as (-> & old & Hold & ->).
    destruct (line_count _ _ w) as [added w2|] eqn:E2; [|done].
    apply line_count_inv in E2 as (-> & new & Hnew & ->).
    intros [= <- <-]. by econstructor. }
  destruct (is_str toolName "Write") eqn:EWrite.
  { run. destruct (line_count _ _ w) as [written w1|] eqn:E1; [|done].
    apply line_count_inv in E1 as (-> & content & Hcontent & ->).
    destruct (file_type_of _ w) as [fileType w2|] eqn:E2; [|done].
    intros [= <- <-]. rewrite Hcontent. cbn [js_length].
    by econstructor. }
  destruct (is_str toolName "Bash") eqn:EBash.
  { run. destruct (command_type_of _ w) as [commandType w1|] eqn:E1; [|done].
    apply command_type_inv in E1 as (-> & command & Hcommand & ->).
    intros [= <- <-]. rewrite Hcommand. by econstructor. }
  destruct (is_str toolName "Task") eqn:ETask.
  { run. intros [= <- <-]. by econstructor. }
  run. intros [= <- <-]. by econstructor.
Qed.


Lemma Task_extracted toolName toolInput m :
  is_str toolName "Task" = true ->
  extracted toolName toolInput m ->
  m = [(lit "subagent_type", js_or (get_prop toolInput "subagent_type") (Str "unknown"));
       (lit "task_description", js_or (get_prop toolInput "description") (Str ""));
       (lit "delegation", Bool true)].
Proof.
  intros HTask Hm. apply is_str_true in HTask. subst toolName.
  destruct Hm as [? H|? ? H|? ? H|? H| |]; try (vm_compute in H; discriminate).
  reflexivity.
Qed.
End Extractor.

(* ===================================================================== *)
(** ** The steps of the orchestrator *)
(* ===================================================================== *)

Section Steps.
Context {W : Type} {P : Platform W}.

Lemma logMetrics_returns (data : obj) (w : W) :
  exists o w', logMetrics data w = Ok o w'.
Proof.
  unfold logMetrics.
  destruct (remote_submission data w) as [o w1|reason w1]; [by eauto|].
  run. destruct (localFallback data w1) as [[] w2|e2 w2]; [|by eauto].
  destruct (message_of reason); by eauto.
Qed.

Lemma getCurrentSessionId_returns (w : W) :
  exists s w', getCurrentSessionId w = Ok (Str s) w' /\ s <> [].
Proof.
  assert (forall v, (exists s, v = Str s) \/ truthy v = false ->
               exists s, js_or v (Str "default-session") = Str s /\ s <> [])
    as Hor.
  { intros v [[s ->]|Hv]; unfold js_or.
    - destruct s as [|c s]; cbn; eauto.
    - rewrite Hv. eauto. }
  unfold getCurrentSessionId. run.
  destruct (env_CLAUDE_SESSION_ID w) as [[|c id]|] eqn:Henv; cbn.
  - destruct (fs_pathExists CurrentSessionIdFile w) as [[] w1]; cbn.
    + destruct (fs_readFile CurrentSessionIdFile w1) as [content w2|e w2].
      * destruct (Hor (Str (trim content))) as (s & -> & Hs); eauto.
      * cbn. eauto.
    + cbn. eauto.
  - eauto.
  - destruct (fs_pathExists CurrentSessionIdFile w) as [[] w1]; cbn.
    + destruct (fs_readFile CurrentSessionIdFile w1) as [content w2|e w2].
      * destruct (Hor (Str (trim content))) as (s & -> & Hs); eauto.
      * cbn. eauto.
    + cbn. eauto.
Qed.

Lemma updateProductivityIndicators_returns (metrics : obj) (w : W) :
  exists w', updateProductivityIndicators metrics w = Ok tt w'.
Proof.
  unfold updateProductivityIndicators, try_catch.
  match goal with |- context [match ?body w with _ => _ end] =>
    destruct (body w) as [[] w1|e w1] end; by eauto.
Qed.
End Steps.

(** One run of the orchestrator: what it returns, the world it ends in
    and which calls it makes to the sink and to the aggregator. *)
Section Orchestrator.
Context {W : Type} {P : Platform W}.

Lemma main_unfold (toolData : ToolData.t) (w : W) (log : list Call) :
  main toolData (w, log)
  = match main_body toolData (hrtime_bigint w).1 ((hrtime_bigint w).2, log) with
    | Ok r st => Ok r st
    | Throw e st => Ok (failed w st.1 e) ((hrtime_bigint st.1).2, st.2)
    end.
Proof. reflexivity. Qed.

Lemma main_body_run toolData w log :
  match main_body toolData (hrtime_bigint w).1 ((hrtime_bigint w).2, log) with
  | Ok r st =>
      exists calls, st.2 = log ++ calls /\ main_outcome toolData w r st.1 calls /\
                    Report.success r = true
  | Throw e st =>
      exists calls, st.2 = log ++ calls /\
                    main_outcome toolData w (failed w st.1 e) (hrtime_bigint st.1).2 calls
  end.
Proof.
  unfold main_body, createPostToolUseContext. run. cbn [fst snd].
  change {| Context.tool_name := _ |} with (run_context toolData w).
  set (context := run_context toolData w).
  change (formatISO_now (formatISO_now (hrtime_bigint w).2).2).1 with (run_timestamp w).
  change (formatISO_now (formatISO_now (hrtime_bigint w).2).2).2 with (run_world w).
  destruct (getCurrentSessionId_returns (run_world w)) as (session & w3 & Hsession & Hne).
  rewrite Hsession. cbn [fst snd].
  destruct (ToNumber _) as [e|executionTime] eqn:Htime.
  { exists []. rewrite app_nil_r. split; [done|]. by eapply main_time_throws. }
  cbn [fst snd].
  destruct (extractToolSpecificMetrics context w3) as [m w4|e w4] eqn:Hextract.
  2:{ exists []. rewrite app_nil_r. split; [done|]. by eapply main_extractor_throws. }
  cbn [fst snd].
  change (Object_assign (base_record context (run_timestamp w) executionTime
                           (env_USER w3) (Str session)) m)
    with (merged toolData w executionTime session (env_USER w3) m).
  set (metricsData := merged toolData w executionTime session (env_USER w3) m).
  change (agent_record context (run_timestamp w) m metricsData)
    with (agent_of toolData w executionTime session (env_USER w3) m).
  set (agent := agent_of toolData w executionTime session (env_USER w3) m).
  assert (exists w5,
            agent_sunk context agent w4 w5 /\
            (if is_str (Context.tool_name context) "Task"
             then match logMetrics agent w4 with
                  | Ok _ w' => w' = w5
                  | Throw _ _ => False
                  end
             else w5 = w4)) as (w5 & Hagent & Hw5).
  { unfold agent_sunk. destruct (is_str (Context.tool_name context) "Task").
    - destruct (logMetrics_returns agent w4) as (o & w5 & Hsink).
      exists w5. rewrite Hsink. split; [by exists o|done].
    - by exists w4. }
  destruct (is_str (Context.tool_name context) "Task") eqn:HTask; cbn [fst snd].
  - destruct (logMetrics agent w4) as [o w5'|] eqn:Hsink; [|done]. subst w5'.
    cbn [fst snd].
    destruct (add_error_details context metricsData) as [e|primary] eqn:Hdetails.
    { exists [ToSink agent]. split; [done|].
      pose proof (main_details_throw toolData w session w3 executionTime m w4 w5 e
                    Hsession Hne Htime Hextract Hagent Hdetails) as Hout.
      cbv zeta in Hout. fold context in Hout. by rewrite HTask in Hout. }
    cbn [fst snd].
    destruct (logMetrics_returns primary w5) as (outcome & w6 & Hprimary).
    rewrite Hprimary. cbn [fst snd].
    destruct (updateProductivityIndicators_returns primary w6) as (w7 & Hupdate).
    rewrite Hupdate. cbn [fst snd].
    exists (calls_of context agent primary). split.
    { unfold calls_of. rewrite HTask. by rewrite <- !app_assoc. }
    split; [|done].
    exact (main_completes toolData w session w3 executionTime m w4 w5 primary outcome
             w6 w7 Hsession Hne Htime Hextract Hagent Hdetails Hprimary Hupdate).
  - subst w5.
    destruct (add_error_details context metricsData) as [e|primary] eqn:Hdetails.
    { exists []. rewrite app_nil_r. split; [done|].
      pose proof (main_details_throw toolData w session w3 executionTime m w4 w4 e
                    Hsession Hne Htime Hextract Hagent Hdetails) as Hout.
      cbv zeta in Hout. fold context in Hout. by rewrite HTask in Hout. }
    cbn [fst snd].
    destruct (logMetrics_returns primary w4) as (outcome & w6 & Hprimary).
    rewrite Hprimary. cbn [fst snd].
    destruct (updateProductivityIndicators_returns primary w6) as (w7 & Hupdate).
    rewrite Hupdate. cbn [fst snd].
    exists (calls_of context agent primary). split.
    { unfold calls_of. rewrite HTask. by rewrite <- !app_assoc. }
    split; [|done].
    exact (main_completes toolData w session w3 executionTime m w4 w4 primary outcome
             w6 w7 Hsession Hne Htime Hextract Hagent Hdetails Hprimary Hupdate).
Qed.

Lemma main_run (toolData : ToolData.t) (w : W) (log : list Call) :
  exists r w' calls,
    main toolData (w, log) = Ok r (w', log ++ calls) /\
    main_outcome toolData w r w' calls.
Proof.
  rewrite main_unfold.
  pose proof (main_body_run toolData w log) as Hrun.
  destruct (main_body toolData (hrtime_bigint w).1 ((hrtime_bigint w).2, log))
    as [r [w' log']|e [w' log']]; cbn [fst snd] in *.
  - destruct Hrun as (calls & -> & Hout & _). by exists r, w', calls.
  - destruct Hrun as (calls & -> & Hout). by eexists _, _, calls.
Qed.

(** A report says which way the call ended. *)
Lemma main_outcome_success toolData (w : W) r w' calls :
  main_outcome toolData w r w' calls ->
  Report.success r = true ->
  exists session w3 executionTime m w4 w5 primary outcome w6 w7,
    getCurrentSessionId (run_world w) = Ok (Str session) w3 /\
    session <> [] /\
    ToNumber (js_or (ToolData.executionTime toolData) (Num 0)) = inr executionTime /\
    let context := run_context toolData w in
    extractToolSpecificMetrics context w3 = Ok m w4 /\
    let metricsData := merged toolData w executionTime session (env_USER w3) m in
    let agent := agent_of toolData w executionTime session (env_USER w3) m in
    agent_sunk context agent w4 w5 /\
    add_error_details context metricsData = inr primary /\
    logMetrics primary w5 = Ok outcome w6 /\
    updateProductivityIndicators primary w6 = Ok tt w7 /\
    r = completed w w7 context outcome /\
    w' = (memoryUsage_heapUsed (hrtime_bigint w7).2).2 /\
    calls = calls_of context agent primary.
Proof.
  intros Hout Hsuccess. destruct Hout; try discriminate.
  eexists _, _, _, _, _, _, _, _, _, _. repeat (split; [eassumption|]). done.
Qed.
End Orchestrator.

(* ===================================================================== *)
(** ** The records of the orchestrator *)
(* ===================================================================== *)

Section Records.
Context {W : Type} {P : Platform W}.

Lemma add_error_details_inr context metricsData primary :
  add_error_details context metricsData = inr primary ->
  exists message,
    primary = with_error_details context message metricsData /\
    (truthy (Context.error context) = true ->
     ToString (Context.error context) = inr message).
Proof.
  unfold add_error_details, with_error_details.
  destruct (truthy (Context.error context)).
  - run. destruct (ToString (Context.error context)) as [e|message]; [done|].
    intros [= <-]. by exists message.
  - intros [= <-]. by exists [].
Qed.


(** The fields of the primary record that the extracted fields and the
    error details leave in place. *)
Lemma primary_fields context timestamp executionTime user sessionId message m :
  extracted (Context.tool_name context)
    (js_or (Context.tool_input context) (Obj [])) m ->
  let primary :=
    with_error_details context message
      (Object_assign (base_record context timestamp executionTime user sessionId) m) in
  obj_lookup "event_type" primary = Some (Str "tool_execution") /\
  obj_lookup "timestamp" primary = Some (Str timestamp) /\
  obj_lookup "tool_name" primary = Some (Context.tool_name context) /\
  obj_lookup "success" primary
    = Some (Bool (negb (truthy (Context.error context)))) /\
  obj_lookup "execution_time_ms" primary = Some (Num (Math_round executionTime)) /\
  obj_lookup "user" primary = Some (js_or (env_value user) (Str "unknown")) /\
  obj_lookup "session_id" primary = Some sessionId.
Proof.
  intros Hm. unfold with_error_details, base_record.
  generalize (Math_round executionTime).
  generalize (js_or (env_value user) (Str "unknown")).
  intros userId elapsed.
  destruct (truthy (Context.error context)); destruct Hm;
    repeat split; reflexivity.
Qed.

(** The merge and the error details keep every extracted field. *)
Lemma primary_keeps_extracted context timestamp executionTime user sessionId message m :
  extracted (Context.tool_name context)
    (js_or (Context.tool_input context) (Obj [])) m ->
  forall k v,
    obj_lookup k m = Some v ->
    obj_lookup k
      (with_error_details context message
         (Object_assign (base_record context timestamp executionTime user sessionId) m))
    = Some v.
Proof.
  intros Hm k v. unfold with_error_details, base_record.
  generalize (Math_round executionTime).
  generalize (js_or (env_value user) (Str "unknown")).
  intros userId elapsed.
  destruct (truthy (Context.error context)); destruct Hm; cbn [obj_lookup];
    repeat (case_bool_decide; [subst k; intros [= <-]; reflexivity|]);
    discriminate.
Qed.

(** The error details of the primary record. *)
Lemma primary_error_details context timestamp executionTime user sessionId message m :
  extracted (Context.tool_name context)
    (js_or (Context.tool_input context) (Obj [])) m ->
  let primary :=
    with_error_details context message
      (Object_assign (base_record context timestamp executionTime user sessionId) m) in
  if truthy (Context.error context) then
    obj_lookup "error" primary = Some (Bool true) /\
    obj_lookup "error_message" primary = Some (Str message)
  else
    obj_lookup "error" primary = None /\
    obj_lookup "error_message" primary = None.
Proof.
  intros Hm. unfold with_error_details, base_record.
  generalize (Math_round executionTime).
  generalize (js_or (env_value user) (Str "unknown")).
  intros userId elapsed.
  destruct (truthy (Context.error context)); destruct Hm; split; reflexivity.
Qed.

(** The fields of the secondary record. *)
Lemma agent_fields context timestamp executionTime user sessionId m :
  is_str (Context.tool_name context) "Task" = true ->
  extracted (Context.tool_name context)
    (js_or (Context.tool_input context) (Obj [])) m ->
  let agent :=
    agent_record context timestamp m
      (Object_assign (base_record context timestamp executionTime user sessionId) m) in
  let toolInput := js_or (Context.tool_input context) (Obj []) in
  obj_lookup "event_type" agent = Some (Str "agent_invocation") /\
  obj_lookup "timestamp" agent = Some (Str timestamp) /\
  obj_lookup "success" agent
    = Some (Bool (negb (truthy (Context.error context)))) /\
  obj_lookup "execution_time_ms" agent = Some (Num (Math_round executionTime)) /\
  obj_lookup "agent_name" agent
    = Some (js_or (get_prop toolInput "subagent_type") (Str "unknown")) /\
  obj_lookup "task_description" agent
    = Some (js_or (get_prop toolInput "description") (Str "")) /\
  obj_lookup "tool_name" agent = None /\
  obj_lookup "user" agent = None /\
  obj_lookup "session_id" agent = None /\
  obj_lookup "status" agent = None.
Proof.
  intros HTask Hm. rewrite (Task_extracted _ _ _ HTask Hm).
  unfold agent_record, base_record.
  generalize (Math_round executionTime).
  generalize (js_or (env_value user) (Str "unknown")).
  intros userId elapsed. repeat split; reflexivity.
Qed.

Lemma primary_has_no_status context timestamp executionTime user sessionId message m :
  extracted (Context.tool_name context)
    (js_or (Context.tool_input context) (Obj [])) m ->
  obj_lookup "status"
    (with_error_details context message
       (Object_assign (base_record context timestamp executionTime user sessionId) m))
  = None.
Proof.
  intros Hm. unfold with_error_details, base_record.
  generalize (Math_round executionTime).
  generalize (js_or (env_value user) (Str "unknown")).
  intros userId elapsed.
  destruct (truthy (Context.error context)); destruct Hm; reflexivity.
Qed.

Lemma has_event_type_lookup t record :
  obj_lookup "event_type" record = Some (Str t) ->
  forall t', has_event_type t' record = bool_decide (t = t').
Proof.
  intros Hlookup t'. unfold has_event_type, obj_get. by rewrite Hlookup.
Qed.

Lemma calls_of_aggregated context agent primary :
  aggregated (calls_of context agent primary) = [primary] /\
  last (calls_of context agent primary) = Some (ToAggregator primary) /\
  last (sunk (calls_of context agent primary)) = Some primary.
Proof.
  unfold calls_of. by destruct (is_str _ _).
Qed.

Lemma calls_of_sunk context agent primary :
  sunk (calls_of context agent primary)
  = if is_str (Context.tool_name context) "Task" then [agent; primary] else [primary].
Proof.
  unfold calls_of. by destruct (is_str _ _).
Qed.

(** What a completed call has built, field by field. *)
Lemma run_context_built (toolData : ToolData.t) (w : W) :
  built_from toolData (run_context toolData w).
Proof. done. Qed.
End Records.

(* ===================================================================== *)
(** ** Productivity aggregator *)
(* ===================================================================== *)

Section Aggregator.
Context {W : Type} {P : Platform W}.
Local Open Scope Q_scope.

Lemma Qgtb_true (a b : Q) : Qgtb a b = true <-> b < a.
Proof.
  unfold Qgtb. rewrite negb_true_iff. split.
  - intros Hle. apply Qnot_le_lt. intros Hab.
    apply Qle_bool_iff in Hab. congruence.
  - intros Hlt. destruct (Qle_bool a b) eqn:E; [|done].
    apply Qle_bool_iff in E. exfalso. by apply (Qlt_not_le b a).
Qed.

Lemma inverse_nonneg (n : Q) : 0 < n -> 0 <= 1 / n.
Proof.
  intros Hn. apply Qle_shift_div_l; [done|]. lra.
Qed.

(** [bump] touches the entry of its key only. *)
Lemma bump_other (key k : jsstring) (counts : gmap jsstring entry) :
  k <> key -> bump key counts !! k = counts !! k.
Proof.
  intros Hk. unfold bump.
  destruct (counts !! key) as [[q|[|c s]]|]; try by rewrite lookup_insert_ne.
  destruct (Object_prototype key); [|by rewrite lookup_insert_ne].
  case_bool_decide; [done|]. by rewrite lookup_insert_ne.
Qed.

(** The entry of the key after [bump], by what was there before. *)
Lemma bump_key (key : jsstring) (counts : gmap jsstring entry) :
  match counts !! key with
  | Some (Count previous) =>
      exists q, bump key counts !! key = Some (Count q) /\ q == previous + 1
  | Some (Text []) => bump key counts !! key = Some (Count 1)
  | Some (Text previous) => bump key counts !! key = Some (Text (previous ++ lit "1"))
  | None =>
      match Object_prototype key with
      | None => bump key counts !! key = Some (Count 1)
      | Some inherited =>
          if bool_decide (key = lit "__proto__") then bump key counts !! key = None
          else bump key counts !! key = Some (Text (inherited ++ lit "1"))
      end
  end.
Proof.
  unfold bump. destruct (counts !! key) as [[q|[|c s]]|] eqn:Hkey.
  - rewrite lookup_insert_eq. eexists. split; [reflexivity|].
    destruct (Qeq_bool q 0) eqn:Hzero; [|reflexivity].
    apply Qeq_bool_eq in Hzero. by rewrite Hzero.
  - by rewrite lookup_insert_eq.
  - by rewrite lookup_insert_eq.
  - destruct (Object_prototype key); [|by rewrite lookup_insert_eq].
    case_bool_decide; [done|]. by rewrite lookup_insert_eq.
Qed.

Lemma bump_nonneg (key : jsstring) (counts : option (gmap jsstring entry)) :
  counts_nonneg counts ->
  counts_nonneg (Some (bump key (default ∅ counts))).
Proof.
  intros Hok m k q [= <-].
  assert (forall p, default ∅ counts !! k = Some (Count p) -> 0 <= p) as Hold.
  { intros p. destruct counts as [m|]; cbn; [by apply Hok|by rewrite lookup_empty]. }
  destruct (decide (k = key)) as [->|Hne]; [|rewrite bump_other by done; apply Hold].
  pose proof (bump_key key (default ∅ counts)) as Hkey.
  destruct (default ∅ counts !! key) as [[p|[|c s]]|] eqn:Hbefore.
  - destruct Hkey as (q' & -> & Hq'). intros [= <-].
    specialize (Hold p eq_refl). lra.
  - rewrite Hkey. intros [= <-]. lra.
  - by rewrite Hkey.
  - destruct (Object_prototype key).
    + case_bool_decide; by rewrite Hkey.
    + rewrite Hkey. intros [= <-]. lra.
Qed.

(** What the update returns, field by field. *)
Lemma update_indicators_inr (d d' : Indicators) (metrics : obj) :
  update_indicators d metrics = inr d' ->
  (exists tool,
      ToString (obj_get "tool_name" metrics) = inr tool /\
      tools_used d' = Some (bump tool (default ∅ (tools_used d)))) /\
  commands_executed d' = commands_executed d + 1 /\
  files_modified d'
  = (if (is_str (obj_get "tool_name" metrics) "Edit"
         || is_str (obj_get "tool_name" metrics) "Write")
        && has_key "file_path" metrics
     then files_modified d + 1 else files_modified d) /\
  (if has_key "net_lines" metrics then
     exists net_lines,
       ToNumber (obj_get "net_lines" metrics) = inr net_lines /\
       lines_changed d' = lines_changed d + Math_abs net_lines
   else if has_key "lines_written" metrics then
     exists lines_written,
       ToNumber (obj_get "lines_written" metrics) = inr lines_written /\
       lines_changed d' = lines_changed d + lines_written
   else lines_changed d' = lines_changed d) /\
  (if truthy (obj_get "subagent_type" metrics) then
     exists agent,
       ToString (obj_get "subagent_type" metrics) = inr agent /\
       agents_invoked d' = Some (bump agent (default ∅ (agents_invoked d)))
   else agents_invoked d' = agents_invoked d) /\
  success_rate d'
  = (if Qgtb (commands_executed d + 1) 0 then
       if negb (truthy (obj_get "success" metrics)) then
         Math_max 0 (success_rate d - 1 / (commands_executed d + 1))
       else success_rate d
     else success_rate d) /\
  session_start d' = session_start d /\
  last_activity d' = obj_get "timestamp" metrics.
Proof.
  unfold update_indicators. run.
  destruct (ToString (obj_get "tool_name" metrics)) as [e|tool]; [done|].
  destruct (has_key "net_lines" metrics).
  - destruct (ToNumber (obj_get "net_lines" metrics)) as [e|net_lines]; [done|].
    destruct (truthy (obj_get "subagent_type" metrics)).
    + destruct (ToString (obj_get "subagent_type" metrics)) as [e|agent]; [done|].
      intros [= <-]. cbn. split; [by eexists|]. repeat split; by eexists.
    + intros [= <-]. cbn. split; [by eexists|]. repeat split; by eexists.
  - destruct (has_key "lines_written" metrics).
    + destruct (ToNumber (obj_get "lines_written" metrics)) as [e|lines_written];
        [done|].
      destruct (truthy (obj_get "subagent_type" metrics)).
      * destruct (ToString (obj_get "subagent_type" metrics)) as [e|agent]; [done|].
        intros [= <-]. cbn. split; [by eexists|]. repeat split; by eexists.
      * intros [= <-]. cbn. split; [by eexists|]. repeat split; by eexists.
    + destruct (truthy (obj_get "subagent_type" metrics)).
      * destruct (ToString (obj_get "subagent_type" metrics)) as [e|agent]; [done|].
        intros [= <-]. cbn. split; [by eexists|]. repeat split; by eexists.
      * intros [= <-]. cbn. split; [by eexists|]. by repeat split.
Qed.

Lemma update_indicators_throws (d : Indicators) (metrics : obj) :
  update_throws metrics = true ->
  update_indicators d metrics = inl no_primitive_value.
Proof.
  unfold update_throws, update_indicators, ToString, ToNumber. run.
  destruct (unconvertible (obj_get "tool_name" metrics)); [done|]. cbn [orb].
  destruct (has_key "net_lines" metrics).
  - destruct (unconvertible (obj_get "net_lines" metrics)); [done|]. cbn [orb].
    destruct (truthy (obj_get "subagent_type" metrics)); [|done].
    by destruct (unconvertible (obj_get "subagent_type" metrics)).
  - destruct (has_key "lines_written" metrics); cbn [andb orb].
    + destruct (unconvertible (obj_get "lines_written" metrics)); [done|].
      destruct (truthy (obj_get "subagent_type" metrics)); [|done].
      by destruct (unconvertible (obj_get "subagent_type" metrics)).
    + destruct (truthy (obj_get "subagent_type" metrics)); [|done].
      by destruct (unconvertible (obj_get "subagent_type" metrics)).
Qed.

Lemma update_indicators_returns (d : Indicators) (metrics : obj) :
  update_throws metrics = false ->
  exists d', update_indicators d metrics = inr d'.
Proof.
  unfold update_throws, update_indicators, ToString, ToNumber. run.
  destruct (unconvertible (obj_get "tool_name" metrics)); [done|]. cbn [orb].
  destruct (has_key "net_lines" metrics).
  - destruct (unconvertible (obj_get "net_lines" metrics)); [done|]. cbn [orb].
    destruct (truthy (obj_get "subagent_type" metrics)); [|by eexists].
    destruct (unconvertible (obj_get "subagent_type" metrics)); [done|by eexists].
  - destruct (has_key "lines_written" metrics); cbn [andb orb].
    + destruct (unconvertible (obj_get "lines_written" metrics)); [done|].
      destruct (truthy (obj_get "subagent_type" metrics)); [|by eexists].
      destruct (unconvertible (obj_get "subagent_type" metrics)); [done|by eexists].
    + destruct (truthy (obj_get "subagent_type" metrics)); [|by eexists].
      destruct (unconvertible (obj_get "subagent_type" metrics)); [done|by eexists].
Qed.

Lemma update_indicators_inl (d : Indicators) (metrics : obj) (e : JSError) :
  update_indicators d metrics = inl e ->
  update_throws metrics = true /\ e = no_primitive_value.
Proof.
  intros Hthrows. destruct (update_throws metrics) eqn:Hcase.
  - rewrite update_indicators_throws in Hthrows by done. by injection Hthrows as <-.
  - destruct (update_indicators_returns d metrics Hcase) as [d' Hd']. congruence.
Qed.

(** The statements of the aggregator on the counter and on the rate. *)
Lemma update_rate_failure (d d' : Indicators) (metrics : obj) :
  update_indicators d metrics = inr d' ->
  0 <= commands_executed d ->
  truthy (obj_get "success" metrics) = false ->
  success_rate d' = Math_max 0 (success_rate d - 1 / commands_executed d').
Proof.
  intros Hupdate Hce Hfail.
  apply update_indicators_inr in Hupdate as (_ & -> & _ & _ & _ & -> & _).
  rewrite Hfail. cbn [negb]. by rewrite (proj2 (Qgtb_true _ _)) by lra.
Qed.

Lemma update_rate_success (d d' : Indicators) (metrics : obj) :
  update_indicators d metrics = inr d' ->
  truthy (obj_get "success" metrics) = true ->
  success_rate d' = success_rate d.
Proof.
  intros Hupdate Hsucc.
  apply update_indicators_inr in Hupdate as (_ & _ & _ & _ & _ & -> & _).
  rewrite Hsucc. cbn [negb]. by destruct (Qgtb _ _).
Qed.

Lemma update_rate_le (d d' : Indicators) (metrics : obj) :
  update_indicators d metrics = inr d' ->
  0 <= success_rate d ->
  success_rate d' <= success_rate d.
Proof.
  intros Hupdate Hrate.
  apply update_indicators_inr in Hupdate as (_ & _ & _ & _ & _ & -> & _).
  destruct (Qgtb _ 0) eqn:Hpos; [|lra].
  destruct (negb _); [|lra].
  apply Qgtb_true in Hpos. apply inverse_nonneg in Hpos.
  unfold Math_max. apply Q.max_lub; lra.
Qed.

Lemma update_rate_nonneg (d d' : Indicators) (metrics : obj) :
  update_indicators d metrics = inr d' ->
  0 <= success_rate d ->
  0 <= success_rate d'.
Proof.
  intros Hupdate Hrate.
  apply update_indicators_inr in Hupdate as (_ & _ & _ & _ & _ & -> & _).
  destruct (Qgtb _ 0); [|lra]. destruct (negb _); [|lra].
  unfold Math_max. apply Q.le_max_l.
Qed.

Lemma update_ok (d d' : Indicators) (metrics : obj) :
  update_indicators d metrics = inr d' ->
  indicators_ok d ->
  (has_key "net_lines" metrics = false ->
   has_key "lines_written" metrics = true ->
   0 <= number_of (obj_get "lines_written" metrics)) ->
  indicators_ok d'.
Proof.
  intros Hupdate [Hce Hfm Hlc Hrate Htools Hagents] Hwritten.
  pose proof (update_rate_nonneg _ _ _ Hupdate Hrate) as Hrate'.
  apply update_indicators_inr in Hupdate
    as ((tool & _ & Htools') & Hce' & Hfm' & Hlc' & Hagents' & _).
  split.
  - rewrite Hce'. lra.
  - rewrite Hfm'. destruct (_ && _); lra.
  - destruct (has_key "net_lines" metrics).
    + destruct Hlc' as (net_lines & _ & ->).
      pose proof (Qabs_nonneg net_lines). unfold Math_abs. lra.
    + destruct (has_key "lines_written" metrics); [|by rewrite Hlc'].
      destruct Hlc' as (lines_written & Hnumber & ->).
      apply ToNumber_inr in Hnumber as [_ ->].
      specialize (Hwritten eq_refl eq_refl). lra.
  - exact Hrate'.
  - rewrite Htools'. by apply bump_nonneg.
  - destruct (truthy (obj_get "subagent_type" metrics)).
    + destruct Hagents' as (agent & _ & ->). by apply bump_nonneg.
    + by rewrite Hagents'.
Qed.

Lemma fresh_indicators_ok (now : jsstring) : indicators_ok (fresh_indicators now).
Proof.
  split; cbn; try done.
  - intros m k q [= <-]. by rewrite lookup_empty.
  - intros m k q [= <-]. by rewrite lookup_empty.
Qed.

(** The call: it loads the document, updates it and hands the update to
    the save; it ends where the load or the update threw, or where the
    save and the signal ended, and never throws itself. *)
Lemma updateProductivityIndicators_run (metrics : obj) (w : W) :
  updateProductivityIndicators metrics w
  = Ok tt
      match load_indicators w with
      | Throw _ w1 => w1
      | Ok d w1 =>
          match update_indicators d metrics with
          | inl _ => w1
          | inr d' => end_state (save_and_signal (obj_get "tool_name" metrics) d' w1)
          end
      end.
Proof.
  unfold updateProductivityIndicators. run.
  destruct (load_indicators w) as [d w1|e w1]; [|done].
  destruct (update_indicators d metrics) as [e|d']; [done|].
  by destruct (save_and_signal _ d' w1) as [[] w2|e w2].
Qed.

Lemma updateProductivityIndicators_applies (metrics : obj) (w w1 : W) (d d' : Indicators) :
  load_indicators w = Ok d w1 ->
  update_indicators d metrics = inr d' ->
  updateProductivityIndicators metrics w
  = Ok tt (end_state (save_and_signal (obj_get "tool_name" metrics) d' w1)).
Proof.
  intros Hload Hupdate. by rewrite updateProductivityIndicators_run, Hload, Hupdate.
Qed.

Lemma updateProductivityIndicators_loses (metrics : obj) (w w1 : W) (d : Indicators) e :
  load_indicators w = Ok d w1 ->
  update_indicators d metrics = inl e ->
  updateProductivityIndicators metrics w = Ok tt w1.
Proof.
  intros Hload Hupdate. by rewrite updateProductivityIndicators_run, Hload, Hupdate.
Qed.
End Aggregator.

(* ===================================================================== *)
(** ** The events of the pipeline at the aggregator *)
(* ===================================================================== *)

Section Events.
Context {W : Type} {P : Platform W}.
Local Open Scope Q_scope.

(** On the record [main] hands over, the update throws only for a tool
    name, or for a Task the name of the sub-agent, without a primitive
    value. *)
Lemma primary_update_throws context timestamp executionTime user sessionId message m :
  extracted (Context.tool_name context)
    (js_or (Context.tool_input context) (Obj [])) m ->
  update_throws
    (with_error_details context message
       (Object_assign (base_record context timestamp executionTime user sessionId) m))
  = unconvertible (Context.tool_name context)
    || is_str (Context.tool_name context) "Task"
       && unconvertible
            (js_or (get_prop (js_or (Context.tool_input context) (Obj []))
                      "subagent_type") (Str "unknown")).
Proof.
  intros Hm. unfold with_error_details, base_record, update_throws.
  generalize (Math_round executionTime).
  generalize (js_or (env_value user) (Str "unknown")).
  intros userId elapsed.
  destruct Hm as [size HR|old new HE Hold Hnew|content fileType HW Hcontent
                 |command HB Hcommand|HT|H1 H2 H3 H4 H5].
  - apply is_str_true in HR. rewrite HR.
    by destruct (truthy (Context.error context)).
  - apply is_str_true in HE. rewrite HE.
    by destruct (truthy (Context.error context)).
  - apply is_str_true in HW. rewrite HW.
    by destruct (truthy (Context.error context)).
  - apply is_str_true in HB. rewrite HB.
    by destruct (truthy (Context.error context)).
  - apply is_str_true in HT. rewrite HT.
    set (agent := js_or _ (Str "unknown")).
    assert (truthy agent = true) as Hagent.
    { unfold agent, js_or. by destruct (truthy (get_prop _ _)) eqn:Hsub. }
    destruct (truthy (Context.error context));
      (transitivity (truthy agent && unconvertible agent);
       [reflexivity | by rewrite Hagent]).
  - rewrite H5. cbn [andb].
    destruct (truthy (Context.error context));
      (transitivity (unconvertible (Context.tool_name context) || false || false);
       [reflexivity | by rewrite !orb_false_r]).
Qed.

(** The lines a Write event adds are not negative. *)
Lemma primary_lines_written context timestamp executionTime user sessionId message m :
  extracted (Context.tool_name context)
    (js_or (Context.tool_input context) (Obj [])) m ->
  let primary :=
    with_error_details context message
      (Object_assign (base_record context timestamp executionTime user sessionId) m) in
  has_key "net_lines" primary = false ->
  has_key "lines_written" primary = true ->
  0 <= number_of (obj_get "lines_written" primary).
Proof.
  intros Hm. unfold with_error_details, base_record.
  generalize (Math_round executionTime).
  generalize (js_or (env_value user) (Str "unknown")).
  intros userId elapsed.
  destruct (truthy (Context.error context)); destruct Hm;
    try (intros _ Hwritten; vm_compute in Hwritten; discriminate);
    try (intros Hnet; vm_compute in Hnet; discriminate).
  all: intros _ _;
    match goal with |- 0 <= number_of ?v =>
      change v with (Num (of_nat (lineCount content))) end;
    rewrite number_of_Num; unfold of_nat;
    change 0 with (inject_Z 0); rewrite <- Zle_Qle; lia.
Qed.

(** The records a call hands to the aggregator: none, or the primary
    record of a completed call. *)
Lemma aggregated_event toolData (w : W) r w' calls event :
  main_outcome toolData w r w' calls ->
  ToAggregator event ∈ calls ->
  let context := run_context toolData w in
  exists timestamp executionTime user sessionId message m,
    extracted (Context.tool_name context)
      (js_or (Context.tool_input context) (Obj [])) m /\
    event = with_error_details context message
              (Object_assign
                 (base_record context timestamp executionTime user sessionId) m).
Proof.
  intros Hout Hin context.
  destruct Hout as [session w3 e Hsession Hne Htime
                   |session w3 executionTime e w4 Hsession Hne Htime Hextract
                   |session w3 executionTime m w4 w5 e Hsession Hne Htime
                      context' Hextract metricsData agent Hagent Hdetails
                   |session w3 executionTime m w4 w5 primary outcome w6 w7
                      Hsession Hne Htime context' Hextract metricsData agent
                      Hagent Hdetails Hprimary Hupdate].
  - by apply elem_of_nil in Hin.
  - by apply elem_of_nil in Hin.
  - destruct (is_str _ _); [|by apply elem_of_nil in Hin].
    by apply list_elem_of_singleton in Hin.
  - assert (event = primary) as ->.
    { unfold calls_of in Hin. apply elem_of_app in Hin as [Hin|Hin].
      - destruct (is_str _ _); [|by apply elem_of_nil in Hin].
        by apply list_elem_of_singleton in Hin.
      - apply elem_of_cons in Hin as [?|Hin]; [done|].
        apply list_elem_of_singleton in Hin. congruence. }
    apply extract_extracted in Hextract as Hm.
    apply add_error_details_inr in Hdetails as (message & -> & _).
    by eexists _, _, _, _, message, m.
Qed.

(** The ways of the body, by the invocation. *)
Lemma main_outcome_time toolData (w : W) r w' calls :
  main_outcome toolData w r w' calls ->
  time_unconvertible toolData = true ->
  calls = [] /\
  exists w3, r = failed w w3 no_primitive_value.
Proof.
  unfold time_unconvertible. intros Hout Hconv.
  destruct Hout as [session w3 e Hsession Hne Htime
                   |session w3 executionTime e w4 Hsession Hne Htime Hextract
                   |session w3 executionTime m w4 w5 e Hsession Hne Htime
                      context Hextract metricsData agent Hagent Hdetails
                   |session w3 executionTime m w4 w5 primary outcome w6 w7
                      Hsession Hne Htime context Hextract metricsData agent
                      Hagent Hdetails Hprimary Hupdate];
    rewrite ToNumber_throws in Htime by done; try discriminate.
  injection Htime as <-. split; [done|]. by exists w3.
Qed.







Lemma aggregated_in calls event :
  event ∈ aggregated calls <-> ToAggregator event ∈ calls.
Proof.
  unfold aggregated. rewrite list_elem_of_omap. split.
  - intros ([d|d] & Hin & Heq); [done|]. by injection Heq as ->.
  - intros Hin. by exists (ToAggregator event).
Qed.
End Events.

(* ===================================================================== *)
(** ** Metric extractor: line counts and the Bash command type *)
(* ===================================================================== *)



(** C7, as the code has it.  For a Bash input whose [command] is a string
    (or absent), [command_type] is ["unknown"] when the command is empty
    and otherwise the part of the command before its first space
    character; that part is the first whitespace-delimited token whenever
    the command does not start with a space and no other whitespace
    character occurs before its first space. *)
Theorem bash_command_type {W : Type} {P : Platform W}
    (context : Context.t) (command : jsstring) (w : W) :
  let toolInput := js_or (Context.tool_input context) (Obj []) in
  Context.tool_name context = Str "Bash" ->
  js_or (get_prop toolInput "command") (Str "") = Str command ->
  exists m,
    extractToolSpecificMetrics context w = Ok m w /\
    obj_lookup "command_type" m
      = Some (Str (match command with
                   | [] => lit "unknown"
                   | _ => before SPACE command
                   end)) /\
    (head command <> Some SPACE ->
     (forall c, c ∈ before SPACE command -> is_whitespace c = false) ->
     before SPACE command = first_token command).
Proof.
  intros toolInput HBash Hcommand.
  unfold extractToolSpecificMetrics. fold toolInput. rewrite HBash.
  change (is_str (Str "Bash") "Read") with false.
  change (is_str (Str "Bash") "Edit") with false.
  change (is_str (Str "Bash") "Write") with false.
  change (is_str (Str "Bash") "Bash") with true. cbv iota.
  rewrite Hcommand. run.
  destruct (command_type_of (Str command) w) as [commandType w1|e w1] eqn:Htype.
  - rewrite <- Hcommand in Htype.
    apply command_type_inv in Htype as (-> & s & Hs & ->).
    rewrite Hcommand in Hs. injection Hs as <-.
    eexists. split; [reflexivity|]. split; [reflexivity|].
    intros Hhead Hws. symmetry. by apply first_token_before.
  - exfalso. unfold command_type_of in Htype. destruct command; discriminate.
Qed.

Lemma bash_command_type_witness :
  exists m,
    extractToolSpecificMetrics
      (context_of "Bash" [(lit "command", Str "git status")]) Sim.quiet
      = Ok m Sim.quiet /\
    obj_lookup "command_type" m = Some (Str "git") /\
    first_token (lit "git status") = lit "git".
Proof.
  destruct (@bash_command_type Sim.World Sim.platform
              (context_of "Bash" [(lit "command", Str "git status")])
              (lit "git status") Sim.quiet eq_refl eq_refl)
    as (m & Hm & Htype & Htoken).
  exists m. split; [exact Hm|]. split; [exact Htype|].
  symmetry. apply Htoken.
  - discriminate.
  - intros c Hc. vm_compute in Hc.
    repeat (apply elem_of_cons in Hc as [->|Hc]; [reflexivity|]).
    by apply elem_of_nil in Hc.
Defined.

(** C7 as stated fails: a command that starts with a space has the empty
    string as [command_type], not its first token; a command whose first
    token ends at a tab has the whole command as [command_type]. *)
Lemma command_type_not_first_token :
  (exists m,
      extractToolSpecificMetrics
        (context_of "Bash" [(lit "command", Str " ls -l")]) Sim.quiet
      = Ok m Sim.quiet /\
      obj_lookup "command_type" m = Some (Str "") /\
      first_token (lit " ls -l") = lit "ls" /\
      obj_lookup "command_type" m <> Some (Str (first_token (lit " ls -l"))))
  /\
  (exists m,
      extractToolSpecificMetrics
        (context_of "Bash" [(lit "command", Str (lit "ls" ++ 9%N :: lit "-l"))])
        Sim.quiet
      = Ok m Sim.quiet /\
      obj_lookup "command_type" m = Some (Str (lit "ls" ++ 9%N :: lit "-l")) /\
      first_token (lit "ls" ++ 9%N :: lit "-l") = lit "ls").
Proof.
  split.
  - eexists. split; [reflexivity|]. split; [reflexivity|]. split; [reflexivity|].
    vm_compute. discriminate.
  - eexists. split; [reflexivity|]. split; reflexivity.
Qed.

(* ===================================================================== *)
(** ** Session resolver *)
(* ===================================================================== *)

(** C3, as the code has it.  Session resolution never throws and returns
    a non-empty string: the session-id environment variable when it is
    set and non-empty; else the trimmed content of the session-id file
    when the file exists, can be read and its trimmed content is not
    empty; else (file absent, read error, or nothing but whitespace in
    the file) the constant ["default-session"]. *)
Theorem session_resolution {W : Type} {P : Platform W} (w : W) :
  exists s w',
    getCurrentSessionId w = Ok (Str s) w' /\ s <> [] /\
    (forall id, env_CLAUDE_SESSION_ID w = Some id -> id <> [] -> s = id /\ w' = w) /\
    (env_CLAUDE_SESSION_ID w = None \/ env_CLAUDE_SESSION_ID w = Some [] ->
     match (fs_pathExists CurrentSessionIdFile w).1,
           fs_readFile CurrentSessionIdFile (fs_pathExists CurrentSessionIdFile w).2
     with
     | true, Ok content _ =>
         s = match trim content with
             | [] => lit "default-session"
             | _ => trim content
             end
     | _, _ => s = lit "default-session"
     end).
Proof.
  destruct (getCurrentSessionId_returns w) as (s & w' & Hrun & Hs).
  exists s, w'. split; [exact Hrun|]. split; [exact Hs|].
  revert Hrun. unfold getCurrentSessionId. run. split.
  - intros id Henv Hid. rewrite Henv in Hrun. destruct id as [|c id]; [done|].
    cbn in Hrun. by injection Hrun as <- <-.
  - intros Henv.
    assert (truthy (env_value (env_CLAUDE_SESSION_ID w)) = false) as Hfalsy
      by (by destruct Henv as [-> | ->]).
    assert (js_or (env_value (env_CLAUDE_SESSION_ID w)) (Str "default-session")
            = Str "default-session") as Hdefault
      by (unfold js_or; by rewrite Hfalsy).
    rewrite Hfalsy in Hrun. cbn [negb] in Hrun.
    destruct (fs_pathExists CurrentSessionIdFile w) as [[] w1]; cbn [fst snd] in *.
    + destruct (fs_readFile CurrentSessionIdFile w1) as [content w2|e w2].
      * destruct (trim content) eqn:Htrim; cbn in Hrun; by injection Hrun as <- <-.
      * rewrite Hdefault in Hrun. by injection Hrun as <- <-.
    + rewrite Hdefault in Hrun. by injection Hrun as <- <-.
Qed.

Lemma session_resolution_witness :
  exists w',
    getCurrentSessionId (Sim.with_session_file (lit "  session-42" ++ [LF]) Sim.quiet)
    = Ok (Str "session-42") w'.
Proof.
  destruct (@session_resolution Sim.World Sim.platform
              (Sim.with_session_file (lit "  session-42" ++ [LF]) Sim.quiet)) as (s & w' & Hrun & Hs & Henv & Hfile).
  specialize (Hfile (or_introl eq_refl)). vm_compute in Hfile.
  exists w'. rewrite Hfile in Hrun. exact Hrun.
Defined.

(** C3 as stated fails: with the variable unset and a readable session-id
    file that holds only whitespace, the result is ["default-session"],
    not the (empty) trimmed content of the file. *)
Lemma blank_session_file_falls_back :
  let w := Sim.with_session_file [LF] Sim.quiet in
  env_CLAUDE_SESSION_ID w = None /\
  fs_pathExists CurrentSessionIdFile w = (true, w) /\
  fs_readFile CurrentSessionIdFile w = Ok [LF] w /\
  getCurrentSessionId w = Ok (Str "default-session") w /\
  Str (lit "default-session") <> Str (trim [LF]).
Proof. repeat split; try reflexivity. vm_compute. discriminate. Qed.


(* ===================================================================== *)
(** ** Metrics sink *)
(* ===================================================================== *)

(** C2, at the inputs where the code departs from it.  When the remote
    submission throws [null] or [undefined] and the local fallback
    completes, reading [error.message] for the outcome throws a
    [TypeError] inside the [try] that guards the fallback: [logMetrics]
    ends where the fallback ended, with all it has written, and returns
    [success = false] with the message that both the API and the local
    storage failed, the error captured being that [TypeError]. *)
Theorem null_rejection_reported_as_failure {W : Type} {P : Platform W}
    (data : obj) (error : value) (w w1 w2 : W) :
  error = Null \/ error = Undefined ->
  remote_submission data w = Rejected error w1 ->
  localFallback data w1 = Ok tt w2 ->
  exists thrown,
    message_of error = inl thrown /\
    err_name thrown = lit "TypeError" /\
    logMetrics data w
    = Ok {| Outcome.success := Bool false;
            Outcome.method := Str "local_fallback";
            Outcome.message := Str "Both API and local storage failed";
            Outcome.error := Str (err_message thrown) |} w2.
Proof.
  intros Herror Hremote Hfallback. unfold logMetrics. rewrite Hremote. run.
  rewrite Hfallback.
  destruct Herror as [-> | ->]; eexists; (split; [reflexivity|]); by split.
Qed.

(** The remote client throws [null] and the disk works: the record and
    its activity line are appended, and the outcome is a failure. *)
Lemma null_rejection_reported_as_failure_witness :
  let data := [(lit "event_type", Str "tool_execution");
               (lit "timestamp", Str "2025-01-01T00:00:00Z");
               (lit "tool_name", Str "Bash")] in
  let w := Sim.with_remote_throwing Null Sim.quiet in
  exists w',
    localFallback data w = Ok tt w' /\
    Sim.appended w'
    = [(ToolMetricsLog, lit "{}" ++ [LF]);
       (ActivityLog, lit "2025-01-01T00:00:00Z|tool_complete|Bash|unknown" ++ [LF])] /\
    logMetrics data w
    = Ok {| Outcome.success := Bool false;
            Outcome.method := Str "local_fallback";
            Outcome.message := Str "Both API and local storage failed";
            Outcome.error
              := Str "Cannot read properties of null (reading 'message')" |} w'.
Proof.
  intros data w.
  destruct (localFallback data w) as [[] w'|e w'] eqn:Hfallback;
    [|vm_compute in Hfallback; discriminate].
  destruct (@null_rejection_reported_as_failure Sim.World Sim.platform
              data Null w w w' (or_introl eq_refl) eq_refl Hfallback)
    as (thrown & Hthrown & _ & Hrun).
  exists w'. split; [reflexivity|].
  injection Hthrown as <-. split; [|exact Hrun].
  vm_compute in Hfallback. by injection Hfallback as <-.
Defined.

(** The same with an [Error]: the outcome is a success. *)
Example error_rejection_stored_locally :
  let data := [(lit "event_type", Str "tool_execution");
               (lit "timestamp", Str "2025-01-01T00:00:00Z");
               (lit "tool_name", Str "Bash")] in
  let w := Sim.with_remote_throwing (Err Sim.ECONNREFUSED) Sim.quiet in
  exists w',
    logMetrics data w
    = Ok {| Outcome.success := Bool true;
            Outcome.method := Str "local_fallback";
            Outcome.message := Str "API client failed, data stored locally";
            Outcome.error := Str "connect ECONNREFUSED" |} w'.
Proof. eexists. vm_compute. reflexivity. Qed.

(** The sink when the remote service and the local disk both fail. *)
Example logMetrics_both_fail :
  let w := Sim.with_failures false false Sim.quiet in
  logMetrics [(lit "event_type", Str "tool_execution")] w
  = Ok {| Outcome.success := Bool false;
          Outcome.method := Str "local_fallback";
          Outcome.message := Str "Both API and local storage failed";
          Outcome.error := Str (err_message Sim.EACCES) |} w.
Proof. reflexivity. Qed.

(* ===================================================================== *)
(** ** Pipeline orchestrator *)
(* ===================================================================== *)




(** C5, as the code has it.  Every record handed to the sink carries the
    timestamp [formatISO] returned for this call, which is in the ISO
    8601 format, the success flag and the execution time in milliseconds.
    The primary ["tool_execution"] record carries in addition the tool
    name, the user identifier (["unknown"] when the variable is unset or
    empty) and the session identifier that [getCurrentSessionId]
    returned for this call.  The secondary ["agent_invocation"] record
    carries the agent name and the task description instead, and has no
    tool name, no user identifier and no session identifier. *)
Theorem sink_record_fields {W : Type} {P : Platform W}
    (toolData : ToolData.t) (w : W) (log : list Call) :
  let toolName := js_or (ToolData.toolName toolData) (Str "unknown") in
  let toolInput := js_or (js_or (ToolData.toolInput toolData) (Obj [])) (Obj []) in
  let timestamp := run_timestamp w in
  exists r w' calls session w3,
    main toolData (w, log) = Ok r (w', log ++ calls) /\
    getCurrentSessionId (run_world w) = Ok (Str session) w3 /\
    session <> [] /\
    ISO_8601 timestamp = true /\
    forall record, record ∈ sunk calls ->
      obj_lookup "timestamp" record = Some (Str timestamp) /\
      obj_lookup "success" record
        = Some (Bool (negb (truthy (js_or (ToolData.error toolData) Null)))) /\
      (exists executionTime,
          ToNumber (js_or (ToolData.executionTime toolData) (Num 0))
          = inr executionTime /\
          obj_lookup "execution_time_ms" record
          = Some (Num (Math_round executionTime))) /\
      ((obj_lookup "event_type" record = Some (Str "tool_execution") /\
        obj_lookup "tool_name" record = Some toolName /\
        obj_lookup "user" record
          = Some (js_or (env_value (env_USER w3)) (Str "unknown")) /\
        obj_lookup "session_id" record = Some (Str session))
       \/
       (obj_lookup "event_type" record = Some (Str "agent_invocation") /\
        is_str toolName "Task" = true /\
        obj_lookup "agent_name" record
          = Some (js_or (get_prop toolInput "subagent_type") (Str "unknown")) /\
        obj_lookup "task_description" record
          = Some (js_or (get_prop toolInput "description") (Str "")) /\
        obj_lookup "tool_name" record = None /\
        obj_lookup "user" record = None /\
        obj_lookup "session_id" record = None)).
Proof.
  intros toolName toolInput timestamp.
  destruct (main_run toolData w log) as (r & w' & calls & Hmain & Hout).
  assert (ISO_8601 timestamp = true) as Hformat by apply formatISO_format.
  assert (forall session w3 executionTime m (record : obj),
            ToNumber (js_or (ToolData.executionTime toolData) (Num 0))
            = inr executionTime ->
            is_str (Context.tool_name (run_context toolData w)) "Task" = true ->
            extracted (Context.tool_name (run_context toolData w))
              (js_or (Context.tool_input (run_context toolData w)) (Obj [])) m ->
            record = agent_of toolData w executionTime session (env_USER w3) m ->
            obj_lookup "timestamp" record = Some (Str timestamp) /\
            obj_lookup "success" record
              = Some (Bool (negb (truthy (js_or (ToolData.error toolData) Null)))) /\
            (exists executionTime,
                ToNumber (js_or (ToolData.executionTime toolData) (Num 0))
                = inr executionTime /\
                obj_lookup "execution_time_ms" record
                = Some (Num (Math_round executionTime))) /\
            ((obj_lookup "event_type" record = Some (Str "tool_execution") /\
              obj_lookup "tool_name" record = Some toolName /\
              obj_lookup "user" record
                = Some (js_or (env_value (env_USER w3)) (Str "unknown")) /\
              obj_lookup "session_id" record = Some (Str session))
             \/
             (obj_lookup "event_type" record = Some (Str "agent_invocation") /\
              is_str toolName "Task" = true /\
              obj_lookup "agent_name" record
                = Some (js_or (get_prop toolInput "subagent_type") (Str "unknown")) /\
              obj_lookup "task_description" record
                = Some (js_or (get_prop toolInput "description") (Str "")) /\
              obj_lookup "tool_name" record = None /\
              obj_lookup "user" record = None /\
              obj_lookup "session_id" record = None))) as Hagent_record.
  { intros session w3 executionTime m record Htime HTask Hm ->.
    destruct (agent_fields (run_context toolData w) (run_timestamp w) executionTime
                (env_USER w3) (Str session) m HTask Hm)
      as (Atype & Atime & Asuccess & Aelapsed & Aname & Atask & A1 & A2 & A3 & _).
    split; [exact Atime|]. split; [exact Asuccess|].
    split; [by exists executionTime|]. right. done. }
  destruct Hout as [session w3 e Hsession Hne Htime
                   |session w3 executionTime e w4 Hsession Hne Htime Hextract
                   |session w3 executionTime m w4 w5 e Hsession Hne Htime
                      context Hextract metricsData agent Hagent Hdetails
                   |session w3 executionTime m w4 w5 primary outcome w6 w7
                      Hsession Hne Htime context Hextract metricsData agent
                      Hagent Hdetails Hprimary Hupdate];
    eexists _, _, _, session, w3; (split; [exact Hmain|]);
    (split; [exact Hsession|]); (split; [exact Hne|]); (split; [exact Hformat|]).
  - intros record Hin. by apply elem_of_nil in Hin.
  - intros record Hin. by apply elem_of_nil in Hin.
  - intros record Hin. apply extract_extracted in Hextract as Hm.
    destruct (is_str (Context.tool_name context) "Task") eqn:HTask;
      [|by apply elem_of_nil in Hin].
    apply list_elem_of_singleton in Hin. by eapply Hagent_record.
  - intros record Hin. apply extract_extracted in Hextract as Hm.
    rewrite calls_of_sunk in Hin.
    assert (record = primary ->
            obj_lookup "timestamp" record = Some (Str timestamp) /\
            obj_lookup "success" record
              = Some (Bool (negb (truthy (js_or (ToolData.error toolData) Null)))) /\
            (exists executionTime,
                ToNumber (js_or (ToolData.executionTime toolData) (Num 0))
                = inr executionTime /\
                obj_lookup "execution_time_ms" record
                = Some (Num (Math_round executionTime))) /\
            ((obj_lookup "event_type" record = Some (Str "tool_execution") /\
              obj_lookup "tool_name" record = Some toolName /\
              obj_lookup "user" record
                = Some (js_or (env_value (env_USER w3)) (Str "unknown")) /\
              obj_lookup "session_id" record = Some (Str session))
             \/
             (obj_lookup "event_type" record = Some (Str "agent_invocation") /\
              is_str toolName "Task" = true /\
              obj_lookup "agent_name" record
                = Some (js_or (get_prop toolInput "subagent_type") (Str "unknown")) /\
              obj_lookup "task_description" record
                = Some (js_or (get_prop toolInput "description") (Str "")) /\
              obj_lookup "tool_name" record = None /\
              obj_lookup "user" record = None /\
              obj_lookup "session_id" record = None))) as Hprimary_record.
    { intros ->. apply add_error_details_inr in Hdetails as (message & -> & _).
      destruct (primary_fields context (run_timestamp w) executionTime (env_USER w3)
                  (Str session) message m Hm)
        as (Ptype & Ptime & Pname & Psuccess & Pelapsed & Puser & Psession).
      split; [exact Ptime|]. split; [exact Psuccess|].
      split; [by exists executionTime|]. left. done. }
    destruct (is_str (Context.tool_name context) "Task") eqn:HTask.
    + apply elem_of_cons in Hin as [->|Hin]; [by eapply Hagent_record|].
      apply list_elem_of_singleton in Hin. by apply Hprimary_record.
    + apply list_elem_of_singleton in Hin. by apply Hprimary_record.
Qed.

Lemma sink_record_fields_witness :
  exists r w' calls,
    main (Sim.invocation "Bash" [(lit "command", Str "ls")]) (Sim.quiet, [])
    = Ok r (w', calls) /\
    forall record, record ∈ sunk calls ->
      obj_lookup "timestamp" record = Some (Str "2025-01-01T00:00:00Z") /\
      obj_lookup "success" record = Some (Bool true).
Proof.
  destruct (@sink_record_fields Sim.World Sim.platform
              (Sim.invocation "Bash" [(lit "command", Str "ls")]) Sim.quiet [])
    as (r & w' & calls & session & w3 & Hmain & _ & _ & _ & Hfields).
  exists r, w', calls. split; [exact Hmain|].
  intros record Hin. destruct (Hfields record Hin) as (Htime & Hsuccess & _).
  split; [exact Htime | exact Hsuccess].
Defined.

(** C5 as stated fails: the secondary record of a ["Task"] invocation has
    no tool name, no user identifier and no session identifier. *)
Lemma agent_record_lacks_fields :
  exists r w' agent primary,
    main (Sim.invocation "Task" [(lit "subagent_type", Str "frontend-developer");
                                 (lit "description", Str "Create component")])
      (Sim.quiet, [])
    = Ok r (w', [ToSink agent; ToSink primary; ToAggregator primary]) /\
    obj_lookup "event_type" agent = Some (Str "agent_invocation") /\
    obj_lookup "tool_name" agent = None /\
    obj_lookup "user" agent = None /\
    obj_lookup "session_id" agent = None.
Proof.
  eexists _, _, _, _. split; [vm_compute; reflexivity|]. repeat split; reflexivity.
Qed.

(** C9.  When no exception escapes the body of [main], the report has
    [success = true]; its [successful] flag is the negation of the error
    of the invocation and its [metricsLogged] flag is the [success] of
    the outcome the sink returned for the primary record.  [main] itself
    never throws.  With a failed invocation, a failing remote service and
    a failing disk, the report still has [success = true], with
    [successful = false] and [metricsLogged = false]. *)
Theorem report_success {W : Type} {P : Platform W} :
  (forall (toolData : ToolData.t) (w : W) (log : list Call) r st',
      main_body toolData (hrtime_bigint w).1 ((hrtime_bigint w).2, log) = Ok r st' ->
      main toolData (w, log) = Ok r st' /\
      Report.success r = true /\
      exists summary primary w3 outcome w4,
        Report.metrics r = Some summary /\
        Report.successful summary
          = negb (truthy (js_or (ToolData.error toolData) Null)) /\
        last (sunk st'.2) = Some primary /\
        logMetrics primary w3 = Ok outcome w4 /\
        Report.metricsLogged summary = Outcome.success outcome)
  /\
  (forall (toolData : ToolData.t) (w : W) (log : list Call),
      exists r st', main toolData (w, log) = Ok r st')
  /\
  (exists r st' summary,
      main (Sim.failed_invocation "Bash" [(lit "command", Str "make")])
        (Sim.with_failures false false Sim.quiet, [])
      = Ok r st' /\
      Report.success r = true /\
      Report.metrics r = Some summary /\
      Report.successful summary = false /\
      Report.metricsLogged summary = Bool false).
Proof.
  split; [|split].
  - intros toolData w log r st' Hbody.
    split; [by rewrite main_unfold, Hbody|].
    pose proof (main_body_run toolData w log) as Hrun.
    rewrite Hbody in Hrun. destruct Hrun as (calls & Hlog & Hout & Hsuccess).
    split; [exact Hsuccess|].
    destruct (main_outcome_success _ _ _ _ _ Hout Hsuccess)
      as (session & w3 & executionTime & m & w4 & w5 & primary & outcome & w6 & w7
          & _ & _ & _ & _ & _ & _ & Hsink & _ & -> & _ & ->).
    eexists _, primary, w5, outcome, w6. split; [reflexivity|].
    split; [reflexivity|]. split; [|done].
    rewrite Hlog. unfold sunk. rewrite omap_app. fold (sunk log).
    fold (sunk (calls_of (run_context toolData w)
                  (agent_of toolData w executionTime session (env_USER w3) m) primary)).
    rewrite calls_of_sunk. destruct (is_str _ _).
    + change [?a; primary] with ([a] ++ [primary]).
      by rewrite app_assoc, last_snoc.
    + by rewrite last_snoc.
  - intros toolData w log.
    destruct (main_run toolData w log) as (r & w' & calls & Hmain & _). eauto.
  - eexists _, _, _. split; [vm_compute; reflexivity|]. repeat split; reflexivity.
Qed.

Lemma report_success_witness :
  exists r st',
    main (Sim.invocation "Read" [(lit "file_path", Str "/tmp/absent.txt")])
      (Sim.with_failures false false Sim.quiet, [])
    = Ok r st' /\
    Report.success r = true.
Proof.
  eexists _, _.
  refine (let H := proj1 (@report_success Sim.World Sim.platform)
                     (Sim.invocation "Read" [(lit "file_path", Str "/tmp/absent.txt")])
                     (Sim.with_failures false false Sim.quiet) [] _ _ _ in
          conj (proj1 H) (proj1 (proj2 H))).
  vm_compute. reflexivity.
Defined.

(* ===================================================================== *)
(** ** Productivity aggregator *)
(* ===================================================================== *)

Section Replay.
Context {W : Type} {P : Platform W}.

Lemma replay_snoc (now : jsstring) (events : list obj) (event : obj) :
  replay now (events ++ [event]) = apply_event (replay now events) event.
Proof. unfold replay. by rewrite fold_left_app. Qed.

Lemma replay_commands_nonneg (now : jsstring) (events : list obj) :
  (0 <= commands_executed (replay now events))%Q.
Proof.
  induction events as [|event events IH] using rev_ind; [cbn; lra|].
  rewrite replay_snoc. unfold apply_event.
  destruct (update_indicators (replay now events) event) as [e|d'] eqn:Hupdate;
    [done|].
  apply update_indicators_inr in Hupdate as (_ & -> & _). lra.
Qed.
End Replay.

(** C1.  A call of [updateProductivityIndicators] that has loaded a
    document whose [commands_executed] is not negative (as on every
    document built from the fresh one) applies the event unless the
    update throws: the document it hands to the save has
    [commands_executed] incremented and, for an event that is a failure,
    [success_rate] set to [max(0, success_rate - 1/n)] with [n] the
    incremented [commands_executed]; for an event that is a success,
    [success_rate] as it was.  When the update throws, the event is not
    applied: nothing is handed to the save.  Two failures in a row from
    [commands_executed = 0] and [success_rate = 100], the second call
    loading what the first has handed to the save, leave
    [success_rate = 98.5]; so do two failed invocations through [main]
    on a store without a document. *)
Theorem success_rate_update {W : Type} {P : Platform W} :
  (forall (metrics : obj) (w w1 : W) (d : Indicators),
      load_indicators w = Ok d w1 ->
      (0 <= commands_executed d)%Q ->
      match update_indicators d metrics with
      | inr d' =>
          updateProductivityIndicators metrics w
          = Ok tt (end_state (save_and_signal (obj_get "tool_name" metrics) d' w1)) /\
          commands_executed d' = (commands_executed d + 1)%Q /\
          (truthy (obj_get "success" metrics) = false ->
           success_rate d'
           = Math_max 0 (success_rate d - 1 / commands_executed d')%Q) /\
          (truthy (obj_get "success" metrics) = true ->
           success_rate d' = success_rate d)
      | inl _ =>
          update_throws metrics = true /\
          updateProductivityIndicators metrics w = Ok tt w1
      end)
  /\
  (forall (now : jsstring) (events : list obj) (metrics : obj) (d' : Indicators),
      let d := replay now events in
      update_indicators d metrics = inr d' ->
      (truthy (obj_get "success" metrics) = false ->
       success_rate d'
       = Math_max 0 (success_rate d - 1 / (commands_executed d + 1))%Q) /\
      (truthy (obj_get "success" metrics) = true ->
       success_rate d' = success_rate d))
  /\
  (forall (first second : obj) (w w1 : W) (d : Indicators),
      load_indicators w = Ok d w1 ->
      (commands_executed d == 0)%Q ->
      (success_rate d == 100)%Q ->
      truthy (obj_get "success" first) = false ->
      truthy (obj_get "success" second) = false ->
      update_throws first = false ->
      update_throws second = false ->
      exists d1,
        update_indicators d first = inr d1 /\
        updateProductivityIndicators first w
        = Ok tt (end_state (save_and_signal (obj_get "tool_name" first) d1 w1)) /\
        forall (w' w1' : W),
          load_indicators w' = Ok d1 w1' ->
          exists d2,
            update_indicators d1 second = inr d2 /\
            updateProductivityIndicators second w'
            = Ok tt (end_state (save_and_signal (obj_get "tool_name" second) d2 w1')) /\
            (success_rate d2 == 98.5)%Q)
  /\
  (exists r1 w1 log1 r2 w2 log2 d,
      main (Sim.failed_invocation "Bash" [(lit "command", Str "make")]) (Sim.quiet, [])
      = Ok r1 (w1, log1) /\
      main (Sim.failed_invocation "Bash" [(lit "command", Str "make")]) (w1, log1)
      = Ok r2 (w2, log2) /\
      Sim.document w2 = Some d /\
      (commands_executed d == 2)%Q /\ (success_rate d == 98.5)%Q).
Proof.
  split; [|split; [|split]].
  - intros metrics w w1 d Hload Hce.
    destruct (update_indicators d metrics) as [e|d'] eqn:Hupdate.
    + split; [exact (proj1 (update_indicators_inl d metrics e Hupdate))|].
      by eapply updateProductivityIndicators_loses.
    + split; [exact (updateProductivityIndicators_applies _ _ _ _ _ Hload Hupdate)|].
      split; [by apply update_indicators_inr in Hupdate as (_ & -> & _)|].
      split; [by apply update_rate_failure | by apply update_rate_success].
  - intros now events metrics d' d Hupdate. split.
    + intros Hfailure.
      rewrite (update_rate_failure _ _ _ Hupdate); [|apply replay_commands_nonneg|done].
      by apply update_indicators_inr in Hupdate as (_ & -> & _).
    + by apply update_rate_success.
  - intros first second w w1 d Hload Hce Hrate Hfirst Hsecond Hconv1 Hconv2.
    destruct (update_indicators_returns d first Hconv1) as [d1 Hd1].
    exists d1. split; [exact Hd1|].
    split; [exact (updateProductivityIndicators_applies _ _ _ _ _ Hload Hd1)|].
    intros w' w1' Hload'.
    destruct (update_indicators_returns d1 second Hconv2) as [d2 Hd2].
    exists d2. split; [exact Hd2|].
    split; [exact (updateProductivityIndicators_applies _ _ _ _ _ Hload' Hd2)|].
    apply update_indicators_inr in Hd1 as Hfields1.
    destruct Hfields1 as (_ & Hce1 & _).
    rewrite (update_rate_failure _ _ _ Hd2); [|rewrite Hce1; lra|done].
    rewrite (update_rate_failure _ _ _ Hd1); [|lra|done].
    apply update_indicators_inr in Hd2 as (_ & -> & _). rewrite Hce1.
    unfold Math_max.
    assert (success_rate d - 1 / (commands_executed d + 1) == 99)%Q
      as Hone by (rewrite Hce, Hrate; reflexivity).
    rewrite (Q.max_r 0 (success_rate d - _)%Q) by lra.
    assert (1 / (commands_executed d + 1 + 1) == 1 # 2)%Q
      as Htwo by (rewrite Hce; reflexivity).
    rewrite Q.max_r by lra. rewrite Hone, Htwo. reflexivity.
  - eexists _, _, _, _, _, _, _. split; [vm_compute; reflexivity|].
    split; [vm_compute; reflexivity|]. split; [reflexivity|]. split; reflexivity.
Qed.

Lemma success_rate_update_witness :
  let failure := [(lit "tool_name", Str "Bash"); (lit "success", Bool false)] in
  exists d' w',
    updateProductivityIndicators failure Sim.quiet = Ok tt w' /\
    Sim.document w' = Some d' /\
    (commands_executed d' == 1)%Q /\ (success_rate d' == 99)%Q.
Proof.
  intros failure.
  pose proof (proj1 (@success_rate_update Sim.World Sim.platform) failure Sim.quiet
                (Sim.tick Sim.quiet) (fresh_indicators (lit "2025-01-01T00:00:00Z"))
                eq_refl) as Hcall.
  destruct (update_indicators (fresh_indicators (lit "2025-01-01T00:00:00Z")) failure)
    as [e|d'] eqn:Hupdate; [vm_compute in Hupdate; discriminate|].
  destruct Hcall as (Hrun & Hce & Hfailure & _); [cbn; lra|].
  exists d', (Sim.store d' (Sim.tick Sim.quiet)). split.
  { rewrite Hrun. reflexivity. }
  split; [reflexivity|]. rewrite Hfailure by reflexivity. rewrite Hce.
  split; reflexivity.
Defined.

(** C8, as the code has it.  A fresh document satisfies the invariant
    (no counter, count or rate is negative).  For every event that
    [main] hands to the aggregator and every call of the aggregator that
    has loaded a document satisfying the invariant: unless the update
    throws, the document the call hands to the save satisfies the
    invariant again, its [commands_executed] is exactly 1 more and its
    [success_rate] is not higher; when the update throws (the tool name,
    or the sub-agent of a Task, has no primitive value) nothing is handed
    to the save. *)
Theorem indicators_invariant {W : Type} {P : Platform W}
    (toolData : ToolData.t) (w : W) (log : list Call) :
  (forall now, indicators_ok (fresh_indicators now)) /\
  exists r w' calls,
    main toolData (w, log) = Ok r (w', log ++ calls) /\
    forall (event : obj) (w0 w1 : W) (d : Indicators),
      ToAggregator event ∈ calls ->
      load_indicators w0 = Ok d w1 ->
      indicators_ok d ->
      match update_indicators d event with
      | inr d' =>
          updateProductivityIndicators event w0
          = Ok tt (end_state (save_and_signal (obj_get "tool_name" event) d' w1)) /\
          indicators_ok d' /\
          commands_executed d' = (commands_executed d + 1)%Q /\
          (commands_executed d < commands_executed d')%Q /\
          (success_rate d' <= success_rate d)%Q
      | inl _ =>
          update_throws event = true /\
          updateProductivityIndicators event w0 = Ok tt w1
      end.
Proof.
  split; [apply fresh_indicators_ok|].
  destruct (main_run toolData w log) as (r & w' & calls & Hmain & Hout).
  exists r, w', calls. split; [exact Hmain|].
  intros event w0 w1 d Hin Hload Hok.
  destruct (update_indicators d event) as [e|d'] eqn:Hupdate.
  { split; [exact (proj1 (update_indicators_inl d event e Hupdate))|].
    by eapply updateProductivityIndicators_loses. }
  split; [exact (updateProductivityIndicators_applies _ _ _ _ _ Hload Hupdate)|].
  destruct (aggregated_event _ _ _ _ _ _ Hout Hin)
    as (timestamp & executionTime & user & sessionId & message & m & Hm & ->).
  split.
  { eapply update_ok; [exact Hupdate|exact Hok|]. by apply primary_lines_written. }
  apply update_indicators_inr in Hupdate as Hfields.
  destruct Hfields as (_ & Hce & _).
  split; [exact Hce|]. split; [rewrite Hce; lra|].
  eapply update_rate_le; [exact Hupdate|]. by destruct Hok.
Qed.

Lemma indicators_invariant_witness :
  exists r w' calls event d',
    main (Sim.invocation "Write" [(lit "file_path", Str "notes.txt");
                                  (lit "content", Str (lit "one" ++ LF :: lit "two"))]) (Sim.quiet, [])
    = Ok r (w', calls) /\
    last calls = Some (ToAggregator event) /\
    update_indicators (fresh_indicators (lit "2025-01-01T00:00:00Z")) event = inr d' /\
    updateProductivityIndicators event Sim.quiet = Ok tt (Sim.store d' (Sim.tick Sim.quiet)) /\
    indicators_ok d'.
Proof.
  destruct (@indicators_invariant Sim.World Sim.platform
              (Sim.invocation "Write" [(lit "file_path", Str "notes.txt");
                                       (lit "content", Str (lit "one" ++ LF :: lit "two"))]) Sim.quiet []) as (Hfresh & r & w' & calls & Hmain & Hkeep).
  exists r, w', calls.
  assert (exists event, last calls = Some (ToAggregator event)) as [event Hlast].
  { vm_compute in Hmain. injection Hmain as _ _ <-. eexists. reflexivity. }
  exists event.
  assert (ToAggregator event ∈ calls) as Hin.
  { apply last_Some in Hlast as [front ->]. apply elem_of_app. right.
    apply list_elem_of_singleton. reflexivity. }
  specialize (Hkeep event Sim.quiet (Sim.tick Sim.quiet)
                (fresh_indicators (lit "2025-01-01T00:00:00Z")) Hin eq_refl
                (Hfresh _)).
  destruct (update_indicators (fresh_indicators (lit "2025-01-01T00:00:00Z")) event)
    as [e|d'] eqn:Hupdate.
  { exfalso. destruct Hkeep as [Hthrows _].
    vm_compute in Hmain. injection Hmain as _ _ <-. injection Hlast as <-.
    vm_compute in Hthrows. discriminate. }
  destruct Hkeep as (Hrun & Hok & _).
  exists d'. split; [exact Hmain|]. split; [exact Hlast|]. split; [reflexivity|].
  split; [|exact Hok]. rewrite Hrun. reflexivity.
Defined.

(** C8 as stated fails for a call whose save fails: on a disk that
    cannot be written, a Bash invocation goes through the pipeline and
    the aggregator, the report is a success, and the stored document is
    the one from before the call, its [commands_executed] not
    incremented. *)
Lemma update_lost_when_save_fails :
  let d := fresh_indicators (lit "2025-01-01T00:00:00Z") in
  let w := Sim.with_failures false true (Sim.store d Sim.quiet) in
  exists r w' event,
    main (Sim.invocation "Bash" [(lit "command", Str "ls")]) (w, [])
    = Ok r (w', [ToSink event; ToAggregator event]) /\
    Report.success r = true /\
    Sim.document w = Some d /\
    Sim.document w' = Some d /\
    commands_executed d = 0%Q.
Proof.
  eexists _, _, _. split; [vm_compute; reflexivity|]. repeat split; reflexivity.
Qed.

(** C10, as the code has it.  Whenever the extractor returns for an Edit
    or Write invocation, the mapping has a [file_path] field, the empty
    string when the input has none; and for every Edit or Write event
    that [main] hands to the aggregator, a call of the aggregator that
    has loaded the document hands to the save a document whose
    [files_modified] is incremented. *)
Theorem file_path_always_extracted {W : Type} {P : Platform W} :
  (forall (context : Context.t) (w w' : W) (m : obj),
      let toolInput := js_or (Context.tool_input context) (Obj []) in
      Context.tool_name context = Str "Edit" \/
      Context.tool_name context = Str "Write" ->
      extractToolSpecificMetrics context w = Ok m w' ->
      obj_lookup "file_path" m
        = Some (js_or (get_prop toolInput "file_path") (Str "")) /\
      (truthy (get_prop toolInput "file_path") = false ->
       obj_lookup "file_path" m = Some (Str "")))
  /\
  (forall (toolData : ToolData.t) (w : W) (log : list Call),
      let toolName := js_or (ToolData.toolName toolData) (Str "unknown") in
      exists r w' calls,
        main toolData (w, log) = Ok r (w', log ++ calls) /\
        forall (event : obj) (w0 w1 : W) (d : Indicators),
          ToAggregator event ∈ calls ->
          toolName = Str "Edit" \/ toolName = Str "Write" ->
          load_indicators w0 = Ok d w1 ->
          exists d',
            update_indicators d event = inr d' /\
            updateProductivityIndicators event w0
            = Ok tt (end_state (save_and_signal toolName d' w1)) /\
            files_modified d' = (files_modified d + 1)%Q).
Proof.
  split.
  - intros context w w' m toolInput Htool Hextract.
    apply extract_extracted in Hextract as Hm. fold toolInput in Hm.
    assert (obj_lookup "file_path" m
            = Some (js_or (get_prop toolInput "file_path") (Str ""))) as Hpath.
    { destruct Htool as [Htool|Htool]; rewrite Htool in Hm;
        destruct Hm as [? H|? ? H|? ? H|? H|H|H1 H2 H3];
        try (vm_compute in H; discriminate);
        try (vm_compute in H2; discriminate);
        try (vm_compute in H3; discriminate); reflexivity. }
    split; [exact Hpath|]. intros Hnone. rewrite Hpath. unfold js_or.
    by rewrite Hnone.
  - intros toolData w log toolName.
    destruct (main_run toolData w log) as (r & w' & calls & Hmain & Hout).
    exists r, w', calls. split; [exact Hmain|].
    intros event w0 w1 d Hin Htool Hload.
    destruct (aggregated_event _ _ _ _ _ _ Hout Hin)
      as (timestamp & executionTime & user & sessionId & message & m & Hm & ->).
    set (context := run_context toolData w) in *.
    change toolName with (Context.tool_name context) in *.
    set (event := with_error_details _ _ _).
    assert (update_throws event = false) as Hconv.
    { unfold event. rewrite primary_update_throws by done.
      by destruct Htool as [-> | ->]. }
    destruct (update_indicators_returns d event Hconv) as [d' Hupdate].
    destruct (primary_fields context timestamp executionTime user sessionId
                message m Hm) as (_ & _ & Pname & _).
    fold event in Pname.
    assert (obj_get "tool_name" event = Context.tool_name context) as Hname
      by (unfold obj_get; by rewrite Pname).
    exists d'. split; [exact Hupdate|]. split.
    { rewrite <- Hname.
      exact (updateProductivityIndicators_applies _ _ _ _ _ Hload Hupdate). }
    apply update_indicators_inr in Hupdate as (_ & _ & -> & _).
    rewrite Hname.
    assert (has_key "file_path" event = true) as ->.
    { unfold event, with_error_details, base_record.
      generalize (Math_round executionTime).
      generalize (js_or (env_value user) (Str "unknown")).
      intros userId elapsed.
      destruct Htool as [Htool|Htool]; rewrite Htool in Hm;
        destruct (truthy (Context.error context));
        destruct Hm as [? H|? ? H|? ? H|? H|H|H1 H2 H3];
        try (vm_compute in H; discriminate);
        try (vm_compute in H2; discriminate);
        try (vm_compute in H3; discriminate); reflexivity. }
    by destruct Htool as [-> | ->].
Qed.

Lemma file_path_always_extracted_witness :
  exists m,
    extractToolSpecificMetrics (context_of "Write" []) Sim.quiet = Ok m Sim.quiet /\
    obj_lookup "file_path" m = Some (Str "").
Proof.
  exists [(lit "file_path", Str ""); (lit "content_length", Num 0);
          (lit "lines_written", Num 0); (lit "file_type", Str "unknown")].
  split; [reflexivity|].
  apply (proj1 (@file_path_always_extracted Sim.World Sim.platform)
           (context_of "Write" []) Sim.quiet Sim.quiet);
    [by right | reflexivity | reflexivity].
Defined.

(** C10 as stated fails for a call whose save fails: on a disk that
    cannot be written, a Write invocation without a file path goes
    through the pipeline and the aggregator, and the stored document is
    the one from before the call, its [files_modified] not incremented. *)
Lemma increment_lost_when_save_fails :
  let d := fresh_indicators (lit "2025-01-01T00:00:00Z") in
  let w := Sim.with_failures false true (Sim.store d Sim.quiet) in
  exists r w' event,
    main (Sim.invocation "Write" [(lit "content", Str "text")]) (w, [])
    = Ok r (w', [ToSink event; ToAggregator event]) /\
    Report.success r = true /\
    obj_lookup "file_path" event = Some (Str "") /\
    Sim.document w = Some d /\
    Sim.document w' = Some d /\
    files_modified d = 0%Q.
Proof.
  eexists _, _, _. split; [vm_compute; reflexivity|]. repeat split; reflexivity.
Qed.

(* ===================================================================== *)
(** ** Metric extractor: the remaining tools and the failing inputs *)
(* ===================================================================== *)

Section MoreExtractor.
Context {W : Type} {P : Platform W}.

Lemma line_count_not_text (name : string) (v : value) (w : W) :
  not_text v = true ->
  line_count name v w = Throw (not_a_function name) w.
Proof.
  unfold not_text, line_count. destruct (truthy v); [|done].
  by destruct v.
Qed.

Lemma line_count_text (name : string) (x : value) (w : W) :
  not_text (js_or x (Str "")) = false ->
  exists s, js_or x (Str "") = Str s /\
    line_count name (js_or x (Str "")) w = Ok (of_nat (lineCount s)) w.
Proof.
  intros Htext.
  assert (exists s, js_or x (Str "") = Str s) as [s Hs].
  { unfold js_or in *. destruct (truthy x) eqn:Hx; [|by eexists].
    unfold not_text in Htext. rewrite Hx in Htext. destruct x; try done.
    by eexists. }
  exists s. split; [done|]. rewrite Hs. apply line_count_Str.
Qed.

Lemma lineCount_le_length (s : jsstring) :
  (lineCount s <= length s + 1)%nat.
Proof.
  unfold lineCount. destruct s as [|c s]; [lia|].
  pose proof (count_occ_bound N.eq_dec LF (c :: s)). cbn [length] in *. lia.
Qed.
End MoreExtractor.

(** X1.  For a Read invocation the extractor never throws: the size is 0
    when the path does not exist or cannot be stat'ed, the size [statSync]
    reports otherwise, and [lines_requested] is the limit of the input or
    ["all"] when the input has none. *)
Theorem read_metrics {W : Type} {P : Platform W} (context : Context.t) (w : W) :
  let toolInput := js_or (Context.tool_input context) (Obj []) in
  let filePath := js_or (get_prop toolInput "file_path") (Str "") in
  Context.tool_name context = Str "Read" ->
  exists size w',
    extractToolSpecificMetrics context w
    = Ok [(lit "file_path", filePath);
          (lit "file_size_bytes", Num size);
          (lit "lines_requested", js_or (get_prop toolInput "limit") (Str "all"))] w' /\
    (truthy (get_prop toolInput "limit") = false ->
     js_or (get_prop toolInput "limit") (Str "all") = Str "all") /\
    match fs_existsSync filePath w, fs_statSync_size filePath w with
    | true, Ok reported w1 => size = reported /\ w' = w1
    | true, Throw _ w1 => size = 0%Q /\ w' = w1
    | false, _ => size = 0%Q /\ w' = w
    end.
Proof.
  intros toolInput filePath HRead.
  unfold extractToolSpecificMetrics. fold toolInput. rewrite HRead.
  change (is_str (Str "Read") "Read") with true. cbv iota. fold filePath. run.
  assert (truthy (get_prop toolInput "limit") = false ->
          js_or (get_prop toolInput "limit") (Str "all") = Str "all") as Hall
    by (intros Hnone; unfold js_or; by rewrite Hnone).
  destruct (fs_existsSync filePath w).
  - destruct (fs_statSync_size filePath w) as [reported w1|e w1]; by eexists _, _.
  - by eexists _, _.
Qed.

Lemma read_metrics_witness :
  exists w',
    extractToolSpecificMetrics
      (context_of "Read" [(lit "file_path", Str "/tmp/absent.txt")]) Sim.quiet
    = Ok [(lit "file_path", Str "/tmp/absent.txt");
          (lit "file_size_bytes", Num 0);
          (lit "lines_requested", Str "all")] w'.
Proof.
  destruct (@read_metrics Sim.World Sim.platform
              (context_of "Read" [(lit "file_path", Str "/tmp/absent.txt")])
              Sim.quiet eq_refl) as (size & w' & Hrun & _ & Hsize).
  exists w'. cbn in Hsize. destruct Hsize as [-> _]. exact Hrun.
Defined.

(** X2.  For a Write invocation whose content and file path are strings
    (or absent), [content_length] is the length of the content,
    [lines_written] its line count, at most one more than its length, and
    [file_type] is the extension of the path, or ["unknown"] without a
    path. *)
Theorem write_metrics {W : Type} {P : Platform W}
    (context : Context.t) (content path : jsstring) (w : W) :
  let toolInput := js_or (Context.tool_input context) (Obj []) in
  Context.tool_name context = Str "Write" ->
  js_or (get_prop toolInput "content") (Str "") = Str content ->
  js_or (get_prop toolInput "file_path") (Str "") = Str path ->
  extractToolSpecificMetrics context w
  = Ok [(lit "file_path", Str path);
        (lit "content_length", Num (of_nat (length content)));
        (lit "lines_written", Num (of_nat (lineCount content)));
        (lit "file_type",
           Str (match path with [] => lit "unknown" | _ => path_extname path end))] w
  /\ (lineCount content <= length content + 1)%nat
  /\ (content = [] -> lineCount content = 0%nat).
Proof.
  intros toolInput HWrite Hcontent Hpath.
  split; [|split; [apply lineCount_le_length | by intros ->]].
  unfold extractToolSpecificMetrics. fold toolInput. rewrite HWrite.
  change (is_str (Str "Write") "Read") with false.
  change (is_str (Str "Write") "Edit") with false.
  change (is_str (Str "Write") "Write") with true. cbv iota.
  rewrite Hcontent, Hpath. run. rewrite line_count_Str.
  unfold file_type_of. by destruct path.
Qed.

Lemma write_metrics_witness :
  extractToolSpecificMetrics
    (context_of "Write" [(lit "content", Str (lit "a" ++ [LF]))]) Sim.quiet
  = Ok [(lit "file_path", Str "");
        (lit "content_length", Num 2);
        (lit "lines_written", Num 2);
        (lit "file_type", Str "unknown")] Sim.quiet.
Proof.
  exact (proj1 (@write_metrics Sim.World Sim.platform
                  (context_of "Write" [(lit "content", Str (lit "a" ++ [LF]))])
                  (lit "a" ++ [LF]) [] Sim.quiet eq_refl eq_refl eq_refl)).
Defined.

(** X3.  The extractor throws exactly for an Edit invocation whose
    [old_string] or [new_string], a Write invocation whose [content] or
    [file_path], or a Bash invocation whose [command] is truthy and not a
    string; what it throws is a [TypeError] and the world is untouched.
    It never throws for Read, Task or any other tool name, and only for
    Read does it touch the world. *)
Theorem extractor_throws_iff {W : Type} {P : Platform W}
    (context : Context.t) (w : W) :
  let toolName := Context.tool_name context in
  let toolInput := js_or (Context.tool_input context) (Obj []) in
  let field k := js_or (get_prop toolInput k) (Str "") in
  let failing :=
    is_str toolName "Edit"
      && (not_text (field (lit "old_string")) || not_text (field (lit "new_string")))
    || is_str toolName "Write"
      && (not_text (field (lit "content")) || not_text (field (lit "file_path")))
    || is_str toolName "Bash" && not_text (field (lit "command")) in
  if failing then
    exists e, extractToolSpecificMetrics context w = Throw e w /\
              err_name e = lit "TypeError"
  else
    exists m w', extractToolSpecificMetrics context w = Ok m w' /\
                 (is_str toolName "Read" = false -> w' = w).
Proof.
  intros toolName toolInput field failing. subst failing field. cbn beta.
  unfold extractToolSpecificMetrics. fold toolName toolInput.
  set (oldString := js_or (get_prop toolInput "old_string") (Str "")).
  set (newString := js_or (get_prop toolInput "new_string") (Str "")).
  set (content := js_or (get_prop toolInput "content") (Str "")).
  set (filePath := js_or (get_prop toolInput "file_path") (Str "")).
  set (command := js_or (get_prop toolInput "command") (Str "")).
  destruct (is_str toolName "Read") eqn:ERead.
  { apply is_str_true in ERead. rewrite ERead.
    change (is_str (Str "Read") "Edit") with false.
    change (is_str (Str "Read") "Write") with false.
    change (is_str (Str "Read") "Bash") with false. cbn [andb orb]. run.
    destruct (fs_existsSync _ w); [|by eexists _, _].
    destruct (fs_statSync_size _ w); by eexists _, _. }
  destruct (is_str toolName "Edit") eqn:EEdit.
  { apply is_str_true in EEdit. rewrite EEdit.
    change (is_str (Str "Edit") "Write") with false.
    change (is_str (Str "Edit") "Bash") with false.
    cbn [andb orb]. rewrite !orb_false_r. run.
    destruct (not_text oldString) eqn:Hold.
    - rewrite (line_count_not_text _ _ w Hold). by eexists.
    - subst oldString. destruct (line_count_text "oldString" _ w Hold) as (old & _ & ->).
      destruct (not_text newString) eqn:Hnew; cbn [orb].
      + rewrite (line_count_not_text _ _ w Hnew). by eexists.
      + subst newString. destruct (line_count_text "newString" _ w Hnew) as (new & _ & ->).
        by eexists _, _. }
  destruct (is_str toolName "Write") eqn:EWrite.
  { apply is_str_true in EWrite. rewrite EWrite.
    change (is_str (Str "Write") "Bash") with false.
    cbn [andb orb]. rewrite !orb_false_r. run.
    destruct (not_text content) eqn:Hcontent.
    - rewrite (line_count_not_text _ _ w Hcontent). by eexists.
    - subst content. destruct (line_count_text "content" _ w Hcontent) as (text & _ & ->).
      cbn [orb]. unfold file_type_of, not_text.
      destruct (truthy filePath); cbn [andb]; [|by eexists _, _].
      destruct filePath; cbn [negb];
        first [by eexists _, _
              |eexists; split; [reflexivity|apply ERR_INVALID_ARG_TYPE_name]]. }
  destruct (is_str toolName "Bash") eqn:EBash.
  { cbn [andb orb]. run. unfold command_type_of, not_text.
    destruct (truthy command); cbn [andb]; [|by eexists _, _].
    destruct command; cbn [negb]; by eexists; eauto. }
  cbn [andb orb].
  destruct (is_str toolName "Task"); by eexists _, _.
Qed.

Lemma extractor_throws_iff_witness :
  exists e,
    extractToolSpecificMetrics
      (context_of "Bash" [(lit "command", Arr [Str "ls"; Str "-l"])]) Sim.quiet
    = Throw e Sim.quiet /\
    err_name e = lit "TypeError".
Proof.
  exact (@extractor_throws_iff Sim.World Sim.platform
           (context_of "Bash" [(lit "command", Arr [Str "ls"; Str "-l"])]) Sim.quiet).
Defined.

(* ===================================================================== *)
(** ** Pipeline orchestrator: the merged record and the calls *)
(* ===================================================================== *)

Section MoreOrchestrator.
Context {W : Type} {P : Platform W}.

(** A record reaches the aggregator in a completed call only, and it is
    the primary record of that call. *)
Lemma aggregated_completed toolData (w : W) r w' calls event :
  main_outcome toolData w r w' calls ->
  event ∈ aggregated calls ->
  exists session w3 executionTime m w4 message,
    getCurrentSessionId (run_world w) = Ok (Str session) w3 /\
    ToNumber (js_or (ToolData.executionTime toolData) (Num 0)) = inr executionTime /\
    let context := run_context toolData w in
    extractToolSpecificMetrics context w3 = Ok m w4 /\
    (truthy (Context.error context) = true ->
     ToString (Context.error context) = inr message) /\
    event = with_error_details context message
              (merged toolData w executionTime session (env_USER w3) m) /\
    Report.success r = true.
Proof.
  intros Hout Hin.
  destruct Hout as [session w3 e Hsession Hne Htime
                   |session w3 executionTime e w4 Hsession Hne Htime Hextract
                   |session w3 executionTime m w4 w5 e Hsession Hne Htime
                      context Hextract metricsData agent Hagent Hdetails
                   |session w3 executionTime m w4 w5 primary outcome w6 w7
                      Hsession Hne Htime context Hextract metricsData agent
                      Hagent Hdetails Hprimary Hupdate].
  - by apply elem_of_nil in Hin.
  - by apply elem_of_nil in Hin.
  - destruct (is_str _ _); by apply elem_of_nil in Hin.
  - rewrite (proj1 (calls_of_aggregated context agent primary)) in Hin.
    apply list_elem_of_singleton in Hin as ->.
    apply add_error_details_inr in Hdetails as (message & -> & Hmessage).
    by exists session, w3, executionTime, m, w4, message.
Qed.
End MoreOrchestrator.

(** X4.  Merging never loses a field: whenever [main] gets as far as the
    aggregator, the record it hands over holds every field the extractor
    returned, with the extracted value. *)
Theorem merge_keeps_extracted_fields {W : Type} {P : Platform W}
    (toolData : ToolData.t) (w : W) (log : list Call) :
  exists r w' calls,
    main toolData (w, log) = Ok r (w', log ++ calls) /\
    forall primary,
      primary ∈ aggregated calls ->
      exists context w1 m w2,
        built_from toolData context /\
        extractToolSpecificMetrics context w1 = Ok m w2 /\
        forall k v, obj_lookup k m = Some v -> obj_lookup k primary = Some v.
Proof.
  destruct (main_run toolData w log) as (r & w' & calls & Hmain & Hout).
  exists r, w', calls. split; [exact Hmain|].
  intros primary Hin.
  destruct (aggregated_completed _ _ _ _ _ _ Hout Hin)
    as (session & w3 & executionTime & m & w4 & message & _ & _ & Hextract & _ & -> & _).
  exists (run_context toolData w), w3, m, w4. split; [done|]. split; [done|].
  apply primary_keeps_extracted. by eapply extract_extracted.
Qed.

Lemma merge_keeps_extracted_fields_witness :
  exists r w' calls primary,
    main (Sim.invocation "Bash" [(lit "command", Str "git status")]) (Sim.quiet, [])
    = Ok r (w', calls) /\
    primary ∈ aggregated calls /\
    exists context w1 m w2,
      extractToolSpecificMetrics context w1 = Ok m w2 /\
      forall k v, obj_lookup k m = Some v -> obj_lookup k primary = Some v.
Proof.
  destruct (@merge_keeps_extracted_fields Sim.World Sim.platform
              (Sim.invocation "Bash" [(lit "command", Str "git status")])
              Sim.quiet []) as (r & w' & calls & Hmain & Hkeep).
  assert (exists primary, primary ∈ aggregated calls) as [primary Hin].
  { vm_compute in Hmain. injection Hmain as _ _ <-. eexists.
    apply list_elem_of_singleton. reflexivity. }
  exists r, w', calls, primary. split; [exact Hmain|]. split; [exact Hin|].
  destruct (Hkeep primary Hin) as (context & w1 & m & w2 & _ & Hextract & Hfields).
  by exists context, w1, m, w2.
Defined.

(** X5.  The record handed to the sink and to the aggregator has the
    fields [error] (true) and [error_message] (the error as a string)
    exactly when the invocation carried an error, that is exactly when
    its [success] field is false. *)
Theorem error_details_iff_failure {W : Type} {P : Platform W}
    (toolData : ToolData.t) (w : W) (log : list Call) :
  let error := js_or (ToolData.error toolData) Null in
  exists r w' calls,
    main toolData (w, log) = Ok r (w', log ++ calls) /\
    forall primary,
      primary ∈ aggregated calls ->
      obj_lookup "success" primary = Some (Bool (negb (truthy error))) /\
      if truthy error then
        obj_lookup "error" primary = Some (Bool true) /\
        exists message,
          ToString error = inr message /\
          obj_lookup "error_message" primary = Some (Str message)
      else
        obj_lookup "error" primary = None /\
        obj_lookup "error_message" primary = None.
Proof.
  intros error.
  destruct (main_run toolData w log) as (r & w' & calls & Hmain & Hout).
  exists r, w', calls. split; [exact Hmain|].
  intros primary Hin.
  destruct (aggregated_completed _ _ _ _ _ _ Hout Hin)
    as (session & w3 & executionTime & m & w4 & message & _ & _ & Hextract
        & Hmessage & -> & _).
  apply extract_extracted in Hextract as Hm.
  destruct (primary_fields (run_context toolData w) (run_timestamp w) executionTime
              (env_USER w3) (Str session) message m Hm)
    as (_ & _ & _ & Hsuccess & _).
  pose proof (primary_error_details (run_context toolData w) (run_timestamp w)
                executionTime (env_USER w3) (Str session) message m Hm) as Hdetails.
  cbv zeta in Hdetails. cbn [run_context Context.error] in Hdetails, Hmessage.
  fold error in Hdetails, Hmessage.
  split; [exact Hsuccess|].
  destruct (truthy error); [|exact Hdetails].
  destruct Hdetails as [Herror Htext]. split; [exact Herror|].
  exists message. split; [by apply Hmessage|exact Htext].
Qed.

Lemma error_details_iff_failure_witness :
  exists r w' calls primary,
    main (Sim.failed_invocation "Bash" [(lit "command", Str "make")]) (Sim.quiet, [])
    = Ok r (w', calls) /\
    primary ∈ aggregated calls /\
    obj_lookup "success" primary = Some (Bool false) /\
    obj_lookup "error" primary = Some (Bool true) /\
    obj_lookup "error_message" primary = Some (Str "Error: Simulated tool failure").
Proof.
  destruct (@error_details_iff_failure Sim.World Sim.platform
              (Sim.failed_invocation "Bash" [(lit "command", Str "make")])
              Sim.quiet []) as (r & w' & calls & Hmain & Hdetails).
  assert (exists primary, primary ∈ aggregated calls) as [primary Hin].
  { vm_compute in Hmain. injection Hmain as _ _ <-. eexists.
    apply list_elem_of_singleton. reflexivity. }
  exists r, w', calls, primary. split; [exact Hmain|]. split; [exact Hin|].
  destruct (Hdetails primary Hin) as (Hsuccess & Herror & message & Htext & Hmessage).
  split; [exact Hsuccess|]. split; [exact Herror|].
  vm_compute in Htext. injection Htext as <-. exact Hmessage.
Defined.


(** A Task whose error has no primitive value: the secondary record has
    gone to the sink when the conversion throws, and the report is a
    failure. *)
Example task_fails_after_secondary_record :
  exists r w' agent,
    main {| ToolData.toolName := Str "Task"; ToolData.toolInput := Obj [];
            ToolData.error := Sim.opaque; ToolData.executionTime := Num 12 |}
      (Sim.quiet, [])
    = Ok r (w', [ToSink agent]) /\
    Report.success r = false /\
    Report.errorMessage r = Some (lit "Cannot convert object to primitive value") /\
    obj_lookup "event_type" agent = Some (Str "agent_invocation").
Proof.
  eexists _, _, _. split; [vm_compute; reflexivity|]. repeat split; reflexivity.
Qed.





(** An invocation without a tool name whose execution time has no
    primitive value: [Math.round] throws and nothing is recorded. *)
Example unnamed_invocation_fails :
  exists r w',
    main {| ToolData.toolName := Undefined; ToolData.toolInput := Undefined;
            ToolData.error := Undefined;
            ToolData.executionTime := Obj [(lit "toString", Num 0); (lit "valueOf", Num 0)] |}
      (Sim.quiet, [])
    = Ok r (w', []) /\
    Report.success r = false /\
    Report.errorMessage r = Some (lit "Cannot convert object to primitive value").
Proof.
  eexists _, _. split; [vm_compute; reflexivity|]. split; reflexivity.
Qed.

(* ===================================================================== *)
(** ** Productivity aggregator: counts, lines and sequences of events *)
(* ===================================================================== *)

(** X9.  The update of the document counts the event under its tool
    name and leaves every other entry of [tools_used] as it is.  A count
    that is there is raised by one, and a name that is new counts from
    1, unless [Object.prototype] defines it: then the entry becomes the
    text of what is inherited followed by ["1"], as for ["constructor"],
    and for ["__proto__"] no entry is made at all.  An entry that is a
    text stays a text.  The same holds of [agents_invoked] and the
    sub-agent of the event, when it has one; otherwise [agents_invoked]
    is left as it is. *)
Theorem update_counts {W : Type} {P : Platform W}
    (d d' : Indicators) (metrics : obj) :
  let entry_after (before : gmap jsstring entry) (key : jsstring)
        (after : gmap jsstring entry) : Prop :=
    (forall k, k <> key -> after !! k = before !! k) /\
    match before !! key with
    | Some (Count previous) =>
        exists q, after !! key = Some (Count q) /\ (q == previous + 1)%Q
    | Some (Text []) => after !! key = Some (Count 1)
    | Some (Text previous) => after !! key = Some (Text (previous ++ lit "1"))
    | None =>
        if bool_decide (key = lit "__proto__") then after !! key = None
        else if bool_decide (key = lit "constructor") then
          after !! key = Some (Text (lit "function Object() { [native code] }1"))
        else match Object_prototype key with
             | Some inherited => after !! key = Some (Text (inherited ++ lit "1"))
             | None => after !! key = Some (Count 1)
             end
    end in
  update_indicators d metrics = inr d' ->
  (exists tool after,
      ToString (obj_get "tool_name" metrics) = inr tool /\
      tools_used d' = Some after /\
      entry_after (default ∅ (tools_used d)) tool after)
  /\
  if truthy (obj_get "subagent_type" metrics) then
    exists agent after,
      ToString (obj_get "subagent_type" metrics) = inr agent /\
      agents_invoked d' = Some after /\
      entry_after (default ∅ (agents_invoked d)) agent after
  else agents_invoked d' = agents_invoked d.
Proof.
  intros entry_after Hupdate.
  assert (forall before key, entry_after before key (bump key before)) as Hbump.
  { intros before key. split; [intros k Hk; by apply bump_other|].
    pose proof (bump_key key before) as Hkey.
    destruct (before !! key) as [[q|[|c s]]|]; try exact Hkey.
    unfold Object_prototype in *.
    case_bool_decide as Hproto.
    - subst key. exact Hkey.
    - case_bool_decide as Hconstructor; [by subst key|].
      destruct (bool_decide (key ∈ _)); exact Hkey. }
  apply update_indicators_inr in Hupdate
    as ((tool & Htool & Htools) & _ & _ & _ & Hagents & _).
  split; [by exists tool, (bump tool (default ∅ (tools_used d)))|].
  destruct (truthy (obj_get "subagent_type" metrics)); [|exact Hagents].
  destruct Hagents as (agent & Hagent & Hafter).
  by exists agent, (bump agent (default ∅ (agents_invoked d))).
Qed.

Lemma update_counts_witness :
  let event := [(lit "tool_name", Str "constructor"); (lit "success", Bool true)] in
  exists d' after,
    update_indicators (P := Sim.platform)
      (fresh_indicators (lit "2025-01-01T00:00:00Z")) event = inr d' /\
    tools_used d' = Some after /\
    after !! lit "constructor"
    = Some (Text (lit "function Object() { [native code] }1")).
Proof.
  intros event.
  destruct (update_indicators (P := Sim.platform)
              (fresh_indicators (lit "2025-01-01T00:00:00Z")) event)
    as [e|d'] eqn:Hupdate; [vm_compute in Hupdate; discriminate|].
  destruct (@update_counts Sim.World Sim.platform _ _ _ Hupdate)
    as [(tool & after & Htool & Hafter & _ & Hentry) _].
  exists d', after. split; [reflexivity|]. split; [exact Hafter|].
  vm_compute in Htool. injection Htool as <-.
  exact Hentry.
Defined.

(** X10.  For the event that [main] hands to the aggregator: when the
    tool is Task, the update throws if the sub-agent of the input has no
    primitive value, and otherwise counts the event in [agents_invoked]
    under the sub-agent, ["unknown"] when the input names none, raising
    by one the count that is there and counting a new name from 1 (a
    name that [Object.prototype] does not define); for every other tool
    name [agents_invoked] is left as it is. *)
Theorem agents_counted_for_task_only {W : Type} {P : Platform W}
    (toolData : ToolData.t) (w : W) (log : list Call) :
  let toolName := js_or (ToolData.toolName toolData) (Str "unknown") in
  let toolInput := js_or (js_or (ToolData.toolInput toolData) (Obj [])) (Obj []) in
  let subagent := js_or (get_prop toolInput "subagent_type") (Str "unknown") in
  exists r w' calls,
    main toolData (w, log) = Ok r (w', log ++ calls) /\
    forall (event : obj) (d : Indicators),
      event ∈ aggregated calls ->
      if is_str toolName "Task" then
        if unconvertible subagent then
          update_indicators d event = inl no_primitive_value
        else
          exists d' after,
            update_indicators d event = inr d' /\
            agents_invoked d' = Some after /\
            let before := default ∅ (agents_invoked d) in
            let agent := string_of subagent in
            (forall k, k <> agent -> after !! k = before !! k) /\
            (forall previous,
                before !! agent = Some (Count previous) ->
                exists q, after !! agent = Some (Count q) /\ (q == previous + 1)%Q) /\
            (before !! agent = None -> Object_prototype agent = None ->
             after !! agent = Some (Count 1))
      else
        forall d', update_indicators d event = inr d' ->
                   agents_invoked d' = agents_invoked d.
Proof.
  intros toolName toolInput subagent.
  destruct (main_run toolData w log) as (r & w' & calls & Hmain & Hout).
  exists r, w', calls. split; [exact Hmain|].
  intros event d Hin.
  destruct (aggregated_completed _ _ _ _ _ _ Hout Hin)
    as (session & w3 & executionTime & m & w4 & message & _ & _ & Hextract & _ & -> & _).
  set (context := run_context toolData w) in *.
  apply extract_extracted in Hextract as Hm.
  change toolName with (Context.tool_name context).
  pose proof (primary_update_throws context (run_timestamp w) executionTime
                (env_USER w3) (Str session) message m Hm) as Hthrows.
  pose proof (primary_keeps_extracted context (run_timestamp w) executionTime
                (env_USER w3) (Str session) message m Hm) as Hkeep.
  fold (merged toolData w executionTime session (env_USER w3) m) in Hthrows, Hkeep.
  set (event := with_error_details _ _ _) in *.
  destruct (is_str (Context.tool_name context) "Task") eqn:HTask.
  - assert (obj_get "subagent_type" event = subagent) as Hsub.
    { unfold obj_get.
      rewrite (Hkeep (lit "subagent_type") subagent); [done|].
      by rewrite (Task_extracted _ _ _ HTask Hm). }
    assert (truthy subagent = true) as Htruthy.
    { unfold subagent, js_or.
      by destruct (truthy (get_prop toolInput "subagent_type")) eqn:Hgiven. }
    apply is_str_true in HTask as Hname. rewrite Hname in Hthrows.
    cbn [unconvertible orb andb is_str] in Hthrows.
    change (bool_decide (lit "Task" = lit "Task")) with true in Hthrows.
    cbn [andb] in Hthrows.
    change (js_or (get_prop (js_or (Context.tool_input context) (Obj []))
                     "subagent_type") (Str "unknown")) with subagent in Hthrows.
    destruct (unconvertible subagent) eqn:Hconv.
    + by apply update_indicators_throws.
    + destruct (update_indicators_returns d event Hthrows) as [d' Hupdate].
      apply update_indicators_inr in Hupdate as Hfields.
      destruct Hfields as (_ & _ & _ & _ & Hagents & _).
      rewrite Hsub, Htruthy in Hagents. destruct Hagents as (agent & Hagent & Hafter).
      rewrite ToString_returns in Hagent by done. injection Hagent as <-.
      exists d', (bump (string_of subagent) (default ∅ (agents_invoked d))).
      split; [exact Hupdate|]. split; [exact Hafter|]. cbv zeta.
      pose proof (bump_key (string_of subagent) (default ∅ (agents_invoked d)))
        as Hkey.
      split; [intros k Hk; by apply bump_other|]. split.
      * intros previous Hprevious. by rewrite Hprevious in Hkey.
      * intros Hnone Hplain. by rewrite Hnone, Hplain in Hkey.
  - intros d' Hupdate.
    apply update_indicators_inr in Hupdate as (_ & _ & _ & _ & Hagents & _).
    assert (obj_get "subagent_type" event = Undefined) as Hsub.
    { unfold event, with_error_details, merged, base_record.
      generalize (Math_round executionTime).
      generalize (js_or (env_value (env_USER w3)) (Str "unknown")).
      intros userId elapsed.
      destruct (truthy (Context.error context));
        destruct Hm as [? H|? ? H|? ? H|? H|H|H1 H2 H3 H4 H5];
        try reflexivity; congruence. }
    by rewrite Hsub in Hagents.
Qed.

Lemma agents_counted_for_task_only_witness :
  exists r w' calls event d' after,
    main (Sim.invocation "Task" [(lit "subagent_type", Str "frontend-developer");
                                 (lit "description", Str "Create component")])
      (Sim.quiet, [])
    = Ok r (w', calls) /\
    event ∈ aggregated calls /\
    update_indicators (fresh_indicators (lit "now")) event = inr d' /\
    agents_invoked d' = Some after /\
    after !! lit "frontend-developer" = Some (Count 1).
Proof.
  destruct (@agents_counted_for_task_only Sim.World Sim.platform
              (Sim.invocation "Task" [(lit "subagent_type", Str "frontend-developer");
                                      (lit "description", Str "Create component")])
              Sim.quiet []) as (r & w' & calls & Hmain & Hcount).
  assert (exists event, event ∈ aggregated calls) as [event Hin].
  { vm_compute in Hmain. injection Hmain as _ _ <-. eexists.
    apply list_elem_of_singleton. reflexivity. }
  destruct (Hcount event (fresh_indicators (lit "now")) Hin)
    as (d' & after & Hupdate & Hafter & _ & _ & Hnew).
  exists r, w', calls, event, d', after. split; [exact Hmain|]. split; [exact Hin|].
  split; [exact Hupdate|]. split; [exact Hafter|].
  apply Hnew; reflexivity.
Defined.

(** A Task whose sub-agent has no primitive value, run from the command
    line: both records go to the sink, the update throws in the
    aggregator, and no document is saved. *)
Example unconvertible_agent_saves_nothing :
  exists st' agent primary,
    simulateToolExecution parse_double random_double
      [lit "node"; lit "tool-metrics.js"; lit "Task";
       lit "{" ++ quoted (lit "subagent_type") ++ lit ":{"
         ++ quoted (lit "toString") ++ lit ":0}}"]
      (Sim.quiet, [])
    = Ok tt st' /\
    st'.2 = [ToSink agent; ToSink primary; ToAggregator primary] /\
    update_throws primary = true /\
    Sim.document st'.1 = None.
Proof.
  eexists _, _, _. split; [vm_compute; reflexivity|]. repeat split; reflexivity.
Qed.

Section MoreAggregator.
Context {W : Type} {P : Platform W}.
Local Open Scope Q_scope.

(** The line counts and the tool name in the record [main] hands to the
    aggregator. *)
Lemma primary_counters context timestamp executionTime user sessionId message m :
  let toolName := Context.tool_name context in
  let field k := js_or (get_prop (js_or (Context.tool_input context) (Obj [])) k)
                   (Str "") in
  extracted toolName (js_or (Context.tool_input context) (Obj [])) m ->
  let primary :=
    with_error_details context message
      (Object_assign (base_record context timestamp executionTime user sessionId) m) in
  obj_get "tool_name" primary = toolName /\
  has_key "net_lines" primary = is_str toolName "Edit" /\
  has_key "lines_written" primary = is_str toolName "Write" /\
  (is_str toolName "Edit" = true ->
   exists oldString newString,
     field (lit "old_string") = Str oldString /\
     field (lit "new_string") = Str newString /\
     obj_get "net_lines" primary
     = Num (of_nat (lineCount newString) - of_nat (lineCount oldString))) /\
  (is_str toolName "Write" = true ->
   exists content,
     field (lit "content") = Str content /\
     obj_get "lines_written" primary = Num (of_nat (lineCount content))).
Proof.
  intros toolName field Hm. subst toolName field.
  unfold with_error_details, base_record.
  generalize (Math_round executionTime).
  generalize (js_or (env_value user) (Str "unknown")).
  intros userId elapsed.
  destruct Hm as [size HR|old new HE Hold Hnew|content fileType HW Hcontent
                 |command HB Hcommand|HT|H1 H2 H3 H4 H5].
  - apply is_str_true in HR. rewrite HR.
    destruct (truthy (Context.error context));
      (repeat split; try reflexivity; intros Hcase; vm_compute in Hcase; discriminate).
  - apply is_str_true in HE as Hname. rewrite Hname.
    destruct (truthy (Context.error context));
      (repeat split; try reflexivity;
       [intros _; by exists old, new | intros Hcase; vm_compute in Hcase; discriminate]).
  - apply is_str_true in HW as Hname. rewrite Hname.
    destruct (truthy (Context.error context));
      (repeat split; try reflexivity;
       [intros Hcase; vm_compute in Hcase; discriminate | intros _; by exists content]).
  - apply is_str_true in HB. rewrite HB.
    destruct (truthy (Context.error context));
      (repeat split; try reflexivity; intros Hcase; vm_compute in Hcase; discriminate).
  - apply is_str_true in HT. rewrite HT.
    destruct (truthy (Context.error context));
      (repeat split; try reflexivity; intros Hcase; vm_compute in Hcase; discriminate).
  - rewrite H2, H3.
    destruct (truthy (Context.error context));
      (repeat split; try reflexivity; intros Hcase; discriminate).
Qed.










End MoreAggregator.

(** X11.  Only Edit and Write events move the file counters.  For the
    event [main] hands to the aggregator: an Edit event adds the absolute
    difference of the line counts of the new and the old text to
    [lines_changed] (so nothing when both have as many lines); a Write
    event adds the line count of the content; an event of any other tool,
    Read with its [file_path] included, leaves [lines_changed] and
    [files_modified] as they are, when its update does not throw. *)
Theorem lines_changed_by_tool {W : Type} {P : Platform W}
    (toolData : ToolData.t) (w : W) (log : list Call) :
  let toolName := js_or (ToolData.toolName toolData) (Str "unknown") in
  let toolInput := js_or (js_or (ToolData.toolInput toolData) (Obj [])) (Obj []) in
  let field k := js_or (get_prop toolInput k) (Str "") in
  exists r w' calls,
    main toolData (w, log) = Ok r (w', log ++ calls) /\
    forall event indicators,
      event ∈ aggregated calls ->
      if is_str toolName "Edit" then
        exists oldString newString indicators',
          field (lit "old_string") = Str oldString /\
          field (lit "new_string") = Str newString /\
          update_indicators indicators event = inr indicators' /\
          lines_changed indicators'
          = (lines_changed indicators
             + Qabs (of_nat (lineCount newString) - of_nat (lineCount oldString)))%Q
      else if is_str toolName "Write" then
        exists content indicators',
          field (lit "content") = Str content /\
          update_indicators indicators event = inr indicators' /\
          lines_changed indicators'
          = (lines_changed indicators + of_nat (lineCount content))%Q
      else
        match update_indicators indicators event with
        | inr indicators' =>
            lines_changed indicators' = lines_changed indicators /\
            files_modified indicators' = files_modified indicators
        | inl _ => update_throws event = true
        end.
Proof.
  intros toolName toolInput field.
  destruct (main_run toolData w log) as (r & w' & calls & Hmain & Hout).
  exists r, w', calls. split; [exact Hmain|].
  intros event indicators Hin.
  destruct (aggregated_completed _ _ _ _ _ _ Hout Hin)
    as (session & w3 & executionTime & m & w4 & message & _ & _ & Hextract & _ & -> & _).
  set (context := run_context toolData w) in *.
  apply extract_extracted in Hextract as Hm.
  pose proof (primary_update_throws context (run_timestamp w) executionTime
                (env_USER w3) (Str session) message m Hm) as Hthrows.
  destruct (primary_counters context (run_timestamp w) executionTime
              (env_USER w3) (Str session) message m Hm)
    as (Htool & Hnet & Hwritten & HEdit & HWrite).
  fold (merged toolData w executionTime session (env_USER w3) m)
    in Hthrows, Htool, Hnet, Hwritten, HEdit, HWrite.
  set (event := with_error_details _ _ _) in *.
  change toolName with (Context.tool_name context).
  change field
    with (fun k => js_or (get_prop (js_or (Context.tool_input context) (Obj [])) k)
                     (Str "")).
  cbv beta.
  destruct (is_str (Context.tool_name context) "Edit") eqn:HE.
  - destruct (HEdit eq_refl) as (old & new & Hold & Hnew & Hvalue).
    apply is_str_true in HE as Hname. rewrite Hname in Hthrows.
    destruct (update_indicators_returns indicators event Hthrows) as [d' Hupdate].
    exists old, new, d'. split; [exact Hold|]. split; [exact Hnew|].
    split; [exact Hupdate|].
    apply update_indicators_inr in Hupdate as (_ & _ & _ & Hlines & _).
    rewrite Hnet in Hlines. destruct Hlines as (net_lines & Hnumber & ->).
    rewrite Hvalue, ToNumber_Num in Hnumber. by injection Hnumber as <-.
  - destruct (is_str (Context.tool_name context) "Write") eqn:HW.
    + destruct (HWrite eq_refl) as (content & Hcontent & Hvalue).
      apply is_str_true in HW as Hname. rewrite Hname in Hthrows.
      destruct (update_indicators_returns indicators event Hthrows) as [d' Hupdate].
      exists content, d'. split; [exact Hcontent|]. split; [exact Hupdate|].
      apply update_indicators_inr in Hupdate as (_ & _ & _ & Hlines & _).
      rewrite Hnet, Hwritten in Hlines.
      destruct Hlines as (lines_written & Hnumber & ->).
      rewrite Hvalue, ToNumber_Num in Hnumber. by injection Hnumber as <-.
    + destruct (update_indicators indicators event) as [e|d'] eqn:Hupdate.
      * exact (proj1 (update_indicators_inl _ _ _ Hupdate)).
      * apply update_indicators_inr in Hupdate as (_ & _ & Hfiles & Hlines & _).
        rewrite Hnet, Hwritten in Hlines. rewrite Htool, HE, HW in Hfiles.
        by split.
Qed.

Lemma lines_changed_by_tool_witness :
  exists r w' calls event indicators',
    main (Sim.invocation "Edit" [(lit "old_string", Str (lit "a" ++ LF :: lit "b"));
                                 (lit "new_string", Str (lit "x" ++ LF :: lit "y"))])
      (Sim.quiet, [])
    = Ok r (w', calls) /\
    event ∈ aggregated calls /\
    update_indicators (fresh_indicators (lit "now")) event = inr indicators' /\
    (lines_changed indicators' == 0)%Q.
Proof.
  destruct (@lines_changed_by_tool Sim.World Sim.platform
              (Sim.invocation "Edit"
                 [(lit "old_string", Str (lit "a" ++ LF :: lit "b"));
                  (lit "new_string", Str (lit "x" ++ LF :: lit "y"))])
              Sim.quiet []) as (r & w' & calls & Hmain & Hlines).
  assert (exists event, event ∈ aggregated calls) as [event Hin].
  { vm_compute in Hmain. injection Hmain as _ _ <-. eexists.
    apply list_elem_of_singleton. reflexivity. }
  destruct (Hlines event (fresh_indicators (lit "now")) Hin)
    as (old & new & d' & Hold & Hnew & Hupdate & Hd').
  exists r, w', calls, event, d'. split; [exact Hmain|]. split; [exact Hin|].
  split; [exact Hupdate|]. rewrite Hd'.
  vm_compute in Hold, Hnew. injection Hold as <-. injection Hnew as <-.
  reflexivity.
Defined.



(** X13.  On a document whose [commands_executed] is not negative, the
    update for a failure (an event on which it does not throw) strictly
    lowers a positive [success_rate], and takes it to 0 as soon as it is
    at most [1/n], with [n] the incremented [commands_executed]; at 0 it
    stays. *)
Theorem failure_lowers_rate {W : Type} {P : Platform W}
    (indicators : Indicators) (metrics : obj) :
  update_throws metrics = false ->
  (0 <= commands_executed indicators)%Q ->
  truthy (obj_get "success" metrics) = false ->
  exists indicators',
    update_indicators indicators metrics = inr indicators' /\
    ((0 < success_rate indicators)%Q ->
     (success_rate indicators' < success_rate indicators)%Q) /\
    ((success_rate indicators <= 1 / (commands_executed indicators + 1))%Q ->
     (0 <= success_rate indicators)%Q ->
     (success_rate indicators' == 0)%Q).
Proof.
  intros Hthrows Hce Hfailure.
  destruct (update_indicators_returns indicators metrics Hthrows) as [d' Hupdate].
  exists d'. split; [exact Hupdate|].
  rewrite (update_rate_failure _ _ _ Hupdate Hce Hfailure).
  apply update_indicators_inr in Hupdate as (_ & -> & _).
  assert (0 < 1 / (commands_executed indicators + 1))%Q as Hstep.
  { apply Qlt_shift_div_l; lra. }
  unfold Math_max. split.
  - intros Hrate. apply Q.max_lub_lt; lra.
  - intros Hsmall Hrate. apply Q.max_l. lra.
Qed.

Lemma failure_lowers_rate_witness :
  let failure := [(lit "tool_name", Str "Bash"); (lit "success", Bool false)] in
  exists indicators',
    update_indicators (P := Sim.platform) (fresh_indicators (lit "now")) failure
    = inr indicators' /\
    (success_rate indicators' < 100)%Q.
Proof.
  intros failure.
  destruct (@failure_lowers_rate Sim.World Sim.platform
              (fresh_indicators (lit "now")) failure)
    as (d' & Hupdate & Hlower & _); [reflexivity|cbn; lra|reflexivity|].
  exists d'. split; [exact Hupdate|]. apply Hlower. cbn. lra.
Defined.

(* ===================================================================== *)
(** ** The aggregator and the local fallback on the file system *)
(* ===================================================================== *)

(** X14.  [updateProductivityIndicators] never throws.  It loads the
    document (the fresh one when the file does not exist); when loading
    throws the call ends there, nothing being saved; so it does when the
    update of the loaded document throws, which is when a value the
    update converts has no primitive value; otherwise it saves the
    update; only after a successful save, and only when the dashboard
    signal file exists, does it append the progress line, and a failure
    of that append is swallowed too. *)
Theorem aggregator_best_effort {W : Type} {P : Platform W}
    (metrics : obj) (w : W) :
  let present := (fs_pathExists IndicatorsFile w).1 in
  let w1 := (fs_pathExists IndicatorsFile w).2 in
  let loaded :=
    if present then fs_readJSON IndicatorsFile w1
    else Ok (fresh_indicators (formatISO_now w1).1) (formatISO_now w1).2 in
  exists w',
    updateProductivityIndicators metrics w = Ok tt w' /\
    match loaded with
    | Throw _ w2 => w' = w2
    | Ok indicators w2 =>
        match update_indicators indicators metrics with
        | inl _ => update_throws metrics = true /\ w' = w2
        | inr saved =>
            update_throws metrics = false /\
            match fs_writeJSON IndicatorsFile saved w2 with
            | Throw _ w3 => w' = w3
            | Ok _ w3 =>
                let w4 := (fs_pathExists DashboardActive w3).2 in
                if (fs_pathExists DashboardActive w3).1 then
                  exists line,
                    progress_line (toLocaleTimeString_now w4).1
                      (obj_get "tool_name" metrics) saved = inr line /\
                    w' = end_state (fs_appendFile RealtimeLog line
                                      (toLocaleTimeString_now w4).2)
                else w' = w4
            end
        end
    end.
Proof.
  cbv zeta. rewrite updateProductivityIndicators_run.
  eexists. split; [reflexivity|].
  assert (load_indicators w
          = if (fs_pathExists IndicatorsFile w).1
            then fs_readJSON IndicatorsFile (fs_pathExists IndicatorsFile w).2
            else Ok (fresh_indicators
                       (formatISO_now (fs_pathExists IndicatorsFile w).2).1)
                   (formatISO_now (fs_pathExists IndicatorsFile w).2).2) as ->.
  { unfold load_indicators. run.
    destruct (fs_pathExists IndicatorsFile w) as [[] w1]; cbn [fst snd]; [done|].
    by destruct (formatISO_now w1). }
  destruct (if (fs_pathExists IndicatorsFile w).1 then fs_readJSON IndicatorsFile _
            else _) as [indicators w2|e w2]; [|done].
  destruct (update_indicators indicators metrics) as [e|saved] eqn:Hupdate.
  { split; [|done]. exact (proj1 (update_indicators_inl _ _ _ Hupdate)). }
  split.
  { destruct (update_throws metrics) eqn:Hthrows; [|done].
    rewrite update_indicators_throws in Hupdate by done. discriminate. }
  apply update_indicators_inr in Hupdate as ((tool & Htool & _) & _).
  unfold save_and_signal, progress_line. run. rewrite Htool.
  destruct (fs_writeJSON IndicatorsFile saved w2) as [[] w3|e w3]; [|done].
  destruct (fs_pathExists DashboardActive w3) as [[] w4]; cbn [fst snd]; [|done].
  destruct (toLocaleTimeString_now w4) as [timeStr w5]. cbn [fst snd].
  eexists. split; [reflexivity|]. reflexivity.
Qed.

Section ActivityLine.
Context {W : Type} {P : Platform W}.

(** The records a call hands to the sink: the secondary record of a
    Task, and the primary record. *)
Lemma sunk_records toolData (w : W) r w' calls record :
  main_outcome toolData w r w' calls ->
  record ∈ sunk calls ->
  let context := run_context toolData w in
  exists session w3 executionTime m,
    ToNumber (js_or (ToolData.executionTime toolData) (Num 0)) = inr executionTime /\
    extracted (Context.tool_name context)
      (js_or (Context.tool_input context) (Obj [])) m /\
    ((is_str (Context.tool_name context) "Task" = true /\
      record = agent_of toolData w executionTime session (env_USER w3) m)
     \/
     exists message,
       record = with_error_details context message
                  (merged toolData w executionTime session (env_USER w3) m)).
Proof.
  intros Hout Hin context'.
  destruct Hout as [session w3 e Hsession Hne Htime
                   |session w3 executionTime e w4 Hsession Hne Htime Hextract
                   |session w3 executionTime m w4 w5 e Hsession Hne Htime
                      context Hextract metricsData agent Hagent Hdetails
                   |session w3 executionTime m w4 w5 primary outcome w6 w7
                      Hsession Hne Htime context Hextract metricsData agent
                      Hagent Hdetails Hprimary Hupdate].
  - by apply elem_of_nil in Hin.
  - by apply elem_of_nil in Hin.
  - apply extract_extracted in Hextract as Hm.
    destruct (is_str (Context.tool_name context) "Task") eqn:HTask;
      [|by apply elem_of_nil in Hin].
    apply list_elem_of_singleton in Hin as ->.
    exists session, w3, executionTime, m. split; [done|]. split; [done|].
    left. by split.
  - apply extract_extracted in Hextract as Hm.
    apply add_error_details_inr in Hdetails as (message & -> & _).
    exists session, w3, executionTime, m. split; [done|]. split; [done|].
    rewrite calls_of_sunk in Hin.
    destruct (is_str (Context.tool_name context) "Task") eqn:HTask.
    + apply elem_of_cons in Hin as [->|Hin]; [left; by split|].
      apply list_elem_of_singleton in Hin as ->. right. by exists message.
    + apply list_elem_of_singleton in Hin as ->. right. by exists message.
Qed.

(** The local fallback on a record with a timestamp and no status. *)
Lemma localFallback_line (record : obj) (timestamp : jsstring) (name : value) (w : W) :
  obj_lookup "timestamp" record = Some (Str timestamp) ->
  timestamp <> [] ->
  obj_lookup "status" record = None ->
  js_or (obj_get "tool_name" record) (Str "unknown") = name ->
  localFallback record w
  = (fs_ensureDir MetricsDir;;
     fs_appendFile ToolMetricsLog (JSON_stringify record ++ [LF]);;
     fs_ensureDir RealtimeDir;;
     if unconvertible name then mthrow no_primitive_value
     else fs_appendFile ActivityLog
            (timestamp ++ lit "|tool_complete|" ++ string_of name
               ++ lit "|" ++ lit "unknown" ++ [LF])) w.
Proof.
  intros Htime Hnonempty Hstatus Hname. unfold localFallback, activity_line.
  assert (obj_get "timestamp" record = Str timestamp) as ->
    by (unfold obj_get; by rewrite Htime).
  assert (obj_get "status" record = Undefined) as ->
    by (unfold obj_get; by rewrite Hstatus).
  assert (truthy (Str timestamp) = true) as -> by (by destruct timestamp).
  assert (js_or Undefined (Str "unknown") = Str "unknown") as -> by done.
  rewrite Hname, !ToString_Str. run.
  destruct (fs_ensureDir MetricsDir w) as [[] w1|e w1]; [|done].
  destruct (fs_appendFile ToolMetricsLog _ w1) as [[] w2|e w2]; [|done].
  destruct (fs_ensureDir RealtimeDir w2) as [[] w3|e w3]; [|done].
  destruct (unconvertible name) eqn:Hconv.
  - by rewrite ToString_Str, ToString_throws.
  - by rewrite ToString_Str, ToString_returns.
Qed.

Lemma ISO_8601_nonempty (s : jsstring) : ISO_8601 s = true -> s <> [].
Proof. by intros Hformat ->. Qed.
End ActivityLine.

(** X15.  For every record [main] hands to the sink, the local fallback
    is two directory checks and the append of the serialized record,
    then the activity line, made without reading the clock: its first
    column is the timestamp of the call, its status column is always
    ["unknown"], and its tool column is the tool name for the primary
    record and ["unknown"] for the secondary record.  When the tool name
    has no primitive value the template of the line throws, after the
    record has been appended, and no activity line is written. *)
Theorem activity_line_of_sunk_records {W : Type} {P : Platform W}
    (toolData : ToolData.t) (w : W) (log : list Call) :
  let toolName := js_or (ToolData.toolName toolData) (Str "unknown") in
  exists r w' calls,
    main toolData (w, log) = Ok r (w', log ++ calls) /\
    forall record w0,
      record ∈ sunk calls ->
      let name := if has_event_type "agent_invocation" record
                  then Str "unknown" else toolName in
      localFallback record w0
      = (fs_ensureDir MetricsDir;;
         fs_appendFile ToolMetricsLog (JSON_stringify record ++ [LF]);;
         fs_ensureDir RealtimeDir;;
         if unconvertible name then mthrow no_primitive_value
         else fs_appendFile ActivityLog
                (run_timestamp w ++ lit "|tool_complete|" ++ string_of name
                   ++ lit "|" ++ lit "unknown" ++ [LF])) w0.
Proof.
  intros toolName.
  destruct (main_run toolData w log) as (r & w' & calls & Hmain & Hout).
  exists r, w', calls. split; [exact Hmain|].
  intros record w0 Hin.
  assert (run_timestamp w <> []) as Hnonempty
    by (apply ISO_8601_nonempty, formatISO_format).
  destruct (sunk_records _ _ _ _ _ _ Hout Hin)
    as (session & w3 & executionTime & m & _ & Hm & [[HTask ->]|[message ->]]).
  - destruct (agent_fields (run_context toolData w) (run_timestamp w) executionTime
                (env_USER w3) (Str session) m HTask Hm)
      as (Atype & Atime & _ & _ & _ & _ & Aname & _ & _ & Astatus).
    fold (merged toolData w executionTime session (env_USER w3) m)
      in Atype, Atime, Aname, Astatus.
    fold (agent_of toolData w executionTime session (env_USER w3) m)
      in Atype, Atime, Aname, Astatus.
    cbv zeta. rewrite (has_event_type_lookup _ _ Atype).
    change (bool_decide (lit "agent_invocation" = lit "agent_invocation")) with true.
    cbv iota.
    apply (localFallback_line _ _ _ _ Atime Hnonempty Astatus).
    unfold obj_get. by rewrite Aname.
  - destruct (primary_fields (run_context toolData w) (run_timestamp w) executionTime
                (env_USER w3) (Str session) message m Hm)
      as (Ptype & Ptime & Pname & _).
    pose proof (primary_has_no_status (run_context toolData w) (run_timestamp w)
                  executionTime (env_USER w3) (Str session) message m Hm) as Pstatus.
    fold (merged toolData w executionTime session (env_USER w3) m)
      in Ptype, Ptime, Pname, Pstatus.
    cbv zeta. rewrite (has_event_type_lookup _ _ Ptype).
    change (bool_decide (lit "tool_execution" = lit "agent_invocation")) with false.
    cbv iota.
    apply (localFallback_line _ _ _ _ Ptime Hnonempty Pstatus).
    unfold obj_get. rewrite Pname. cbn [default]. apply js_or_twice.
Qed.

Lemma activity_line_of_sunk_records_witness :
  exists r w' calls record w'',
    main (Sim.invocation "Bash" [(lit "command", Str "ls")]) (Sim.quiet, [])
    = Ok r (w', calls) /\
    record ∈ sunk calls /\
    localFallback record Sim.quiet = Ok tt w'' /\
    Sim.appended w''
    = [(ToolMetricsLog, lit "{}" ++ [LF]);
       (ActivityLog, lit "2025-01-01T00:00:00Z|tool_complete|Bash|unknown" ++ [LF])].
Proof.
  destruct (@activity_line_of_sunk_records Sim.World Sim.platform
              (Sim.invocation "Bash" [(lit "command", Str "ls")]) Sim.quiet [])
    as (r & w' & calls & Hmain & Hline).
  assert (exists record, record ∈ sunk calls /\
                         has_event_type "agent_invocation" record = false)
    as (record & Hin & Htype).
  { vm_compute in Hmain. injection Hmain as _ _ <-. eexists.
    split; [apply list_elem_of_singleton; reflexivity|]. reflexivity. }
  exists r, w', calls, record. eexists. split; [exact Hmain|]. split; [exact Hin|].
  rewrite (Hline record Sim.quiet Hin). rewrite Htype. cbv zeta.
  split; vm_compute; reflexivity.
Defined.

(** An invocation whose tool name has no primitive value: the record is
    appended to the metrics log, the activity line is not, and the sink
    reports that the local storage failed. *)
Example opaque_tool_name_loses_activity_line :
  exists r w' primary outcome w'',
    main {| ToolData.toolName := Sim.opaque; ToolData.toolInput := Obj [];
            ToolData.error := Undefined; ToolData.executionTime := Undefined |}
      (Sim.with_failures true false Sim.quiet, [])
    = Ok r (w', [ToSink primary; ToAggregator primary]) /\
    logMetrics primary (Sim.with_failures true false Sim.quiet) = Ok outcome w'' /\
    Outcome.success outcome = Bool false /\
    Outcome.error outcome = Str "Cannot convert object to primitive value" /\
    Sim.appended w'' = [(ToolMetricsLog, lit "{}" ++ [LF])].
Proof.
  eexists _, _, _, _, _. split; [vm_compute; reflexivity|].
  split; [vm_compute; reflexivity|]. repeat split; reflexivity.
Qed.

(* ===================================================================== *)
(** ** Command line entry point *)
(* ===================================================================== *)

Section MoreCommandLine.
Context {W : Type} {P : Platform W}.
Local Open Scope Q_scope.

Lemma Math_round_between (q : Q) (lo hi : Z) :
  inject_Z lo <= q -> q < inject_Z hi ->
  exists n, Math_round q = inject_Z n /\ (lo <= n <= hi)%Z.
Proof.
  intros Hlo Hhi. unfold Math_round. eexists. split; [reflexivity|]. split.
  - rewrite <- (Qfloor_Z lo). apply Qfloor_resp_le. lra.
  - pose proof (Qfloor_le (q + (1 # 2))) as Hfloor.
    assert (inject_Z (Qfloor (q + (1 # 2))) < inject_Z (hi + 1)) as Hlt.
    { rewrite inject_Z_plus. change (inject_Z 1) with 1. lra. }
    rewrite <- Zlt_Qlt in Hlt. lia.
Qed.

(** The two fields every record handed to the sink has. *)
Lemma sunk_common_fields (toolData : ToolData.t) (w : W) (log : list Call) :
  exists r w' calls,
    main toolData (w, log) = Ok r (w', log ++ calls) /\
    forall record,
      record ∈ sunk calls ->
      obj_lookup "success" record
        = Some (Bool (negb (truthy (js_or (ToolData.error toolData) Null)))) /\
      exists executionTime,
        ToNumber (js_or (ToolData.executionTime toolData) (Num 0))
        = inr executionTime /\
        obj_lookup "execution_time_ms" record = Some (Num (Math_round executionTime)).
Proof.
  destruct (main_run toolData w log) as (r & w' & calls & Hmain & Hout).
  exists r, w', calls. split; [exact Hmain|].
  intros record Hin.
  destruct (sunk_records _ _ _ _ _ _ Hout Hin)
    as (session & w3 & executionTime & m & Htime & Hm & [[HTask ->]|[message ->]]).
  - destruct (agent_fields (run_context toolData w) (run_timestamp w) executionTime
                (env_USER w3) (Str session) m HTask Hm)
      as (_ & _ & Asuccess & Aelapsed & _).
    split; [exact Asuccess|]. by exists executionTime.
  - destruct (primary_fields (run_context toolData w) (run_timestamp w) executionTime
                (env_USER w3) (Str session) message m Hm)
      as (_ & _ & _ & Psuccess & Pelapsed & _).
    split; [exact Psuccess|]. by exists executionTime.
Qed.
End MoreCommandLine.

(** X16.  Run directly, the file exits with status 1 exactly when there
    are at least three arguments and the fourth is a non-empty text that
    [JSON.parse] rejects, and then [main] has not been called.  In every
    other case it exits with status 0: with fewer than three arguments
    nothing is run at all, and otherwise [main] has run once, whatever
    its report says. *)
Theorem exit_status {W : Type} {P : Platform W}
    (JSON_parse : jsstring -> JSError + value) (Math_random : W -> Q * W)
    (argv : list jsstring) (w : W) (log : list Call) :
  let malformed :=
    negb (length argv <? 3)%nat && truthy (nth_arg argv 3)
    && match JSON_parse (default [] (argv !! 3%nat)) with
       | inl _ => true
       | inr _ => false
       end in
  let outcome := run_directly JSON_parse Math_random argv (w, log) in
  if malformed then outcome = (1%Z, (w, log))
  else
    outcome.1 = 0%Z /\
    if (length argv <? 3)%nat then outcome.2 = (w, log)
    else
      exists toolData r,
        ToolData.toolName toolData = nth_arg argv 2 /\
        main toolData ((Math_random w).2, log) = Ok r outcome.2.
Proof.
  intros malformed outcome. subst malformed outcome.
  unfold run_directly, simulateToolExecution.
  destruct (length argv <? 3)%nat; cbn [negb andb fst snd]; [done|].
  unfold parse_tool_input. run.
  destruct (truthy (nth_arg argv 3)); cbn [andb].
  - destruct (JSON_parse _) as [syntaxError|toolInput]; [done|]. cbn [fst snd].
    match goal with |- context [main ?td ?st] =>
      pose (toolData := td);
      destruct (main_run toolData (Math_random w).2 log)
        as (r & w' & calls & Hmain & _);
      change (main td st) with (main toolData ((Math_random w).2, log)) end.
    rewrite Hmain. cbn [fst snd]. split; [done|]. by exists toolData, r.
  - cbn [fst snd].
    match goal with |- context [main ?td ?st] =>
      pose (toolData := td);
      destruct (main_run toolData (Math_random w).2 log)
        as (r & w' & calls & Hmain & _);
      change (main td st) with (main toolData ((Math_random w).2, log)) end.
    rewrite Hmain. cbn [fst snd]. split; [done|]. by exists toolData, r.
Qed.

(** A fourth argument that [JSON.parse] rejects: status 1, nothing run. *)
Example exit_status_malformed :
  run_directly parse_double random_double
    [lit "node"; lit "tool-metrics.js"; lit "Edit"; lit "{old_string"]
    (Sim.quiet, [])
  = (1%Z, (Sim.quiet, [])).
Proof. reflexivity. Qed.

(** An Edit whose [old_string] is the number 5: the extractor throws,
    [main] reports the failure, nothing reaches the sink, and the status
    is 0 all the same. *)
Example exit_status_failed_report :
  let outcome :=
    run_directly parse_double random_double
      [lit "node"; lit "tool-metrics.js"; lit "Edit";
       lit "{" ++ quoted (lit "old_string") ++ lit ":5}"]
      (Sim.quiet, []) in
  outcome.1 = 0%Z /\ outcome.2.2 = [].
Proof. split; vm_compute; reflexivity. Qed.

(** X17.  A simulated invocation is a failure exactly when the fifth
    argument is the text ["false"]: every record handed to the sink has
    that success flag, and, [Math.random] being in [0, 1), an execution
    time that is a whole number of milliseconds between 10 and 110. *)
Theorem simulated_invocation {W : Type} {P : Platform W}
    (JSON_parse : jsstring -> JSError + value) (Math_random : W -> Q * W)
    (argv : list jsstring) (w : W) (log : list Call) :
  (forall w0, 0 <= (Math_random w0).1 < 1)%Q ->
  (success_flag argv = false <-> argv !! 4%nat = Some (lit "false")) /\
  match simulateToolExecution JSON_parse Math_random argv (w, log) with
  | Throw _ _ => True
  | Ok _ st' =>
      exists calls,
        st'.2 = log ++ calls /\
        forall record,
          record ∈ sunk calls ->
          obj_lookup "success" record = Some (Bool (success_flag argv)) /\
          exists n, obj_lookup "execution_time_ms" record = Some (Num (inject_Z n)) /\
                    (10 <= n <= 110)%Z
  end.
Proof.
  intros Hrandom. split.
  { unfold success_flag. rewrite negb_false_iff. apply bool_decide_eq_true. }
  unfold simulateToolExecution.
  destruct (length argv <? 3)%nat.
  { exists []. split; [by rewrite app_nil_r|]. intros record Hin.
    by apply elem_of_nil in Hin. }
  unfold parse_tool_input. run.
  assert (forall toolInput,
            match
              match
                main {| ToolData.toolName := nth_arg argv 2;
                        ToolData.toolInput := toolInput;
                        ToolData.error :=
                          if success_flag argv then Null
                          else Err (mkError (lit "Error") (lit "Simulated tool failure"));
                        ToolData.executionTime := Num ((Math_random w).1 * 100 + 10)%Q |}
                  ((Math_random w).2, log)
              with
              | Ok a s' => Ok tt s'
              | Throw e s' => Throw e s'
              end
            with
            | Throw _ _ => True
            | Ok _ st' =>
                exists calls,
                  st'.2 = log ++ calls /\
                  forall record,
                    record ∈ sunk calls ->
                    obj_lookup "success" record = Some (Bool (success_flag argv)) /\
                    exists n,
                      obj_lookup "execution_time_ms" record = Some (Num (inject_Z n)) /\
                      (10 <= n <= 110)%Z
            end) as Hmain.
  { intros toolInput.
    match goal with |- context [main ?td ?st] =>
      destruct (sunk_common_fields td (Math_random w).2 log)
        as (r & w' & calls & Hrun & Hfields) end.
    rewrite Hrun. exists calls. split; [done|]. intros record Hin.
    destruct (Hfields record Hin) as (Hsuccess & executionTime & Htime & Helapsed).
    cbn in Hsuccess, Htime. split.
    - rewrite Hsuccess. by destruct (success_flag argv).
    - destruct (Hrandom w) as [Hlow Hhigh].
      assert (js_or (Num ((Math_random w).1 * 100 + 10)%Q) (Num 0)
              = Num ((Math_random w).1 * 100 + 10)%Q) as Hor.
      { unfold js_or. cbn [truthy].
        destruct (Qeq_bool _ 0) eqn:Hzero; [|done].
        apply Qeq_bool_eq in Hzero. lra. }
      rewrite Hor, ToNumber_Num in Htime. injection Htime as <-.
      destruct (Math_round_between ((Math_random w).1 * 100 + 10)%Q 10 110)
        as (n & Hn & Hbounds).
      + change (inject_Z 10) with 10%Q. lra.
      + change (inject_Z 110) with 110%Q. lra.
      + exists n. by rewrite Helapsed, Hn. }
  destruct (truthy (nth_arg argv 3)).
  - destruct (JSON_parse _) as [syntaxError|toolInput]; [done|]. apply Hmain.
  - apply Hmain.
Qed.

Lemma simulated_invocation_witness :
  exists st' record,
    simulateToolExecution parse_double random_double
      [lit "node"; lit "tool-metrics.js"; lit "Edit"; lit "{}"; lit "false"]
      (Sim.quiet, [])
    = Ok tt st' /\
    record ∈ sunk st'.2 /\
    obj_lookup "success" record = Some (Bool false) /\
    exists n, obj_lookup "execution_time_ms" record = Some (Num (inject_Z n)) /\
              (10 <= n <= 110)%Z.
Proof.
  pose proof (@simulated_invocation Sim.World Sim.platform parse_double random_double
                [lit "node"; lit "tool-metrics.js"; lit "Edit"; lit "{}"; lit "false"]
                Sim.quiet []) as Hrun.
  destruct Hrun as [_ Hrun]; [intros w0; split; [discriminate|reflexivity]|].
  destruct (simulateToolExecution _ _ _ _) as [[] st'|e st'] eqn:Hsim;
    [|vm_compute in Hsim; discriminate].
  destruct Hrun as (calls & Hcalls & Hfields).
  assert (exists record, record ∈ sunk calls) as [record Hin].
  { vm_compute in Hsim. injection Hsim as <-. cbn in Hcalls. subst calls.
    eexists. apply elem_of_cons. left. reflexivity. }
  exists st', record. split; [reflexivity|]. split; [by rewrite Hcalls|].
  apply (Hfields record Hin).
Defined.

(* ===================================================================== *)
(** ** The reported execution time *)
(* ===================================================================== *)

Section ReportedTime.
Context {W : Type} {P : Platform W}.
Local Open Scope Q_scope.

Lemma ulp_pos (q : Q) : 0 < ulp q.
Proof. unfold ulp. by apply Qpower_0_lt. Qed.

Lemma round_half_even_nonneg (q : Q) : 0 <= q -> (0 <= round_half_even q)%Z.
Proof.
  intros Hq. unfold round_half_even.
  assert (0 <= Qfloor q)%Z as Hfloor.
  { rewrite <- (Qfloor_Z 0). by apply Qfloor_resp_le. }
  destruct (_ ?= _); [destruct (Z.even _)|..]; lia.
Qed.

(** Rounding to the nearest double keeps the sign. *)
Lemma double_nonneg (q : Q) : 0 <= q -> 0 <= double q.
Proof.
  intros Hq. unfold double. destruct (Qeq_bool q 0); [lra|].
  rewrite Qred_correct. pose proof (ulp_pos q) as Hulp.
  apply Qmult_le_0_compat; [|lra].
  change 0 with (inject_Z 0). rewrite <- Zle_Qle.
  apply round_half_even_nonneg. apply Qle_shift_div_l; [done|]. lra.
Qed.

Lemma Math_round_nonneg (q : Q) : 0 <= q -> 0 <= Math_round q.
Proof.
  intros Hq. unfold Math_round. change 0 with (inject_Z 0). rewrite <- Zle_Qle.
  rewrite <- (Qfloor_Z 0). apply Qfloor_resp_le. change (inject_Z 0) with 0. lra.
Qed.

Lemma reported_time_nonneg (w w_end : W) :
  ((hrtime_bigint w).1 <= (hrtime_bigint w_end).1)%Z ->
  0 <= reported_time w w_end.
Proof.
  intros Hclock. unfold reported_time, round2, elapsed_ms.
  apply double_nonneg. apply Qle_shift_div_l; [reflexivity|].
  rewrite Qmult_0_l. apply Math_round_nonneg, double_nonneg.
  apply Qmult_le_0_compat; [|discriminate].
  apply double_nonneg. apply Qle_shift_div_l; [reflexivity|].
  rewrite Qmult_0_l. apply double_nonneg.
  change 0 with (inject_Z 0). rewrite <- Zle_Qle. lia.
Qed.
End ReportedTime.

(** X18.  The [executionTime] of every report of [main], successful or
    failed, is computed in doubles from the first clock reading of the
    call and its last one: the difference of the two readings as a
    number, divided by 1000000, then multiplied by 100, rounded to a
    whole number and divided by 100, every operation rounding to the
    nearest double.  It is the double nearest to a whole number of
    hundredths, and it is not negative when the clock has not gone
    back. *)
Theorem reported_execution_time {W : Type} {P : Platform W}
    (toolData : ToolData.t) (w : W) (log : list Call) :
  exists r w' calls w_end,
    main toolData (w, log) = Ok r (w', log ++ calls) /\
    (w' = (hrtime_bigint w_end).2 \/
     w' = (memoryUsage_heapUsed (hrtime_bigint w_end).2).2) /\
    let startTime := (hrtime_bigint w).1 in
    let endTime := (hrtime_bigint w_end).1 in
    let executionTime := double (double (inject_Z (endTime - startTime)) / 1000000) in
    Report.executionTime r
    = double (Math_round (double (executionTime * 100)) / 100) /\
    (exists hundredths : Z,
        Report.executionTime r = double (inject_Z hundredths / 100)) /\
    ((startTime <= endTime)%Z -> (0 <= Report.executionTime r)%Q).
Proof.
  destruct (main_run toolData w log) as (r & w' & calls & Hmain & Hout).
  assert (forall w_end,
             Report.executionTime r = reported_time w w_end ->
             let startTime := (hrtime_bigint w).1 in
             let endTime := (hrtime_bigint w_end).1 in
             let executionTime :=
               double (double (inject_Z (endTime - startTime)) / 1000000) in
             Report.executionTime r
             = double (Math_round (double (executionTime * 100)) / 100) /\
             (exists hundredths : Z,
                 Report.executionTime r = double (inject_Z hundredths / 100)) /\
             ((startTime <= endTime)%Z -> (0 <= Report.executionTime r)%Q)) as Htime.
  { intros w_end ->. cbv zeta. split; [reflexivity|]. split.
    - unfold reported_time, round2, Math_round. by eexists.
    - apply reported_time_nonneg. }
  destruct Hout as [session w3 e Hsession Hne Hnumber
                   |session w3 executionTime e w4 Hsession Hne Hnumber Hextract
                   |session w3 executionTime m w4 w5 e Hsession Hne Hnumber
                      context Hextract metricsData agent Hagent Hdetails
                   |session w3 executionTime m w4 w5 primary outcome w6 w7
                      Hsession Hne Hnumber context Hextract metricsData agent
                      Hagent Hdetails Hprimary Hupdate].
  - eexists _, _, _, w3. split; [exact Hmain|]. split; [by left|]. by apply Htime.
  - eexists _, _, _, w4. split; [exact Hmain|]. split; [by left|]. by apply Htime.
  - eexists _, _, _, w5. split; [exact Hmain|]. split; [by left|]. by apply Htime.
  - eexists _, _, _, w7. split; [exact Hmain|]. split; [by right|]. by apply Htime.
Qed.

(** A call that took 1.005 ms is reported to have taken 1 ms, where
    rounding 1.005 itself to hundredths gives 1.01: in doubles, 1.005
    times 100 is 100.49999999999999, which rounds to 100. *)
Example reported_time_of_1005_microseconds :
  round2 (elapsed_ms 0 1005000) = 1%Q /\
  (Math_round ((1005000 # 1000000) * 100) / 100 == 101 # 100)%Q.
Proof. split; [vm_compute; reflexivity|reflexivity]. Qed.

(* ===================================================================== *)
(** ** Session resolver: the content of the session-id file *)
(* ===================================================================== *)

Section Trim.
Lemma trimStart_split (s : jsstring) :
  exists leading,
    s = leading ++ trimStart s /\ blank leading /\
    forall c, head (trimStart s) = Some c -> is_whitespace c = false.
Proof.
  induction s as [|c s (leading & Hs & Hblank & Hhead)]; cbn [trimStart].
  - exists []. split; [done|]. split; [constructor|done].
  - destruct (is_whitespace c) eqn:Hc.
    + exists (c :: leading). split; [cbn; congruence|]. split; [by constructor|done].
    + exists []. split; [done|]. split; [constructor|]. by intros ? [= <-].
Qed.

Lemma trimEnd_split (s : jsstring) :
  exists trailing,
    s = trimEnd s ++ trailing /\ blank trailing /\
    forall c, last (trimEnd s) = Some c -> is_whitespace c = false.
Proof.
  unfold trimEnd.
  destruct (trimStart_split (reverse s)) as (leading & Hs & Hblank & Hhead).
  exists (reverse leading). split; [|split].
  - rewrite <- reverse_app, <- Hs. by rewrite reverse_involutive.
  - by apply Forall_reverse.
  - intros c. rewrite last_reverse. apply Hhead.
Qed.

Lemma trim_split (s : jsstring) :
  exists leading trailing,
    s = leading ++ trim s ++ trailing /\ blank leading /\ blank trailing /\
    (forall c, head (trim s) = Some c -> is_whitespace c = false) /\
    (forall c, last (trim s) = Some c -> is_whitespace c = false).
Proof.
  unfold trim.
  destruct (trimStart_split s) as (leading & Hs & Hleading & Hhead).
  destruct (trimEnd_split (trimStart s)) as (trailing & Ht & Htrailing & Hlast).
  exists leading, trailing. split; [by rewrite <- Ht|]. split; [done|].
  split; [done|]. split; [|done].
  intros c Hc. apply Hhead. rewrite Ht.
  destruct (trimEnd (trimStart s)); [done|]. exact Hc.
Qed.
End Trim.

(** X19.  With the session-id variable unset or empty and a session-id
    file that can be read, the result is the content of the file without
    the whitespace around it, and ["default-session"] when nothing is
    left: the content is the result between two runs of whitespace, and
    the result neither starts nor ends with a whitespace character. *)
Theorem file_session_id_is_trimmed {W : Type} {P : Platform W}
    (w w0 w1 : W) (content : jsstring) :
  env_CLAUDE_SESSION_ID w = None \/ env_CLAUDE_SESSION_ID w = Some [] ->
  fs_pathExists CurrentSessionIdFile w = (true, w0) ->
  fs_readFile CurrentSessionIdFile w0 = Ok content w1 ->
  exists s leading trailing,
    getCurrentSessionId w = Ok (Str s) w1 /\
    (forall c, head s = Some c -> is_whitespace c = false) /\
    (forall c, last s = Some c -> is_whitespace c = false) /\
    blank leading /\ blank trailing /\
    if bool_decide (trim content = []) then
      s = lit "default-session" /\ content = leading ++ trailing
    else content = leading ++ s ++ trailing.
Proof.
  intros Henv Hexists Hread.
  destruct (trim_split content) as (leading & trailing & Hcontent & Hleading
                                    & Htrailing & Hhead & Hlast).
  assert (truthy (env_value (env_CLAUDE_SESSION_ID w)) = false) as Hfalsy
    by (by destruct Henv as [-> | ->]).
  assert (getCurrentSessionId w
          = Ok (js_or (Str (trim content)) (Str "default-session")) w1) as Hrun.
  { unfold getCurrentSessionId. run. rewrite Hfalsy. cbn [negb].
    rewrite Hexists. cbn [fst snd]. by rewrite Hread. }
  case_bool_decide as Hblank.
  - exists (lit "default-session"), leading, trailing.
    rewrite Hrun, Hblank. split; [done|].
    split; [by intros c [= <-]|]. split; [by intros c [= <-]|].
    split; [done|]. split; [done|]. split; [done|].
    by rewrite Hblank in Hcontent.
  - exists (trim content), leading, trailing. rewrite Hrun.
    split; [unfold js_or; by destruct (trim content)|]. by repeat split.
Qed.

Lemma file_session_id_is_trimmed_witness :
  exists s,
    getCurrentSessionId
      (Sim.with_session_file (9%N :: lit " session 42 " ++ [LF]) Sim.quiet)
    = Ok (Str s) (Sim.with_session_file (9%N :: lit " session 42 " ++ [LF]) Sim.quiet) /\
    s = lit "session 42".
Proof.
  destruct (@file_session_id_is_trimmed Sim.World Sim.platform
              (Sim.with_session_file (9%N :: lit " session 42 " ++ [LF]) Sim.quiet)
              _ _ (9%N :: lit " session 42 " ++ [LF])
              (or_introl eq_refl) eq_refl eq_refl)
    as (s & leading & trailing & Hrun & _).
  exists s. split; [exact Hrun|].
  vm_compute in Hrun. by injection Hrun as <-.
Defined.

(* ===================================================================== *)
(** ** Metrics sink: every way a call ends *)
(* ===================================================================== *)

(** X20.  [logMetrics] never throws.  When the remote submission
    returns, its result is returned as it is.  When it throws, whatever
    the value thrown, the method of the outcome is ["local_fallback"]
    and the call ends where the local fallback ended; the outcome is a
    success, carrying the [message] of the value thrown, only when the
    local fallback completed and the value thrown is neither [null] nor
    [undefined]; it is a failure, with the message that both the API and
    the local storage failed, when the local fallback threw and also
    when it completed but the value thrown is [null] or [undefined],
    reading [message] from it being what throws then. *)
Theorem logMetrics_outcome {W : Type} {P : Platform W} (data : obj) (w : W) :
  match remote_submission data w with
  | Resolved result w1 => logMetrics data w = Ok result w1
  | Rejected error w1 =>
      exists outcome,
        logMetrics data w = Ok outcome (end_state (localFallback data w1)) /\
        Outcome.method outcome = Str "local_fallback" /\
        match localFallback data w1 with
        | Ok _ _ =>
            match error with
            | Null | Undefined =>
                Outcome.success outcome = Bool false /\
                Outcome.message outcome = Str "Both API and local storage failed" /\
                exists e, message_of error = inl e /\
                          Outcome.error outcome = Str (err_message e)
            | _ =>
                Outcome.success outcome = Bool true /\
                Outcome.message outcome
                = Str "API client failed, data stored locally" /\
                Outcome.error outcome = get_prop error "message"
            end
        | Throw fallbackError _ =>
            Outcome.success outcome = Bool false /\
            Outcome.message outcome = Str "Both API and local storage failed" /\
            Outcome.error outcome = Str (err_message fallbackError)
        end
  end.
Proof.
  unfold logMetrics.
  destruct (remote_submission data w) as [result w1|error w1]; [done|]. run.
  destruct (localFallback data w1) as [[] w2|fallbackError w2]; cbn [end_state].
  - destruct error; cbn [message_of]; eexists; (split; [reflexivity|]);
      (split; [reflexivity|]); repeat split; try reflexivity;
      eexists; split; reflexivity.
  - eexists. split; [reflexivity|]. by repeat split.
Qed.
